(** * PDF2PNG: the conversion, its memoisation and the page viewer

    A shallow embedding of the three Streamlit scripts of the repository
    ([app.py], [app1.py], [app2.py]) and the properties their specification
    states about them.

    The scripts are glue around three collaborators that are not part of
    the repository: the PDF renderer ([pdf2image.convert_from_bytes] and
    [PIL.Image.save]), the archive writer ([zipfile.ZipFile]) and the
    Streamlit runtime ([st.cache_data], [st.session_state], widgets).  The
    renderer is a parameter of the development; the archive writer and the
    runtime are modelled by the small definitions below, each of which
    says which library behaviour it stands for. *)

From Stdlib Require Import List ZArith String Ascii Bool Arith Lia.
From Stdlib Require Decimal DecimalNat DecimalString.
Import ListNotations.

Open Scope list_scope.

(** ** Python values *)

(** A [bytes] object. *)
Definition bytes := list Byte.byte.

Fixpoint bytes_eqb (a b : bytes) : bool :=
  match a, b with
  | [], [] => true
  | x :: a', y :: b' => Byte.eqb x y && bytes_eqb a' b'
  | _, _ => false
  end.

(** An instance of [Exception]: its class name and what [str(e)] gives.
    Everything the calls inside the scripts' [try] blocks raise
    (pdf2image's [PDFInfoNotInstalledError], [PDFPageCountError] and
    [PDFSyntaxError], PIL's [OSError] and [ValueError]) is of this kind. *)
Record exn := Raise { exn_type : string; exn_str : string }.

(** A computation that returns a value or raises. *)
Definition Exc (A : Type) : Type := (exn + A)%type.

Definition ret {A} (a : A) : Exc A := inr a.
Definition raise {A} (e : exn) : Exc A := inl e.
Definition bind {A B} (c : Exc A) (k : A -> Exc B) : Exc B :=
  match c with
  | inl e => inl e
  | inr a => k a
  end.

Notation "x <- c ;; k" := (bind c (fun x => k))
  (at level 61, c at next level, right associativity).
Notation "' pat <- c ;; k" := (bind c (fun x => match x with pat => k end))
  (at level 61, pat pattern, c at next level, right associativity).

(** [try: body / except Exception as e: handler e]. *)
Definition try_except {A} (body : Exc A) (handler : exn -> Exc A) : Exc A :=
  match body with
  | inl e => handler e
  | inr a => inr a
  end.

(** ** String formatting *)

Fixpoint zeros (k : nat) : string :=
  match k with
  | O => EmptyString
  | S k' => String "0" (zeros k')
  end.

(** [str(n)] for a non-negative integer. *)
Definition str_of_nat (n : nat) : string :=
  DecimalString.NilZero.string_of_uint (Nat.to_uint n).

(** The format specification [{z:03d}]: the decimal digits of [z], filled
    with zeros on the left up to a width of three characters; the sign of
    a negative number comes first and counts in the width. *)
Definition format_03d (z : Z) : string :=
  let s := str_of_nat (Z.abs_nat z) in
  if (z <? 0)%Z
  then (String "-" (zeros (2 - String.length s)) ++ s)%string
  else (zeros (3 - String.length s) ++ s)%string.

(** [f"page_{i + 1:03d}.png"] ([app1.py] line 40, [app2.py] line 43) with
    [prefix] empty, and [f"{pdf_filename}_page_{i + 1:03d}.png"]
    ([app.py] line 79, and the single page downloads) with [prefix] the
    document's base name followed by an underscore. *)
Definition page_name (prefix : string) (i : Z) : string :=
  (prefix ++ "page_" ++ format_03d (i + 1) ++ ".png")%string.

(** ** The archive writer

    [zipfile.ZipFile(zip_buffer, "w", zipfile.ZIP_DEFLATED)] followed by
    [zf.writestr(name, data)] calls.  [writestr] with a name builds
    [ZipInfo(filename=name, date_time=time.localtime(time.time())[:6])],
    so that every member's header carries, next to its name, the local
    time at which it was written, stored as the two MS-DOS words of the
    ZIP format (date, and time with a resolution of two seconds).  The
    byte stream [zip_buffer.getvalue()] is the serialisation of the member
    list; an archive is represented here by that list, the member content
    standing for its deflated form. *)

(** The host, as far as [zipfile] depends on it: [os.sep] is a backslash
    on Windows and a slash everywhere else. *)
Class Platform := { windows : bool }.

Definition os_sep {platform : Platform} : ascii :=
  if windows then "\"%char else "/"%char.

(** [filename[0:filename.find(chr(0))]] when there is a null character,
    [filename] otherwise. *)
Fixpoint until_null (filename : string) : string :=
  match filename with
  | EmptyString => EmptyString
  | String c rest =>
      if Ascii.eqb c zero then EmptyString else String c (until_null rest)
  end.

(** [filename.replace(old, new)] for one character strings. *)
Fixpoint replace (old new : ascii) (filename : string) : string :=
  match filename with
  | EmptyString => EmptyString
  | String c rest =>
      String (if Ascii.eqb c old then new else c) (replace old new rest)
  end.

(** The name [ZipInfo.__init__] keeps for a member: the file name is cut
    at its first null character, and where [os.sep] is not a slash each
    [os.sep] in it becomes a slash.  ([os.altsep], which newer versions
    replace as well, is a slash on Windows and absent elsewhere.) *)
Definition ZipInfo_filename {platform : Platform} (filename : string)
    : string :=
  let filename := until_null filename in
  if negb (Ascii.eqb os_sep "/")
  then replace os_sep "/" filename
  else filename.

(** The characters, and the names, that [ZipInfo] keeps as they are:
    no null character, and no [os.sep] other than a slash. *)
Definition unchanged_char {platform : Platform} (c : ascii) : bool :=
  negb (Ascii.eqb c zero) &&
  negb (negb (Ascii.eqb os_sep "/") && Ascii.eqb c os_sep).

Fixpoint unchanged {platform : Platform} (filename : string) : bool :=
  match filename with
  | EmptyString => true
  | String c rest => unchanged_char c && unchanged rest
  end.

Definition ZIP_DEFLATED : Z := 8.

(** The (date, time) words of a member header. *)
Definition Stamp : Type := (Z * Z)%type.

Record ZipInfo := {
  filename : string;
  date_time : Stamp;
  compress_type : Z;
  content : bytes
}.

Definition ZipFile := list ZipInfo.

(** [zf.writestr(arcname, data)] at the local time [now]. *)
Definition writestr {platform : Platform} (zf : ZipFile) (arcname : string)
    (data : bytes) (now : Stamp) : ZipFile :=
  zf ++ [{| filename := ZipInfo_filename arcname; date_time := now;
            compress_type := ZIP_DEFLATED; content := data |}].

(** [ZipFile.read(name)]: the archive's name table maps the name a member
    was stored under to the member written last under it; a name that is
    not in the table is a [KeyError], here [None]. *)
Definition zip_read (zf : ZipFile) (name : string) : option bytes :=
  option_map content
    (find (fun zi => String.eqb (filename zi) name) (List.rev zf)).

Definition namelist (zf : ZipFile) : list string := map filename zf.

(** ** The conversion *)

(** What [perform_conversion] returns: the tuple
    [(image_bytes_list, zip_buffer.getvalue())] of line 42 ([app1.py]) or
    the tuple [(None, str(e))] of line 45.  Callers tell the two apart with
    [isinstance(image_bytes_list, list)]. *)
Inductive conversion :=
| Converted (image_bytes_list : list bytes) (zip_data : ZipFile)
| ConversionError (message : string).

Definition is_list (r : conversion) : bool :=
  match r with
  | Converted _ _ => true
  | ConversionError _ => false
  end.

Section Conversion.

Context {platform : Platform}.

(** A rendered page ([PIL.Image.Image]). *)
Variable Image : Type.

(** [convert_from_bytes(pdf_bytes, dpi=dpi)]: the list of page images in
    document order, or an exception. *)
Variable convert_from_bytes : bytes -> Z -> Exc (list Image).

(** [image.save(img_buffer, format="PNG"); img_buffer.getvalue()]. *)
Variable save_png : Image -> Exc bytes.

(** The reading of the wall clock when the [i]-th member (from 0) is
    written during the [run]-th execution of the conversion. *)
Variable localtime : nat -> nat -> Stamp.

(** The [for i, image in enumerate(images)] loop, started at index [i]
    with the list and the archive built so far. *)
Fixpoint conversion_loop (prefix : string) (run i : nat) (images : list Image)
    (image_bytes_list : list bytes) (zf : ZipFile)
    : Exc (list bytes * ZipFile) :=
  match images with
  | [] => ret (image_bytes_list, zf)
  | image :: rest =>
      img_bytes <- save_png image ;;
      let image_bytes_list := image_bytes_list ++ [img_bytes] in
      let zf := writestr zf (page_name prefix (Z.of_nat i)) img_bytes (localtime run i) in
      conversion_loop prefix run (S i) rest image_bytes_list zf
  end.

(** The statements inside [try:] ([app1.py] lines 28 to 42). *)
Definition conversion_try (run : nat) (pdf_bytes : bytes) (dpi : Z)
    : Exc conversion :=
  images <- convert_from_bytes pdf_bytes dpi ;;
  '(image_bytes_list, zf) <- conversion_loop EmptyString run 0 images [] [] ;;
  ret (Converted image_bytes_list zf).

(** The body of [perform_conversion] ([app1.py] lines 18 to 45,
    [app2.py] lines 18 to 48), executed for the [run]-th time. *)
Definition perform_conversion_body (run : nat) (pdf_bytes : bytes) (dpi : Z)
    : Exc conversion :=
  try_except (conversion_try run pdf_bytes dpi)
    (fun e => ret (ConversionError (exn_str e))).

End Conversion.

(** ** The memoised conversion *)

(** The arguments of one call: [(pdf_bytes, dpi)].  [st.cache_data] keys an
    entry on the values of the arguments. *)
Definition Request : Type := (bytes * Z)%type.

Definition request_eqb (a b : Request) : bool :=
  bytes_eqb (fst a) (fst b) && Z.eqb (snd a) (snd b).

(** The [max_entries=5] of the decorator ([app1.py] and [app2.py],
    line 17). *)
Definition max_entries : nat := 5.

(** Modelled from the spec: the store behind [st.cache_data], which belongs
    to the Streamlit runtime.  It is a mapping from request to result of
    bounded capacity that evicts the oldest entries beyond [max_entries];
    at most one result is held per request.  Entries are kept oldest
    first. *)
Definition Cache : Type := list (Request * conversion).

(** Modelled from the spec: look-up by exact match of the request. *)
Fixpoint cache_get (c : Cache) (k : Request) : option conversion :=
  match c with
  | [] => None
  | (k', v) :: c' => if request_eqb k' k then Some v else cache_get c' k
  end.

(** Modelled from the spec: the store without the entry of [k]. *)
Definition cache_remove (c : Cache) (k : Request) : Cache :=
  filter (fun kv => negb (request_eqb (fst kv) k)) c.

(** Modelled from the spec: eviction of the oldest entries beyond the
    capacity. *)
Definition evict (c : Cache) : Cache :=
  skipn (List.length c - max_entries) c.

(** Modelled from the spec: storing a result makes it the newest entry,
    replaces what was held for the request and evicts beyond the
    capacity. *)
Definition cache_set (c : Cache) (k : Request) (v : conversion) : Cache :=
  evict (cache_remove c k ++ [(k, v)]).

(** Modelled from the spec: what a hit does to the store, which belongs
    to the Streamlit runtime.  The spec orders eviction by insertion;
    whether answering a hit also makes the entry the newest one, as a
    least-recently-used store does, is not fixed by the scripts, so it is
    left open: with [refresh] the entry moves to the newest position,
    without it the store is unchanged. *)
Definition cache_hit (refresh : bool) (c : Cache) (k : Request)
    (v : conversion) : Cache :=
  if refresh then cache_remove c k ++ [(k, v)] else c.

Definition cache_keys (c : Cache) : list Request := map fst c.

(** The state shared by all calls of [perform_conversion]: the store, and
    the number of times the function body has been executed so far.  Every
    execution of the body calls the renderer exactly once, as its first
    statement, and builds one archive; [executions] is therefore the
    invocation counter of the renderer as well. *)
Record World := {
  cache : Cache;
  executions : nat
}.

Section Memoised.

Context {platform : Platform}.

Variable Image : Type.
Variable convert_from_bytes : bytes -> Z -> Exc (list Image).
Variable save_png : Image -> Exc bytes.
Variable localtime : nat -> nat -> Stamp.
Variable refresh : bool.

(** [perform_conversion] as the scripts call it, that is under
    [@st.cache_data(max_entries=5)]: "This function is cached and will
    only run when the input changes" ([app2.py] line 16).  A call whose
    arguments have an entry returns the stored value without running the
    body; otherwise the body runs and the value it returns is stored.  An
    exception leaving the body would pass through the decorator to the
    caller and leave no entry. *)
Definition perform_conversion (pdf_bytes : bytes) (dpi : Z) (w : World)
    : Exc conversion * World :=
  match cache_get (cache w) (pdf_bytes, dpi) with
  | Some r =>
      (ret r,
       {| cache := cache_hit refresh (cache w) (pdf_bytes, dpi) r;
          executions := executions w |})
  | None =>
      match
        perform_conversion_body Image convert_from_bytes save_png localtime
          (executions w) pdf_bytes dpi
      with
      | inr r =>
          (ret r,
           {| cache := cache_set (cache w) (pdf_bytes, dpi) r;
              executions := S (executions w) |})
      | inl e =>
          (raise e,
           {| cache := cache w; executions := S (executions w) |})
      end
  end.

(** A sequence of calls, in order, whose results are dropped. *)
Fixpoint perform_conversions (reqs : list Request) (w : World) : World :=
  match reqs with
  | [] => w
  | (pdf_bytes, dpi) :: rest =>
      perform_conversions rest (snd (perform_conversion pdf_bytes dpi w))
  end.

End Memoised.

Definition empty_world : World := {| cache := []; executions := 0 |}.

(** ** The scripts *)

(** The object [st.file_uploader] returns once a file is chosen. *)
Record UploadedFile := {
  name : string;
  file_id : string;
  getvalue : bytes
}.

Definition enumerate {A} (l : list A) : list (nat * A) :=
  combine (seq 0 (List.length l)) l.

(** [l[i]] on a Python list: negative indices count from the end, anything
    outside [-len(l) .. len(l) - 1] raises [IndexError]. *)
Definition py_getitem {A} (l : list A) (i : Z) : Exc A :=
  let n := Z.of_nat (List.length l) in
  let j := if (i <? 0)%Z then (n + i)%Z else i in
  if ((0 <=? j) && (j <? n))%Z%bool
  then match nth_error l (Z.to_nat j) with
       | Some x => ret x
       | None => raise (Raise "IndexError" "list index out of range")
       end
  else raise (Raise "IndexError" "list index out of range").

(** [l.index(x)]: the first position of [x], [ValueError] when absent. *)
Fixpoint list_index (l : list Z) (x : Z) : Exc nat :=
  match l with
  | [] => raise (Raise "ValueError" "value is not in list")
  | y :: l' => if (y =? x)%Z then ret 0 else (i <- list_index l' x ;; ret (S i))
  end.

Definition dpi_options : list Z := [150; 300; 600]%Z.

Section Scripts.

Context {platform : Platform}.

Variable Image : Type.
Variable convert_from_bytes : bytes -> Z -> Exc (list Image).
Variable save_png : Image -> Exc bytes.
Variable localtime : nat -> nat -> Stamp.
Variable refresh : bool.

(** [int(s)] on a string: the integer [s] denotes, nothing when [s] is
    not an integer literal. *)
Variable int_of_str : string -> option Z.

(** [os.path.splitext(name)[0]]. *)
Variable splitext_root : string -> string.

(** [int(os.getenv("OUTPUT_DPI", 300))], given the value of the
    environment variable if it is set: [os.getenv] returns the string of
    the variable, or the integer 300 when there is none. *)
Definition read_OUTPUT_DPI (OUTPUT_DPI : option string) : Exc Z :=
  match OUTPUT_DPI with
  | None => ret 300%Z
  | Some s =>
      match int_of_str s with
      | Some z => ret z
      | None =>
          raise (Raise "ValueError"
                   ("invalid literal for int() with base 10: '" ++ s ++ "'")%string)
      end
  end.

(** The selection of the default resolution in [app1.py] (lines 59 to
    63) and [app2.py] (lines 60 to 64), under [except ValueError]. *)
Definition default_index (OUTPUT_DPI : option string) : Exc nat :=
  try_except
    (default_dpi <- read_OUTPUT_DPI OUTPUT_DPI ;;
     list_index dpi_options default_dpi)
    (fun e => if String.eqb (exn_type e) "ValueError" then ret 1 else raise e).

(** *** [app.py] *)

(** What one run of [app.py] puts on the page. *)
Inductive AppView :=
| UploadPrompt
| Pages (found : nat) (zip_data : ZipFile) (zip_name : string)
    (downloads : list (string * bytes))
| ConversionFailed (e : exn).

(** Lines 44 to 124 of [app.py], for the [run]-th run that converts. *)
Definition app_main (DPI : Z) (uploaded_file : option UploadedFile)
    (run : nat) : Exc AppView :=
  match uploaded_file with
  | Some f =>
      let pdf_filename := splitext_root (name f) in
      try_except
        (let pdf_bytes := getvalue f in
         images <- convert_from_bytes pdf_bytes DPI ;;
         '(image_bytes_list, zf) <-
            conversion_loop Image save_png localtime
              (pdf_filename ++ "_")%string run 0 images [] [] ;;
         ret (Pages (List.length images) zf
                (pdf_filename ++ "_all_pages.zip")%string
                (map (fun p => (page_name (pdf_filename ++ "_")%string
                                  (Z.of_nat (fst p)), snd p))
                     (enumerate image_bytes_list))))
        (fun e => ret (ConversionFailed e))
  | None => ret UploadPrompt
  end.

(** One run of [app.py]: line 34 reads the resolution, outside any
    [try], then the rest of the script runs. *)
Definition app_script (OUTPUT_DPI : option string)
    (uploaded_file : option UploadedFile) (run : nat) : Exc AppView :=
  DPI <- read_OUTPUT_DPI OUTPUT_DPI ;;
  app_main DPI uploaded_file run.

End Scripts.

(** *** [app1.py]: the page viewer *)

Module App1.

(** [st.session_state]: the keys the script assigns, each absent or
    holding a value.  [image_bytes_list] holds a list or [None];
    [zip_data] holds the archive or the error text. *)
Record SessionState := {
  image_bytes_list : option (option (list bytes));
  zip_data : option (ZipFile + string);
  last_file_id : option string;
  last_dpi : option Z;
  pdf_filename : option string;
  total_pages : option Z;
  current_page_index : option Z
}.

(** [st.session_state.clear()]. *)
Definition clear : SessionState :=
  {| image_bytes_list := None; zip_data := None; last_file_id := None;
     last_dpi := None; pdf_filename := None; total_pages := None;
     current_page_index := None |}.

Definition set_current_page_index (ss : SessionState) (i : Z)
    : SessionState :=
  {| image_bytes_list := image_bytes_list ss; zip_data := zip_data ss;
     last_file_id := last_file_id ss; last_dpi := last_dpi ss;
     pdf_filename := pdf_filename ss; total_pages := total_pages ss;
     current_page_index := Some i |}.

(** The [on_change] callback of the file uploader (line 54) and of the
    resolution select box (line 71):
    [st.session_state.update(current_page_index=0)]. *)
Definition on_change (ss : SessionState) : SessionState :=
  set_current_page_index ss 0.

(** Reading [st.session_state.<key>]. *)
Definition attr {A} (key : string) (v : option A) : Exc A :=
  match v with
  | Some a => ret a
  | None => raise (Raise "AttributeError" key)
  end.

(** [st.button(label, disabled=d)]: true in the run the click triggers; a
    disabled button cannot be clicked. *)
Definition st_button (clicked disabled : bool) : bool :=
  clicked && negb disabled.

Record Buttons := {
  previous_clicked : bool;
  next_clicked : bool
}.

Definition no_click : Buttons :=
  {| previous_clicked := false; next_clicked := false |}.

(** The page a run displays (lines 124 to 164). *)
Record Shown := {
  current_index : Z;
  current_image_bytes : bytes;
  current_page_name : string;
  of_total : Z;
  previous_disabled : bool;
  next_disabled : bool
}.

(** How a run of the script ends: at its last line, at an [st.rerun()],
    or with an exception. *)
Inductive Status :=
| Finished
| RerunRequested
| Raised (e : exn).

Record Pass := {
  world_after : World;
  session_after : SessionState;
  shown : option Shown;
  status : Status
}.

(** The stored fields of a conversion result (lines 105, 106, 110). *)
Definition list_or_None (r : conversion) : option (list bytes) :=
  match r with
  | Converted l _ => Some l
  | ConversionError _ => None
  end.

Definition zip_or_message (r : conversion) : ZipFile + string :=
  match r with
  | Converted _ z => inl z
  | ConversionError m => inr m
  end.

Definition len_or_0 (r : conversion) : Z :=
  match r with
  | Converted l _ => Z.of_nat (List.length l)
  | ConversionError _ => 0
  end.

(** The test of line 100:
    ["last_file_id" not in st.session_state
     or st.session_state.last_file_id != file_id
     or st.session_state.last_dpi != dpi]. *)
Definition needs_conversion (ss : SessionState) (fid : string) (dpi : Z)
    : Exc bool :=
  match last_file_id ss with
  | None => ret true
  | Some id =>
      if negb (String.eqb id fid) then ret true
      else (d <- attr "last_dpi" (last_dpi ss) ;; ret (negb (d =? dpi)%Z))
  end.

(** Lines 121 to 164: the current page and the navigation buttons. *)
Definition display (w : World) (ss : SessionState) (b : Buttons) : Pass :=
  let stop e :=
    {| world_after := w; session_after := ss; shown := None;
       status := Raised e |} in
  let nothing :=
    {| world_after := w; session_after := ss; shown := None;
       status := Finished |} in
  match image_bytes_list ss with
  | Some (Some l) =>
      match attr "total_pages" (total_pages ss) with
      | inl e => stop e
      | inr total =>
          if (0 <? total)%Z then
            match
              current_index <- attr "current_page_index"
                                 (current_page_index ss) ;;
              current_image_bytes <- py_getitem l current_index ;;
              pdf_filename <- attr "pdf_filename" (pdf_filename ss) ;;
              ret {| current_index := current_index;
                     current_image_bytes := current_image_bytes;
                     current_page_name :=
                       page_name (pdf_filename ++ "_")%string current_index;
                     of_total := total;
                     previous_disabled := (current_index =? 0)%Z;
                     next_disabled := (current_index =? total - 1)%Z |}
            with
            | inl e => stop e
            | inr page =>
                if st_button (previous_clicked b) (previous_disabled page)
                then
                  {| world_after := w;
                     session_after :=
                       set_current_page_index ss (current_index page - 1);
                     shown := Some page; status := RerunRequested |}
                else if st_button (next_clicked b) (next_disabled page)
                then
                  {| world_after := w;
                     session_after :=
                       set_current_page_index ss (current_index page + 1);
                     shown := Some page; status := RerunRequested |}
                else
                  {| world_after := w; session_after := ss;
                     shown := Some page; status := Finished |}
            end
          else nothing
      end
  | _ => nothing
  end.

Section Script.

Context {platform : Platform}.

Variable Image : Type.
Variable convert_from_bytes : bytes -> Z -> Exc (list Image).
Variable save_png : Image -> Exc bytes.
Variable localtime : nat -> nat -> Stamp.
Variable refresh : bool.
Variable splitext_root : string -> string.

(** Lines 101 to 118: convert, store the result, reset the index, and
    clear everything again when the result is not a list. *)
Definition convert_and_store (w : World) (ss : SessionState)
    (f : UploadedFile) (dpi : Z) : Exc SessionState * World :=
  match
    perform_conversion Image convert_from_bytes save_png localtime
      refresh (getvalue f) dpi w
  with
  | (inl e, w') => (raise e, w')
  | (inr r, w') =>
      let ss' :=
        {| image_bytes_list := Some (list_or_None r);
           zip_data := Some (zip_or_message r);
           last_file_id := Some (file_id f);
           last_dpi := Some dpi;
           pdf_filename := Some (splitext_root (name f));
           total_pages := Some (len_or_0 r);
           current_page_index := Some 0%Z |} in
      (ret (if is_list r then ss' else clear), w')
  end.

(** One execution of the script body (lines 91 to 171) with the given
    widget values. *)
Definition script_pass (w : World) (ss : SessionState)
    (uploaded_file : option UploadedFile) (dpi : Z) (b : Buttons)
    : Pass :=
  let ss :=
    match current_page_index ss with
    | None => set_current_page_index ss 0
    | Some _ => ss
    end in
  match uploaded_file with
  | Some f =>
      match needs_conversion ss (file_id f) dpi with
      | inl e =>
          {| world_after := w; session_after := ss; shown := None;
             status := Raised e |}
      | inr true =>
          match convert_and_store w ss f dpi with
          | (inl e, w') =>
              {| world_after := w'; session_after := ss; shown := None;
                 status := Raised e |}
          | (inr ss', w') => display w' ss' b
          end
      | inr false => display w ss b
      end
  | None =>
      {| world_after := w;
         session_after :=
           match last_file_id ss with
           | Some _ => set_current_page_index clear 0
           | None => ss
           end;
         shown := None; status := Finished |}
  end.

(** The browser side of one session: the shared world, the session
    state and the current values of the two sidebar widgets. *)
Record App := {
  world : World;
  session : SessionState;
  uploaded_file : option UploadedFile;
  dpi : Z
}.

Inductive Event :=
| Upload (f : option UploadedFile)
| SelectDpi (d : Z)
| ClickPrevious
| ClickNext
| Refresh.

(** A run of the script, followed by the run an [st.rerun()] starts. *)
Definition run_script (w : World) (ss : SessionState)
    (up : option UploadedFile) (d : Z) (b : Buttons)
    : App * list Shown * Status :=
  let p := script_pass w ss up d b in
  let pages1 := match shown p with Some s => [s] | None => [] end in
  match status p with
  | RerunRequested =>
      let q := script_pass (world_after p) (session_after p) up d
                 no_click in
      ({| world := world_after q; session := session_after q;
          uploaded_file := up; dpi := d |},
       pages1 ++ match shown q with Some s => [s] | None => [] end,
       status q)
  | st =>
      ({| world := world_after p; session := session_after p;
          uploaded_file := up; dpi := d |}, pages1, st)
  end.

(** What one user action does: the widget takes its new value, its
    [on_change] callback runs, then the script. *)
Definition step (e : Event) (a : App) : App * list Shown * Status :=
  match e with
  | Upload f =>
      run_script (world a) (on_change (session a)) f (dpi a) no_click
  | SelectDpi d =>
      run_script (world a) (on_change (session a)) (uploaded_file a) d
        no_click
  | ClickPrevious =>
      run_script (world a) (session a) (uploaded_file a) (dpi a)
        {| previous_clicked := true; next_clicked := false |}
  | ClickNext =>
      run_script (world a) (session a) (uploaded_file a) (dpi a)
        {| previous_clicked := false; next_clicked := true |}
  | Refresh =>
      run_script (world a) (session a) (uploaded_file a) (dpi a) no_click
  end.

(** The states a session can be in: it starts with an empty session
    state and no file, whatever the shared store then holds. *)
Inductive reachable : App -> Prop :=
| reachable_start w d :
    reachable {| world := w; session := clear; uploaded_file := None;
                 dpi := d |}
| reachable_step a e :
    reachable a -> reachable (fst (fst (step e a))).

End Script.

(** The shape of the session state between runs: either no result is
    stored, or a page list is stored together with its length, the file
    and resolution it belongs to, and an index that points into it (index
    0 when the list is empty). *)
Definition consistent (ss : SessionState) : Prop :=
  match image_bytes_list ss with
  | None => last_file_id ss = None
  | Some None => False
  | Some (Some l) =>
      total_pages ss = Some (Z.of_nat (List.length l)) /\
      last_file_id ss <> None /\ last_dpi ss <> None /\
      pdf_filename ss <> None /\
      exists i, current_page_index ss = Some i /\
                (0 <= i)%Z /\ (i < Z.of_nat (List.length l) \/ i = 0)%Z
  end.

(** A displayed page lies within the list stored in [ss]. *)
Definition in_bounds (ss : SessionState) (page : Shown) : Prop :=
  (0 <= current_index page <= of_total page - 1)%Z /\
  exists l,
    image_bytes_list ss = Some (Some l) /\
    of_total page = Z.of_nat (List.length l) /\
    nth_error l (Z.to_nat (current_index page)) =
      Some (current_image_bytes page) /\
    previous_disabled page = (current_index page =? 0)%Z /\
    next_disabled page = (current_index page =? of_total page - 1)%Z.

End App1.

(** ** A test double for the collaborators

    A renderer in the manner of the invocation-counting mock the
    specification asks for: a document is the four bytes [%PDF] followed
    by one byte per page, anything else is refused as pdf2image refuses a
    file whose page count it cannot read.  A page whose byte is [0xff]
    cannot be encoded.  The clock advances by one day from one execution
    of the conversion to the next and by two seconds from one member to
    the next.  The host is a Windows machine. *)
Module Mock.

Import Byte.

Definition Image : Type := byte.

Definition convert_from_bytes (pdf_bytes : bytes) (dpi : Z)
    : Exc (list Image) :=
  match pdf_bytes with
  | x25 :: x50 :: x44 :: x46 :: pages => ret pages
  | _ => raise (Raise "PDFPageCountError" "Unable to get page count.")
  end.

Definition save_png (image : Image) : Exc bytes :=
  if Byte.eqb image xff
  then raise (Raise "OSError" "cannot write mode F as PNG")
  else ret [x89; x50; x4e; x47; image].

Definition localtime (run i : nat) : Stamp :=
  (23395 + Z.of_nat run, Z.of_nat i)%Z.

(** The double runs on Windows, the host the commented [poppler_path]
    of the scripts is written for. *)
#[global] Instance host : Platform := {| windows := true |}.

(** A document of [n] pages. *)
Definition document (n : nat) : bytes :=
  [x25; x50; x44; x46] ++ repeat x01 n.

(** A three page document, one of whose second page cannot be encoded,
    and a file that is not a PDF. *)
Definition three_pages : bytes := [x25; x50; x44; x46; x0a; x0b; x0c].
Definition bad_page : bytes := [x25; x50; x44; x46; x0a; xff; x0c].
Definition not_a_pdf : bytes := [x68; x69].

(** [int(s)] on ASCII text: blanks around the literal are dropped, a
    sign may precede the digits, and single underscores may separate
    digits. *)
Definition is_space (c : ascii) : bool :=
  let n := nat_of_ascii c in
  ((9 <=? n) && (n <=? 13)) || ((28 <=? n) && (n <=? 32)).

Definition digit_of (c : ascii) : option Z :=
  let n := nat_of_ascii c in
  if (48 <=? n) && (n <=? 57) then Some (Z.of_nat (n - 48)) else None.

Fixpoint lstrip (s : list ascii) : list ascii :=
  match s with
  | c :: s' => if is_space c then lstrip s' else s
  | [] => []
  end.

Definition strip (s : list ascii) : list ascii :=
  List.rev (lstrip (List.rev (lstrip s))).

(** The digits after the first one, [acc] being the value read so far. *)
Fixpoint more_digits (acc : Z) (s : list ascii) : option Z :=
  match s with
  | [] => Some acc
  | c :: s' =>
      match digit_of c with
      | Some d => more_digits (10 * acc + d) s'
      | None =>
          if Ascii.eqb c "_" then
            match s' with
            | c' :: _ =>
                match digit_of c' with
                | Some _ => more_digits acc s'
                | None => None
                end
            | [] => None
            end
          else None
      end
  end.

Definition digits (s : list ascii) : option Z :=
  match s with
  | c :: _ =>
      match digit_of c with
      | Some _ => more_digits 0 s
      | None => None
      end
  | [] => None
  end.

Definition int_of_str (s : string) : option Z :=
  match strip (list_ascii_of_string s) with
  | "+"%char :: s' => digits s'
  | "-"%char :: s' => option_map Z.opp (digits s')
  | s' => digits s'
  end.

(** The part of a file name before its last dot, when that dot is not
    the first character. *)
Fixpoint splitext_root_from (s : string) (seen : nat) : string :=
  match s with
  | EmptyString => EmptyString
  | String c s' =>
      if String.eqb s' (splitext_root_from s' (S seen))
      then (if Ascii.eqb c "." && negb (seen =? 0) &&
               negb (existsb (Ascii.eqb ".") (list_ascii_of_string s'))
            then EmptyString else String c s')
      else String c (splitext_root_from s' (S seen))
  end.

Definition splitext_root (s : string) : string := splitext_root_from s 0.

Definition upload (n id : string) (data : bytes) : UploadedFile :=
  {| name := n; file_id := id; getvalue := data |}.

End Mock.

(** ** Vocabulary of the statements *)

Section Vocabulary.

Context {platform : Platform}.

Variable Image : Type.
Variable convert_from_bytes : bytes -> Z -> Exc (list Image).
Variable save_png : Image -> Exc bytes.
Variable localtime : nat -> nat -> Stamp.
Variable refresh : bool.

(** The PNG encodings of all pages, in order, or the exception of the
    first page that cannot be encoded. *)
Fixpoint save_all (images : list Image) : Exc (list bytes) :=
  match images with
  | [] => ret []
  | image :: rest =>
      img_bytes <- save_png image ;;
      more <- save_all rest ;;
      ret (img_bytes :: more)
  end.

(** The members the loop writes for the encoded pages [pngs], the first
    of them at index [i]. *)
Fixpoint members (prefix : string) (run i : nat) (pngs : list bytes)
    : ZipFile :=
  match pngs with
  | [] => []
  | img_bytes :: more =>
      {| filename := ZipInfo_filename (page_name prefix (Z.of_nat i));
         date_time := localtime run i;
         compress_type := ZIP_DEFLATED;
         content := img_bytes |} :: members prefix run (S i) more
  end.

(** The value the body of [perform_conversion] returns, spelled out. *)
Definition converted (run : nat) (pdf_bytes : bytes) (dpi : Z) : conversion :=
  match convert_from_bytes pdf_bytes dpi with
  | inl e => ConversionError (exn_str e)
  | inr images =>
      match save_all images with
      | inl e => ConversionError (exn_str e)
      | inr pngs => Converted pngs (members EmptyString run 0 pngs)
      end
  end.

(** The archive a conversion result carries, if it is one. *)
Definition archive_of (r : Exc conversion) : option ZipFile :=
  match r with
  | inr (Converted _ z) => Some z
  | _ => None
  end.

Definition failed (r : Exc conversion) : Prop :=
  exists m, r = ret (ConversionError m).

(** The decimal number a string of digits denotes. *)
Definition nat_of_digits (s : string) : option nat :=
  option_map Nat.of_uint (DecimalString.NilEmpty.uint_of_string s).

(** The sentence "a failed conversion leaves no entry, so that the next
    identical call runs the renderer again", for one call at [w]. *)
Definition failure_is_retried (pdf_bytes : bytes) (dpi : Z) (w : World)
    : Prop :=
  let first :=
    perform_conversion Image convert_from_bytes save_png localtime refresh
      pdf_bytes dpi w in
  let second :=
    perform_conversion Image convert_from_bytes save_png localtime refresh
      pdf_bytes dpi (snd first) in
  failed (fst first) ->
  cache_get (cache (snd first)) (pdf_bytes, dpi) = None /\
  executions (snd second) = S (executions (snd first)).

(** The sentence "the archive has one member per page, the [i]-th named
    with the ordinal [i] in exactly three digits, and reading it gives
    the [i]-th page back", for one execution of the conversion. *)
Definition members_named_in_three_digits (run : nat) (pdf_bytes : bytes)
    (dpi : Z) : Prop :=
  forall l z,
    perform_conversion_body Image convert_from_bytes save_png localtime
      run pdf_bytes dpi = ret (Converted l z) ->
    List.length z = List.length l /\
    forall i, i < List.length l ->
      let ordinal := format_03d (Z.of_nat i + 1) in
      nth_error (namelist z) i = Some ("page_" ++ ordinal ++ ".png")%string /\
      String.length ordinal = 3 /\
      zip_read z ("page_" ++ ordinal ++ ".png")%string = nth_error l i.

(** The sentence "two calls with the same request return the same
    archive bytes", for a call at [w] and a second one after the calls
    [between]. *)
Definition same_archive_again (pdf_bytes : bytes) (dpi : Z)
    (between : list Request) (w : World) : Prop :=
  let first :=
    perform_conversion Image convert_from_bytes save_png localtime refresh
      pdf_bytes dpi w in
  let later :=
    perform_conversions Image convert_from_bytes save_png localtime refresh
      between (snd first) in
  let second :=
    perform_conversion Image convert_from_bytes save_png localtime refresh
      pdf_bytes dpi later in
  archive_of (fst first) = archive_of (fst second).

End Vocabulary.

(** Requests for one document that differ in their resolution only. *)
Definition five_requests : list Request :=
  map (fun d => (Mock.three_pages, d)) [72; 96; 150; 200; 600]%Z.

Definition six_requests : list Request :=
  (Mock.three_pages, 300%Z) :: five_requests.

(** A session of the viewer: the three page document is uploaded at
    300 DPI and Next is clicked twice, which leaves the index at 2. *)
Definition viewer_on_last_page : App1.App :=
  let act :=
    App1.step Mock.Image Mock.convert_from_bytes Mock.save_png Mock.localtime
      false Mock.splitext_root in
  let a0 := {| App1.world := empty_world; App1.session := App1.clear;
               App1.uploaded_file := None; App1.dpi := 300 |} in
  let a1 := fst (fst (act (App1.Upload
                             (Some (Mock.upload "doc.pdf" "1"
                                      Mock.three_pages))) a0)) in
  let a2 := fst (fst (act App1.ClickNext a1)) in
  fst (fst (act App1.ClickNext a2)).

(** ** The rest of the scripts *)

(** *** [app2.py]: the page grid *)

Module App2.

(** [st.session_state] of [app2.py]: the five keys lines 89 to 93 assign. *)
Record SessionState := {
  image_bytes_list : option (option (list bytes));
  zip_data : option (ZipFile + string);
  last_file_id : option string;
  last_dpi : option Z;
  pdf_filename : option string
}.

(** [st.session_state.clear()]. *)
Definition clear : SessionState :=
  {| image_bytes_list := None; zip_data := None; last_file_id := None;
     last_dpi := None; pdf_filename := None |}.

(** The test of line 84, the same as in [app1.py]. *)
Definition needs_conversion (ss : SessionState) (fid : string) (dpi : Z)
    : Exc bool :=
  match last_file_id ss with
  | None => ret true
  | Some id =>
      if negb (String.eqb id fid) then ret true
      else (d <- App1.attr "last_dpi" (last_dpi ss) ;;
            ret (negb (d =? dpi)%Z))
  end.

(** One cell of the grid (lines 124 to 150): the column it is put in, the
    caption and the bytes of the image, and the file name and widget key
    of its download button. *)
Record Cell := {
  column : nat;
  caption : string;
  img_bytes : bytes;
  page_file_name : string;
  key : string
}.

(** What a run displays below the title (lines 108 to 150): the archive
    download and the grid. *)
Record Grid := {
  download_all : ZipFile + string;
  download_all_name : string;
  cells : list Cell
}.

(** The message of lines 95 to 98: the number of pages found, or the
    error text. *)
Inductive Notice :=
| Success (found : nat)
| Failure (message : string).

Inductive Status :=
| Finished
| Raised (e : exn).

Record Pass := {
  world_after : World;
  session_after : SessionState;
  notice : option Notice;
  grid : option Grid;
  status : Status
}.

(** [cols = st.columns(3)]. *)
Definition cols : list nat := [0; 1; 2].

(** The loop of lines 124 to 150 over [enumerate(image_bytes_list)]. *)
Fixpoint grid_cells (pdf_filename : string) (items : list (nat * bytes))
    : Exc (list Cell) :=
  match items with
  | [] => ret []
  | (i, img_bytes) :: rest =>
      let page_name := page_name (pdf_filename ++ "_")%string (Z.of_nat i) in
      col <- py_getitem cols (Z.of_nat i mod 3)%Z ;;
      more <- grid_cells pdf_filename rest ;;
      ret ({| column := col;
              caption := ("Page " ++ str_of_nat (i + 1))%string;
              img_bytes := img_bytes;
              page_file_name := page_name;
              key := ("download_" ++ str_of_nat i)%string |} :: more)
  end.

(** The cell of page [i] (from 0) with bytes [b], spelled out. *)
Definition cell_of (pdf_filename : string) (i : nat) (b : bytes) : Cell :=
  {| column := i mod 3;
     caption := ("Page " ++ str_of_nat (i + 1))%string;
     img_bytes := b;
     page_file_name :=
       (pdf_filename ++ "_page_" ++ format_03d (Z.of_nat i + 1) ++ ".png")%string;
     key := ("download_" ++ str_of_nat i)%string |}.

(** Lines 102 to 150. *)
Definition display (w : World) (ss : SessionState)
    (note : option Notice) : Pass :=
  match image_bytes_list ss with
  | Some (Some l) =>
      match
        zip_data <- App1.attr "zip_data" (zip_data ss) ;;
        pdf_filename <- App1.attr "pdf_filename" (pdf_filename ss) ;;
        cells <- grid_cells pdf_filename (enumerate l) ;;
        ret {| download_all := zip_data;
               download_all_name := (pdf_filename ++ "_all_pages.zip")%string;
               cells := cells |}
      with
      | inl e =>
          {| world_after := w; session_after := ss; notice := note;
             grid := None; status := Raised e |}
      | inr g =>
          {| world_after := w; session_after := ss; notice := note;
             grid := Some g; status := Finished |}
      end
  | _ =>
      {| world_after := w; session_after := ss; notice := note;
         grid := None; status := Finished |}
  end.

Section Script.

Context {platform : Platform}.

Variable Image : Type.
Variable convert_from_bytes : bytes -> Z -> Exc (list Image).
Variable save_png : Image -> Exc bytes.
Variable localtime : nat -> nat -> Stamp.
Variable refresh : bool.
Variable splitext_root : string -> string.

(** What lines 89 to 93 store for the result [r]. *)
Definition stored (f : UploadedFile) (dpi : Z) (r : conversion)
    : SessionState :=
  {| image_bytes_list := Some (App1.list_or_None r);
     zip_data := Some (App1.zip_or_message r);
     last_file_id := Some (file_id f);
     last_dpi := Some dpi;
     pdf_filename := Some (splitext_root (name f)) |}.

(** One execution of the script body (lines 79 to 155). *)
Definition script_pass (w : World) (ss : SessionState)
    (uploaded_file : option UploadedFile) (dpi : Z) : Pass :=
  match uploaded_file with
  | Some f =>
      match needs_conversion ss (file_id f) dpi with
      | inl e =>
          {| world_after := w; session_after := ss; notice := None;
             grid := None; status := Raised e |}
      | inr true =>
          match
            perform_conversion Image convert_from_bytes save_png localtime
              refresh (getvalue f) dpi w
          with
          | (inl e, w') =>
              {| world_after := w'; session_after := ss; notice := None;
                 grid := None; status := Raised e |}
          | (inr r, w') =>
              match r with
              | Converted l _ =>
                  display w' (stored f dpi r) (Some (Success (List.length l)))
              | ConversionError m =>
                  display w' clear (Some (Failure m))
              end
          end
      | inr false => display w ss None
      end
  | None =>
      {| world_after := w;
         session_after :=
           match last_file_id ss with
           | Some _ => clear
           | None => ss
           end;
         notice := None; grid := None; status := Finished |}
  end.

(** The browser side of one session, as for [app1.py]. *)
Record App := {
  world : World;
  session : SessionState;
  uploaded_file : option UploadedFile;
  dpi : Z
}.

(** The user actions that start a run: choosing or removing a file,
    selecting a resolution, anything else.  The download buttons are
    declared with [on_click="ignore"] and start none. *)
Inductive Event :=
| Upload (f : option UploadedFile)
| SelectDpi (d : Z)
| Refresh.

Definition step (e : Event) (a : App) : App * Pass :=
  let up := match e with Upload f => f | _ => uploaded_file a end in
  let d := match e with SelectDpi d => d | _ => dpi a end in
  let p := script_pass (world a) (session a) up d in
  ({| world := world_after p; session := session_after p;
      uploaded_file := up; dpi := d |}, p).

Inductive reachable : App -> Prop :=
| reachable_start w d :
    reachable {| world := w; session := clear; uploaded_file := None;
                 dpi := d |}
| reachable_step a e :
    reachable a -> reachable (fst (step e a)).

End Script.

(** The shape of the session state between runs: empty, or holding a page
    list together with an archive, the file name and the pair it belongs
    to. *)
Definition consistent (ss : SessionState) : Prop :=
  match image_bytes_list ss with
  | None => last_file_id ss = None
  | Some None => False
  | Some (Some l) =>
      (exists z, zip_data ss = Some (inl z)) /\
      last_file_id ss <> None /\ last_dpi ss <> None /\
      pdf_filename ss <> None
  end.

End App2.

(** *** The sidebar of [app1.py] *)

(** The truth value of what [zip_data] holds: the bytes of an archive,
    which are never empty (a ZIP file ends with its central directory
    record), or the text of an error. *)
Definition truthy (v : ZipFile + string) : bool :=
  match v with
  | inl _ => true
  | inr s => negb (String.eqb s EmptyString)
  end.

(** Lines 78 to 86 of [app1.py]: the archive download of the sidebar, with
    its data and file name, offered when [zip_data] is set and true.  The
    block runs before the body of the script, on the session state the
    previous run and the callbacks left. *)
Definition sidebar_download (ss : App1.SessionState)
    : Exc (option ((ZipFile + string) * string)) :=
  match App1.zip_data ss with
  | Some v =>
      if truthy v then
        pdf_filename <- App1.attr "pdf_filename" (App1.pdf_filename ss) ;;
        ret (Some (v, (pdf_filename ++ "_all_pages.zip")%string))
      else ret None
  | None => ret None
  end.

(** Between runs a stored page list comes with its archive and its file
    name, and an empty session state holds neither. *)
Definition complete (ss : App1.SessionState) : Prop :=
  match App1.image_bytes_list ss with
  | None => App1.zip_data ss = None
  | Some None => False
  | Some (Some l) =>
      (exists z, App1.zip_data ss = Some (inl z)) /\
      App1.pdf_filename ss <> None
  end.

(** The session state shows page [n] (from 0) of the list [l] converted
    from the file [f] at resolution [d]. *)
Definition viewing (ss : App1.SessionState) (f : UploadedFile) (d : Z)
    (root : string) (l : list bytes) (n : nat) : Prop :=
  App1.image_bytes_list ss = Some (Some l) /\
  App1.total_pages ss = Some (Z.of_nat (List.length l)) /\
  App1.last_file_id ss = Some (file_id f) /\
  App1.last_dpi ss = Some d /\
  App1.pdf_filename ss = Some root /\
  App1.current_page_index ss = Some (Z.of_nat n) /\
  n < List.length l.

(** What the viewer displays for page [n] (from 0) with bytes [x] of the
    list [l]. *)
Definition page_shown (root : string) (l : list bytes) (n : nat) (x : bytes)
    : App1.Shown :=
  {| App1.current_index := Z.of_nat n;
     App1.current_image_bytes := x;
     App1.current_page_name := page_name (root ++ "_")%string (Z.of_nat n);
     App1.of_total := Z.of_nat (List.length l);
     App1.previous_disabled := (Z.of_nat n =? 0)%Z;
     App1.next_disabled := (Z.of_nat n =? Z.of_nat (List.length l) - 1)%Z |}.

Definition click_previous : App1.Buttons :=
  {| App1.previous_clicked := true; App1.next_clicked := false |}.

Definition click_next : App1.Buttons :=
  {| App1.previous_clicked := false; App1.next_clicked := true |}.

(** Every string of the list comes before all the later ones in the
    order of [String.compare], the order in which a file manager lists
    names. *)
Fixpoint ascending (l : list string) : bool :=
  match l with
  | [] => true
  | a :: rest => forallb (String.ltb a) rest && ascending rest
  end.

(** *** Vocabulary for the store *)

Section StoreVocabulary.

Context {platform : Platform}.

Variable Image : Type.
Variable convert_from_bytes : bytes -> Z -> Exc (list Image).
Variable save_png : Image -> Exc bytes.
Variable localtime : nat -> nat -> Stamp.

(** Every result the store holds is what some execution of the conversion
    returned for that request. *)
Definition genuine (w : World) : Prop :=
  forall pdf_bytes dpi v,
    cache_get (cache w) (pdf_bytes, dpi) = Some v ->
    exists run,
      v = converted Image convert_from_bytes save_png localtime run
            pdf_bytes dpi.

End StoreVocabulary.

(** The requests for one document at the resolutions the select box
    offers. *)
Definition at_every_option (pdf_bytes : bytes) : list Request :=
  map (fun d => (pdf_bytes, d)) dpi_options.

(** A user who switches back and forth between the three resolutions. *)
Definition back_and_forth : list Request :=
  map (fun d => (Mock.three_pages, d))
    [300; 150; 300; 600; 150; 300; 600; 600; 150]%Z.

Definition doc_pdf : UploadedFile :=
  Mock.upload "doc.pdf" "1" Mock.three_pages.

Definition note_txt : UploadedFile :=
  Mock.upload "note.pdf" "2" Mock.not_a_pdf.

(** A session of the grid script in which [doc.pdf] was converted at
    300 DPI. *)
Definition grid_after_upload : App2.App :=
  fst (App2.step Mock.Image Mock.convert_from_bytes Mock.save_png
         Mock.localtime false Mock.splitext_root
         (App2.Upload (Some doc_pdf))
         {| App2.world := empty_world; App2.session := App2.clear;
            App2.uploaded_file := None; App2.dpi := 300 |}).

(** * Properties *)

(** ** Equality of requests *)

Lemma bytes_eqb_eq (a b : bytes) : bytes_eqb a b = true <-> a = b.
Proof.
  revert b; induction a as [|x a IH]; intros [|y b]; simpl;
    try (split; [discriminate | congruence]); try tauto.
  rewrite andb_true_iff, IH. split.
  - intros [Hx ->]. apply Byte.byte_dec_bl in Hx. now subst.
  - intros H; injection H as -> ->. split; [apply Byte.byte_dec_lb|]; reflexivity.
Qed.

Lemma request_eqb_eq (a b : Request) : request_eqb a b = true <-> a = b.
Proof.
  destruct a as [a1 a2], b as [b1 b2]. unfold request_eqb; simpl.
  rewrite andb_true_iff, bytes_eqb_eq, Z.eqb_eq.
  split; [intros [-> ->]; reflexivity | intros H; injection H; auto].
Qed.

Lemma request_eqb_refl (a : Request) : request_eqb a a = true.
Proof. now apply request_eqb_eq. Qed.

Lemma request_eqb_neq (a b : Request) : request_eqb a b = false <-> a <> b.
Proof.
  rewrite <- request_eqb_eq. destruct (request_eqb a b); split; congruence.
Qed.

(** ** The store *)

Lemma cache_get_None (c : Cache) (k : Request) :
  cache_get c k = None <-> ~ In k (cache_keys c).
Proof.
  induction c as [|[k' v] c IH]; simpl; [tauto|].
  destruct (request_eqb k' k) eqn:E.
  - apply request_eqb_eq in E. subst. split; [discriminate | tauto].
  - apply request_eqb_neq in E. rewrite IH. tauto.
Qed.

Lemma cache_get_app_new (c : Cache) (k : Request) (v : conversion) :
  ~ In k (cache_keys c) -> cache_get (c ++ [(k, v)]) k = Some v.
Proof.
  induction c as [|[k' v'] c IH]; simpl; intros H.
  - now rewrite request_eqb_refl.
  - destruct (request_eqb k' k) eqn:E.
    + apply request_eqb_eq in E. tauto.
    + apply IH. tauto.
Qed.

Lemma cache_remove_keys (c : Cache) (k : Request) :
  ~ In k (cache_keys (cache_remove c k)).
Proof.
  unfold cache_keys, cache_remove. rewrite in_map_iff.
  intros [[k' v] [Hk Hin]]. simpl in Hk. subst k'.
  apply filter_In in Hin. destruct Hin as [_ Hin]. simpl in Hin.
  now rewrite request_eqb_refl in Hin.
Qed.

Lemma cache_remove_absent (c : Cache) (k : Request) :
  ~ In k (cache_keys c) -> cache_remove c k = c.
Proof.
  induction c as [|[k' v] c IH]; simpl; intros H; [reflexivity|].
  destruct (request_eqb k' k) eqn:E; simpl.
  - apply request_eqb_eq in E. tauto.
  - f_equal. apply IH. tauto.
Qed.

Lemma evict_app_new (c : Cache) (kv : Request * conversion) :
  evict (c ++ [kv]) = skipn (S (List.length c) - max_entries) c ++ [kv].
Proof.
  unfold evict. rewrite length_app, skipn_app. simpl List.length.
  replace (List.length c + 1) with (S (List.length c)) by lia.
  replace (S (List.length c) - max_entries - List.length c) with 0
    by (unfold max_entries; lia).
  reflexivity.
Qed.

Lemma skipn_keys_incl (n : nat) (c : Cache) (k : Request) :
  In k (cache_keys (skipn n c)) -> In k (cache_keys c).
Proof.
  unfold cache_keys. rewrite !in_map_iff.
  intros [x [Hx Hin]]. exists x. split; [assumption|].
  rewrite <- (firstn_skipn n c). apply in_or_app. now right.
Qed.

Lemma cache_get_set (c : Cache) (k : Request) (v : conversion) :
  cache_get (cache_set c k v) k = Some v.
Proof.
  unfold cache_set. rewrite evict_app_new. apply cache_get_app_new.
  intros H. apply skipn_keys_incl in H. now apply cache_remove_keys in H.
Qed.

Lemma cache_get_hit (r : bool) (c : Cache) (k : Request) (v : conversion) :
  cache_get c k = Some v -> cache_get (cache_hit r c k v) k = Some v.
Proof.
  intros H. destruct r; simpl; [|assumption].
  apply cache_get_app_new, cache_remove_keys.
Qed.

Lemma evict_length (c : Cache) : List.length (evict c) <= max_entries.
Proof. unfold evict. rewrite length_skipn. lia. Qed.

Lemma cache_remove_length (c : Cache) (k : Request) :
  List.length (cache_remove c k) <= List.length c.
Proof. apply filter_length_le. Qed.

Lemma cache_get_remove_other (c : Cache) (k k' : Request) :
  k <> k' -> cache_get (cache_remove c k') k = cache_get c k.
Proof.
  intros Hne. induction c as [|[q v] c IH]; simpl; [reflexivity|].
  destruct (request_eqb q k') eqn:E; simpl.
  - apply request_eqb_eq in E. subst q.
    destruct (request_eqb k' k) eqn:E'; [|assumption].
    apply request_eqb_eq in E'. congruence.
  - now rewrite IH.
Qed.

Lemma cache_get_app_other (c : Cache) (k k' : Request) (v : conversion) :
  k <> k' -> cache_get (c ++ [(k', v)]) k = cache_get c k.
Proof.
  intros Hne. induction c as [|[q u] c IH]; simpl.
  - destruct (request_eqb k' k) eqn:E; [|reflexivity].
    apply request_eqb_eq in E. congruence.
  - now rewrite IH.
Qed.

(** Dropping the oldest entries of a store with one entry per request
    either keeps the entry of a request or loses it; it never changes
    it. *)
Lemma cache_get_skipn (n : nat) (c : Cache) (k : Request) :
  NoDup (cache_keys c) ->
  cache_get (skipn n c) k = cache_get c k \/ cache_get (skipn n c) k = None.
Proof.
  revert c; induction n as [|n IH]; intros [|[q v] c] Hnd; simpl; auto.
  inversion Hnd as [|? ? Hq Hc]; subst.
  destruct (request_eqb q k) eqn:E.
  - right. apply request_eqb_eq in E. subst q. apply cache_get_None.
    intros H. now apply skipn_keys_incl in H.
  - now apply IH.
Qed.

Lemma cache_remove_NoDup (c : Cache) (k : Request) :
  NoDup (cache_keys c) -> NoDup (cache_keys (cache_remove c k)).
Proof.
  induction c as [|[q v] c IH]; simpl; intros Hnd; [constructor|].
  inversion Hnd as [|? ? Hq Hc]; subst.
  destruct (request_eqb q k); simpl; [now apply IH|].
  constructor; [|now apply IH].
  intros H. apply Hq. unfold cache_keys, cache_remove in *.
  rewrite in_map_iff in *. destruct H as [x [Hx Hin]].
  exists x. split; [assumption|]. now apply filter_In in Hin.
Qed.

Lemma cache_app_new_NoDup (c : Cache) (k : Request) (v : conversion) :
  NoDup (cache_keys c) -> ~ In k (cache_keys c) ->
  NoDup (cache_keys (c ++ [(k, v)])).
Proof.
  intros Hnd Hk. unfold cache_keys. rewrite map_app. simpl.
  apply NoDup_app; [assumption | repeat constructor; auto |].
  intros x Hx [<-|[]]. contradiction.
Qed.

Lemma NoDup_app_disjoint {A} (l1 l2 : list A) (a : A) :
  NoDup (l1 ++ l2) -> In a l1 -> In a l2 -> False.
Proof.
  induction l1 as [|x l1 IH]; simpl; intros Hnd H1 H2; [contradiction|].
  inversion Hnd as [|? ? Hx Hl]; subst.
  destruct H1 as [->|H1]; [|now apply IH].
  apply Hx. apply in_or_app. now right.
Qed.

Lemma skipn_NoDup {A} (n : nat) (l : list A) : NoDup l -> NoDup (skipn n l).
Proof.
  intros H. rewrite <- (firstn_skipn n l) in H.
  now apply NoDup_app_remove_l in H.
Qed.

Lemma cache_set_NoDup (c : Cache) (k : Request) (v : conversion) :
  NoDup (cache_keys c) -> NoDup (cache_keys (cache_set c k v)).
Proof.
  intros H. unfold cache_set, evict, cache_keys. rewrite <- skipn_map.
  apply skipn_NoDup.
  apply cache_app_new_NoDup;
    [now apply cache_remove_NoDup | apply cache_remove_keys].
Qed.

Lemma cache_hit_NoDup (r : bool) (c : Cache) (k : Request) (v : conversion) :
  NoDup (cache_keys c) -> NoDup (cache_keys (cache_hit r c k v)).
Proof.
  intros H. destruct r; simpl; [|assumption].
  apply cache_app_new_NoDup;
    [now apply cache_remove_NoDup | apply cache_remove_keys].
Qed.

Lemma cache_get_set_other (c : Cache) (k k' : Request) (v : conversion) :
  NoDup (cache_keys c) -> k <> k' ->
  cache_get (cache_set c k' v) k = cache_get c k \/
  cache_get (cache_set c k' v) k = None.
Proof.
  intros Hnd Hne. unfold cache_set, evict.
  destruct (cache_get_skipn
              (List.length (cache_remove c k' ++ [(k', v)]) - max_entries)
              (cache_remove c k' ++ [(k', v)]) k) as [H|H].
  - apply cache_app_new_NoDup;
      [now apply cache_remove_NoDup | apply cache_remove_keys].
  - left. rewrite H.
    now rewrite cache_get_app_other, cache_get_remove_other.
  - now right.
Qed.

Lemma cache_get_hit_other (r : bool) (c : Cache) (k k' : Request)
    (v : conversion) :
  k <> k' -> cache_get (cache_hit r c k' v) k = cache_get c k.
Proof.
  intros Hne. destruct r; simpl; [|reflexivity].
  now rewrite cache_get_app_other, cache_get_remove_other.
Qed.

Lemma cache_get_Some_keys (c : Cache) (k : Request) (v : conversion) :
  cache_get c k = Some v -> In k (cache_keys c).
Proof.
  intros H. destruct (in_dec (fun a b => 
    match request_eqb a b as x return request_eqb a b = x -> {a = b} + {a <> b}
    with
    | true => fun E => left (proj1 (request_eqb_eq a b) E)
    | false => fun E => right (proj1 (request_eqb_neq a b) E)
    end eq_refl) k (cache_keys c)) as [Hin|Hout]; [assumption|].
  apply cache_get_None in Hout. congruence.
Qed.

Lemma cache_remove_shorter (c : Cache) (k : Request) :
  In k (cache_keys c) -> List.length (cache_remove c k) < List.length c.
Proof.
  induction c as [|[q v] c IH]; simpl; intros H; [contradiction|].
  destruct (request_eqb q k) eqn:E; simpl.
  - pose proof (cache_remove_length c k). lia.
  - destruct H as [->|H]; [now rewrite request_eqb_refl in E|].
    apply IH in H. lia.
Qed.

(** ** Formatting of ordinals *)

Lemma string_length_append (s t : string) :
  String.length (s ++ t) = String.length s + String.length t.
Proof. induction s; simpl; auto. Qed.

Lemma string_append_cancel_l (p s t : string) :
  (p ++ s = p ++ t)%string -> s = t.
Proof. induction p; simpl; intros H; [assumption|]. injection H; auto. Qed.

Lemma string_append_cancel_r (s t u : string) :
  (s ++ u = t ++ u)%string -> s = t.
Proof.
  revert t; induction s as [|c s IH]; intros [|d t] H; simpl in H.
  - reflexivity.
  - apply (f_equal String.length) in H. simpl in H.
    rewrite string_length_append in H. lia.
  - apply (f_equal String.length) in H. simpl in H.
    rewrite string_length_append in H. lia.
  - injection H as -> H. f_equal. now apply IH.
Qed.

Lemma zeros_length (k : nat) : String.length (zeros k) = k.
Proof. induction k; simpl; auto. Qed.

Lemma nat_of_digits_zeros (k : nat) (s : string) :
  nat_of_digits (zeros k ++ s) = nat_of_digits s.
Proof.
  induction k as [|k IH]; simpl; [reflexivity|].
  unfold nat_of_digits in *. simpl.
  destruct (DecimalString.NilEmpty.uint_of_string (zeros k ++ s)) as [d|];
    destruct (DecimalString.NilEmpty.uint_of_string s) as [d'|];
    simpl in *; try discriminate; try reflexivity.
  rewrite <- IH. reflexivity.
Qed.

Lemma nat_of_digits_str (n : nat) : nat_of_digits (str_of_nat n) = Some n.
Proof.
  unfold nat_of_digits, str_of_nat.
  assert (Hn : Nat.to_uint n <> Decimal.Nil).
  { rewrite <- (DecimalNat.Unsigned.of_to n) at 1.
    rewrite DecimalNat.Unsigned.to_of. apply DecimalFacts.unorm_nonnil. }
  assert (E : DecimalString.NilZero.string_of_uint (Nat.to_uint n) =
              DecimalString.NilEmpty.string_of_uint (Nat.to_uint n)).
  { destruct (Nat.to_uint n); [contradiction|reflexivity..]. }
  rewrite E, DecimalString.NilEmpty.usu. simpl.
  now rewrite DecimalNat.Unsigned.of_to.
Qed.

(** Reading the digits of a formatted ordinal gives the ordinal back. *)
Lemma nat_of_digits_format (n : nat) :
  nat_of_digits (format_03d (Z.of_nat n)) = Some n.
Proof.
  unfold format_03d.
  destruct (Z.of_nat n <? 0)%Z eqn:E; [apply Z.ltb_lt in E; lia|].
  rewrite Zabs2Nat.id. cbv zeta.
  now rewrite nat_of_digits_zeros, nat_of_digits_str.
Qed.

Lemma format_03d_inj (n m : nat) :
  format_03d (Z.of_nat n) = format_03d (Z.of_nat m) -> n = m.
Proof.
  intros H. apply (f_equal nat_of_digits) in H.
  rewrite !nat_of_digits_format in H. congruence.
Qed.

Lemma format_03d_min_width (n : nat) :
  3 <= String.length (format_03d (Z.of_nat n)).
Proof.
  unfold format_03d.
  destruct (Z.of_nat n <? 0)%Z eqn:E; [apply Z.ltb_lt in E; lia|].
  cbv zeta. rewrite string_length_append, zeros_length. lia.
Qed.

(** Up to 999 the field is exactly three characters wide. *)
Lemma format_03d_width_3 (n : nat) :
  n < 1000 -> String.length (format_03d (Z.of_nat n)) = 3.
Proof.
  intros H.
  assert (A : forallb
                (fun k => String.length (format_03d (Z.of_nat k)) =? 3)
                (seq 0 1000) = true) by (vm_compute; reflexivity).
  rewrite forallb_forall in A. apply Nat.eqb_eq, A, in_seq. lia.
Qed.

Lemma page_name_inj (prefix : string) (i j : nat) :
  page_name prefix (Z.of_nat i) = page_name prefix (Z.of_nat j) -> i = j.
Proof.
  unfold page_name. intros H.
  apply string_append_cancel_l in H.
  apply (string_append_cancel_l "page_") in H.
  apply string_append_cancel_r in H.
  replace (Z.of_nat i + 1)%Z with (Z.of_nat (i + 1)) in H by lia.
  replace (Z.of_nat j + 1)%Z with (Z.of_nat (j + 1)) in H by lia.
  apply format_03d_inj in H. lia.
Qed.

(** ** Reading an archive *)

Lemma find_unique {A} (p : A -> bool) (l : list A) (x : A) :
  In x l -> p x = true -> (forall y, In y l -> p y = true -> y = x) ->
  find p l = Some x.
Proof.
  induction l as [|a l IH]; simpl; intros Hin Hp Hu; [contradiction|].
  destruct (p a) eqn:E.
  - f_equal. apply Hu; auto.
  - destruct Hin as [->|Hin]; [congruence|]. apply IH; auto.
Qed.

(** ** Member names *)

Section MemberNames.

Context {platform : Platform}.

(** A name is stored as it is exactly when all its characters are. *)
Lemma unchanged_stored (s : string) :
  unchanged s = true <-> ZipInfo_filename s = s.
Proof.
  unfold ZipInfo_filename, unchanged_char, os_sep.
  destruct platform as [[|]]; cbn [windows]; simpl negb; cbv iota.
  - induction s as [|c s IH]; simpl; [tauto|].
    unfold unchanged_char, os_sep; cbn [windows]; simpl negb.
    destruct (Ascii.eqb c zero) eqn:Ez; simpl; [split; discriminate|].
    destruct (Ascii.eqb c "\") eqn:Es; simpl.
    + apply Ascii.eqb_eq in Es. subst c. split; discriminate.
    + rewrite IH. split; [intros ->; reflexivity|].
      intros H; now injection H.
  - induction s as [|c s IH]; simpl; [tauto|].
    unfold unchanged_char, os_sep; cbn [windows]; simpl negb.
    destruct (Ascii.eqb c zero) eqn:Ez; simpl; [split; discriminate|].
    rewrite IH. split; [intros ->; reflexivity|].
    intros H; now injection H.
Qed.

Lemma unchanged_append (s t : string) :
  unchanged (s ++ t) = unchanged s && unchanged t.
Proof.
  induction s as [|c s IH]; simpl; [reflexivity|].
  now rewrite IH, andb_assoc.
Qed.

Lemma unchanged_zeros (k : nat) : unchanged (zeros k) = true.
Proof.
  induction k as [|k IH]; simpl; [reflexivity|]. rewrite IH.
  unfold unchanged_char, os_sep. now destruct windows.
Qed.

Lemma unchanged_digits (d : Decimal.uint) :
  unchanged (DecimalString.NilEmpty.string_of_uint d) = true.
Proof.
  induction d; simpl; try reflexivity; rewrite IHd;
    unfold unchanged_char, os_sep; now destruct windows.
Qed.

Lemma unchanged_str_of_nat (n : nat) : unchanged (str_of_nat n) = true.
Proof.
  unfold str_of_nat, DecimalString.NilZero.string_of_uint.
  destruct (Nat.to_uint n) eqn:E;
    try (rewrite <- E; apply unchanged_digits).
  unfold unchanged, unchanged_char, os_sep. now destruct windows.
Qed.

Lemma unchanged_format_03d (n : nat) :
  unchanged (format_03d (Z.of_nat n)) = true.
Proof.
  unfold format_03d.
  destruct (Z.of_nat n <? 0)%Z eqn:E; [apply Z.ltb_lt in E; lia|].
  cbv zeta.
  now rewrite unchanged_append, unchanged_zeros, unchanged_str_of_nat.
Qed.

(** A page name is unchanged as soon as what stands in front of it is. *)
Lemma unchanged_page_name (prefix : string) (i : nat) :
  unchanged prefix = true ->
  unchanged (page_name prefix (Z.of_nat i)) = true.
Proof.
  intros H. unfold page_name.
  replace (Z.of_nat i + 1)%Z with (Z.of_nat (i + 1)) by lia.
  rewrite !unchanged_append, H, unchanged_format_03d.
  unfold unchanged, unchanged_char, os_sep. now destruct windows.
Qed.

(** The names [page_001.png], [page_002.png], ... are stored as they
    are on every host. *)
Lemma page_name_stored (i : nat) :
  ZipInfo_filename (page_name EmptyString (Z.of_nat i)) =
  page_name EmptyString (Z.of_nat i).
Proof. apply unchanged_stored, unchanged_page_name. reflexivity. Qed.

(** So are the names of [app.py] for a document whose base name is. *)
Lemma page_name_stored_after (root : string) (i : nat) :
  ZipInfo_filename root = root ->
  ZipInfo_filename (page_name (root ++ "_") (Z.of_nat i)) =
  page_name (root ++ "_") (Z.of_nat i).
Proof.
  intros H. apply unchanged_stored, unchanged_page_name.
  rewrite unchanged_append. apply unchanged_stored in H. rewrite H.
  unfold unchanged, unchanged_char, os_sep. now destruct windows.
Qed.

End MemberNames.

(** ** The conversion *)

Section ConversionFacts.

Context {platform : Platform}.

Variable Image : Type.
Variable convert_from_bytes : bytes -> Z -> Exc (list Image).
Variable save_png : Image -> Exc bytes.
Variable localtime : nat -> nat -> Stamp.

#[local] Abbreviation loop := (conversion_loop Image save_png localtime).
#[local] Abbreviation body :=
  (perform_conversion_body Image convert_from_bytes save_png localtime).
#[local] Abbreviation try_part :=
  (conversion_try Image convert_from_bytes save_png localtime).
#[local] Abbreviation encode := (save_all Image save_png).
#[local] Abbreviation written := (members localtime).
#[local] Abbreviation outcome :=
  (converted Image convert_from_bytes save_png localtime).

(** The loop either stops at the first page that cannot be encoded or
    extends the list and the archive by every page. *)
Lemma conversion_loop_eq prefix run images : forall i acc zf,
  loop prefix run i images acc zf =
  (pngs <- encode images ;;
   ret (acc ++ pngs, zf ++ written prefix run i pngs)).
Proof.
  induction images as [|image rest IH]; intros i acc zf; simpl.
  - unfold ret. now rewrite !app_nil_r.
  - destruct (save_png image) as [e|b]; simpl; [reflexivity|].
    rewrite IH. unfold writestr.
    destruct (encode rest) as [e|more]; simpl; [reflexivity|].
    unfold ret. now rewrite <- !app_assoc.
Qed.

Lemma body_eq run pdf_bytes dpi :
  body run pdf_bytes dpi = ret (outcome run pdf_bytes dpi).
Proof.
  unfold perform_conversion_body, conversion_try, try_except, converted.
  destruct (convert_from_bytes pdf_bytes dpi) as [e|images]; simpl;
    [reflexivity|].
  rewrite conversion_loop_eq.
  destruct (encode images) as [e|pngs]; reflexivity.
Qed.

Lemma save_all_Forall2 images pngs :
  encode images = ret pngs <->
  Forall2 (fun image b => save_png image = ret b) images pngs.
Proof.
  revert pngs; induction images as [|image rest IH]; intros pngs; simpl.
  - split.
    + intros H; injection H as <-. constructor.
    + intros H; inversion H. reflexivity.
  - split.
    + destruct (save_png image) as [e|b] eqn:E; simpl; [discriminate|].
      destruct (encode rest) as [e|more] eqn:E'; simpl; [discriminate|].
      intros H; injection H as <-. constructor; [assumption|].
      now apply IH.
    + intros H; inversion H as [|? b ? more Hb Hmore]; subst.
      rewrite Hb; simpl. apply IH in Hmore. now rewrite Hmore.
Qed.

Lemma save_all_total images :
  Forall (fun image => exists b, save_png image = ret b) images ->
  exists pngs, encode images = ret pngs.
Proof.
  induction 1 as [|image rest [b Hb] _ [more IH]]; simpl.
  - now exists [].
  - exists (b :: more). now rewrite Hb, IH.
Qed.

Lemma save_all_raises images e :
  encode images = raise e ->
  exists image, In image images /\ save_png image = raise e.
Proof.
  induction images as [|image rest IH]; simpl; [discriminate|].
  destruct (save_png image) as [e'|b] eqn:E; simpl.
  - intros H; injection H as ->. exists image. auto.
  - destruct (encode rest) as [e'|more]; simpl; [|discriminate].
    intros H; injection H as ->. destruct (IH eq_refl) as [im [Hin Him]].
    exists im. auto.
Qed.

Lemma members_length prefix run i pngs :
  List.length (written prefix run i pngs) = List.length pngs.
Proof. revert i; induction pngs; intros i; simpl; auto. Qed.

Lemma members_content prefix run i pngs :
  map content (written prefix run i pngs) = pngs.
Proof. revert i; induction pngs; intros i; simpl; f_equal; auto. Qed.

Lemma members_namelist_stored prefix run i pngs :
  namelist (written prefix run i pngs) =
  map (fun j => ZipInfo_filename (page_name prefix (Z.of_nat j)))
    (seq i (List.length pngs)).
Proof.
  unfold namelist. revert i; induction pngs; intros i; simpl; f_equal; auto.
Qed.

Lemma members_namelist run i pngs :
  namelist (written EmptyString run i pngs) =
  map (fun j => page_name EmptyString (Z.of_nat j)) (seq i (List.length pngs)).
Proof.
  rewrite members_namelist_stored. apply map_ext. intros j.
  apply page_name_stored.
Qed.

Lemma members_nth_error prefix run i pngs j b :
  nth_error pngs j = Some b ->
  nth_error (written prefix run i pngs) j =
  Some {| filename := ZipInfo_filename (page_name prefix (Z.of_nat (i + j)));
          date_time := localtime run (i + j);
          compress_type := ZIP_DEFLATED; content := b |}.
Proof.
  revert i j; induction pngs as [|x pngs IH]; intros i [|j]; simpl;
    try discriminate.
  - intros H; injection H as ->. now rewrite Nat.add_0_r.
  - intros H. rewrite (IH (S i) j H).
    replace (S i + j) with (i + S j) by lia. reflexivity.
Qed.

(** C6. Whatever the renderer or the encoder raises inside
    [perform_conversion] is caught by its [except Exception] clause and
    comes back as the returned value [(None, str(e))], the diagnostic text
    of the exception: for every input the body returns and never raises,
    and neither does the memoised function the scripts call.  In [app.py]
    the conversion is wrapped in the same way: the part of the script that
    handles the upload always ends with a view, the error view carrying
    the exception when the renderer raised. *)
Theorem conversion_never_raises :
  forall (run : nat) (pdf_bytes : bytes) (dpi : Z),
    (exists r, body run pdf_bytes dpi = ret r) /\
    (forall e, try_part run pdf_bytes dpi = raise e ->
               body run pdf_bytes dpi = ret (ConversionError (exn_str e))) /\
    (forall refresh w, exists r,
       fst (perform_conversion Image convert_from_bytes save_png localtime
              refresh pdf_bytes dpi w) = ret r) /\
    (forall splitext_root uploaded_file,
       exists v,
         app_main Image convert_from_bytes save_png localtime splitext_root
           dpi uploaded_file run = ret v /\
         (forall f e,
            uploaded_file = Some f ->
            convert_from_bytes (getvalue f) dpi = raise e ->
            v = ConversionFailed e)).
Proof.
  intros run pdf_bytes dpi. split; [|split; [|split]].
  - rewrite body_eq. eexists; reflexivity.
  - intros e H. unfold perform_conversion_body. now rewrite H.
  - intros refresh w. unfold perform_conversion.
    destruct (cache_get (cache w) (pdf_bytes, dpi)) as [r|].
    + exists r; reflexivity.
    + rewrite body_eq. eexists; reflexivity.
  - intros splitext_root [f|]; simpl.
    + destruct (convert_from_bytes (getvalue f) dpi) as [e|images] eqn:E;
        simpl.
      * eexists; split; [reflexivity|].
        intros f' e' Hf He'. injection Hf as <-. unfold raise in He'.
        congruence.
      * match goal with |- context [try_except ?c _] =>
          destruct c as [e|v] end; simpl;
          (eexists; split; [reflexivity|]);
          intros f' e' Hf He'; injection Hf as <-; unfold raise in He';
          congruence.
    + eexists; split; [reflexivity|]. discriminate.
Qed.

(** Reading a member by its page name, for names that are stored as
    they are. *)
Lemma members_read_stored prefix run pngs i b :
  (forall j, ZipInfo_filename (page_name prefix (Z.of_nat j)) =
             page_name prefix (Z.of_nat j)) ->
  nth_error pngs i = Some b ->
  zip_read (written prefix run 0 pngs) (page_name prefix (Z.of_nat i)) =
  Some b.
Proof.
  intros Hstored Hi. unfold zip_read.
  pose proof (members_nth_error prefix run 0 pngs i b Hi) as Hm.
  simpl in Hm. rewrite Hstored in Hm.
  rewrite (find_unique _ _
             {| filename := page_name prefix (Z.of_nat i);
                date_time := localtime run i;
                compress_type := ZIP_DEFLATED; content := b |});
    [reflexivity| | |].
  - apply in_rev. rewrite rev_involutive. eapply nth_error_In, Hm.
  - simpl. apply String.eqb_refl.
  - intros y Hy Hname. apply in_rev in Hy.
    apply In_nth_error in Hy. destruct Hy as [j Hj].
    assert (Hlt : j < List.length pngs).
    { rewrite <- (members_length prefix run 0). apply nth_error_Some.
      congruence. }
    destruct (nth_error pngs j) as [b'|] eqn:Hb;
      [|apply nth_error_None in Hb; lia].
    pose proof (members_nth_error prefix run 0 pngs j b' Hb) as Hm'.
    simpl in Hm'. rewrite Hstored, Hj in Hm'. injection Hm' as ->.
    simpl in Hname. apply String.eqb_eq, page_name_inj in Hname. subst j.
    congruence.
Qed.

Lemma members_read run pngs i b :
  nth_error pngs i = Some b ->
  zip_read (written EmptyString run 0 pngs)
    (page_name EmptyString (Z.of_nat i)) = Some b.
Proof. apply members_read_stored, page_name_stored. Qed.

Lemma app_main_eq splitext_root DPI f run :
  app_main Image convert_from_bytes save_png localtime splitext_root DPI
    (Some f) run =
  ret match convert_from_bytes (getvalue f) DPI with
      | inl e => ConversionFailed e
      | inr images =>
          match encode images with
          | inl e => ConversionFailed e
          | inr pngs =>
              let root := splitext_root (name f) in
              Pages (List.length images)
                (written (root ++ "_")%string run 0 pngs)
                (root ++ "_all_pages.zip")%string
                (map (fun p => (page_name (root ++ "_")%string
                                  (Z.of_nat (fst p)), snd p))
                     (enumerate pngs))
          end
      end.
Proof.
  unfold app_main, try_except.
  destruct (convert_from_bytes (getvalue f) DPI) as [e|images]; simpl;
    [reflexivity|].
  rewrite conversion_loop_eq.
  destruct (encode images) as [e|pngs]; reflexivity.
Qed.

Lemma snd_combine_seq {A} (l : list A) (k : nat) :
  map snd (combine (seq k (List.length l)) l) = l.
Proof.
  revert k; induction l as [|a l IH]; intros k; simpl; [reflexivity|].
  now rewrite IH.
Qed.

Lemma combine_seq_nth_error {A} (l : list A) (i k : nat) :
  nth_error (combine (seq k (List.length l)) l) i =
  option_map (fun x => (k + i, x)) (nth_error l i).
Proof.
  revert i k; induction l as [|a l IH]; intros [|i] k; simpl; auto.
  - now rewrite Nat.add_0_r.
  - rewrite IH. destruct (nth_error l i); simpl; [|reflexivity].
    do 2 f_equal. lia.
Qed.

Lemma enumerate_nth_error {A} (l : list A) (i : nat) :
  nth_error (enumerate l) i = option_map (fun x => (i, x)) (nth_error l i).
Proof. unfold enumerate. now rewrite combine_seq_nth_error. Qed.

(** C2. When the renderer returns the [N] page images of a document,
    the conversion returns the PNG encodings of all [N] of them, one per
    page and in page order, next to an archive whose member names carry
    the ordinals 1 to [N]; whenever it returns a list at all, that list is
    the complete one.  The only other outcome is the error tuple, returned
    when some page cannot be encoded: the pages encoded before it are
    dropped, no shorter list is ever returned. *)
Theorem conversion_complete_or_failed :
  forall (run : nat) (pdf_bytes : bytes) (dpi : Z) (images : list Image),
    convert_from_bytes pdf_bytes dpi = ret images ->
    (Forall (fun image => exists b, save_png image = ret b) images ->
     exists l z, body run pdf_bytes dpi = ret (Converted l z)) /\
    (forall l z,
       body run pdf_bytes dpi = ret (Converted l z) ->
       List.length l = List.length images /\
       Forall2 (fun image b => save_png image = ret b) images l /\
       map content z = l /\
       namelist z =
       map (fun i => page_name EmptyString (Z.of_nat i))
         (seq 0 (List.length images))) /\
    ((exists l z, body run pdf_bytes dpi = ret (Converted l z)) \/
     (exists image e,
        In image images /\ save_png image = raise e /\
        body run pdf_bytes dpi = ret (ConversionError (exn_str e)))).
Proof.
  intros run pdf_bytes dpi images Hc. unfold ret in Hc.
  rewrite body_eq. unfold converted. rewrite Hc. split; [|split].
  - intros Hall. destruct (save_all_total images Hall) as [pngs ->].
    now exists pngs, (written EmptyString run 0 pngs).
  - intros l z H.
    destruct (encode images) as [e|pngs] eqn:E; [discriminate|].
    injection H as <- <-.
    apply save_all_Forall2 in E.
    pose proof (Forall2_length E) as Hlen.
    repeat split; auto using members_content.
    rewrite members_namelist. now rewrite Hlen.
  - destruct (encode images) as [e|pngs] eqn:E.
    + right. destruct (save_all_raises images e E) as [image [Hin Him]].
      now exists image, e.
    + left. now exists pngs, (written EmptyString run 0 pngs).
Qed.

(** C3, amended. The archive of a successful conversion has exactly one
    member per page; the [i]-th member (from 1) is named [page_] followed
    by the ordinal [i] in decimal, filled with zeros on the left to a
    width of at least three digits, and [.png]; the field is exactly three
    digits wide for the ordinals up to 999 and as wide as the number
    beyond; reading the digits gives [i] back, and reading the member of
    that name from the archive gives exactly the bytes of the [i]-th page.
    The archive [app.py] builds has one member per page as well, with the
    bytes of the pages in page order; its [i]-th member is written under
    the name of the [i]-th single page download, the document's base name
    followed by [_page_], the ordinal and [.png], and stored under what
    [ZipInfo] makes of that name.  When [ZipInfo] keeps the base name as
    it is (no null character, no [os.sep] other than a slash), the member
    is stored under the download's name and reading that name gives the
    bytes of the [i]-th page. *)
Theorem archive_round_trip :
  forall (run : nat) (pdf_bytes : bytes) (dpi : Z),
    (forall l z,
       body run pdf_bytes dpi = ret (Converted l z) ->
       List.length z = List.length l /\
       forall i, i < List.length l ->
         let ordinal := format_03d (Z.of_nat i + 1) in
         nth_error (namelist z) i =
           Some ("page_" ++ ordinal ++ ".png")%string /\
         3 <= String.length ordinal /\
         (i + 1 < 1000 -> String.length ordinal = 3) /\
         nat_of_digits ordinal = Some (i + 1) /\
         zip_read z ("page_" ++ ordinal ++ ".png")%string = nth_error l i) /\
    (forall splitext_root f found z zip_name downloads,
       app_main Image convert_from_bytes save_png localtime splitext_root
         dpi (Some f) run = ret (Pages found z zip_name downloads) ->
       List.length z = found /\ List.length downloads = found /\
       map content z = map snd downloads /\
       forall i, i < found ->
         let member_name :=
           (splitext_root (name f) ++ "_page_" ++
            format_03d (Z.of_nat i + 1) ++ ".png")%string in
         option_map fst (nth_error downloads i) = Some member_name /\
         nth_error (namelist z) i = Some (ZipInfo_filename member_name) /\
         (ZipInfo_filename (splitext_root (name f)) = splitext_root (name f) ->
          nth_error (namelist z) i = Some member_name /\
          zip_read z member_name = option_map snd (nth_error downloads i))).
Proof.
  intros run pdf_bytes dpi. split.
  - intros l z H. rewrite body_eq in H. unfold converted in H.
    destruct (convert_from_bytes pdf_bytes dpi) as [e|images];
      [discriminate|].
    destruct (encode images) as [e|pngs]; [discriminate|].
    injection H as <- <-. split; [apply members_length|].
    intros i Hi ordinal. subst ordinal.
    replace (Z.of_nat i + 1)%Z with (Z.of_nat (i + 1)) by lia.
    destruct (nth_error pngs i) as [b|] eqn:Hb;
      [|apply nth_error_None in Hb; lia].
    assert (Hname : page_name EmptyString (Z.of_nat i) =
                    ("page_" ++ format_03d (Z.of_nat (i + 1)) ++ ".png")%string).
    { unfold page_name. simpl.
      now replace (Z.of_nat i + 1)%Z with (Z.of_nat (i + 1)) by lia. }
    rewrite <- Hname. repeat split.
    + unfold namelist. rewrite nth_error_map.
      rewrite (members_nth_error EmptyString run 0 pngs i b Hb). simpl.
      now rewrite page_name_stored.
    + apply format_03d_min_width.
    + apply format_03d_width_3.
    + apply nat_of_digits_format.
    + now apply members_read.
  - intros splitext_root f found z zip_name downloads H.
    rewrite app_main_eq in H.
    destruct (convert_from_bytes (getvalue f) dpi) as [e|images];
      [discriminate|].
    destruct (encode images) as [e|pngs] eqn:E; [discriminate|].
    apply save_all_Forall2, Forall2_length in E.
    cbv zeta in H. injection H as <- <- <- <-.
    split; [rewrite members_length; auto|].
    split; [rewrite length_map; unfold enumerate;
            rewrite length_combine, length_seq; lia|].
    split.
    { rewrite members_content, map_map. cbn [snd]. unfold enumerate.
      rewrite <- (map_map snd (fun b : bytes => b)), map_id.
      symmetry. apply snd_combine_seq. }
    intros i Hi member_name. subst member_name.
    destruct (nth_error pngs i) as [b|] eqn:Hb;
      [|apply nth_error_None in Hb; lia].
    assert (Hname : page_name (splitext_root (name f) ++ "_") (Z.of_nat i) =
                    (splitext_root (name f) ++ "_page_" ++
                     format_03d (Z.of_nat i + 1) ++ ".png")%string).
    { unfold page_name.
      generalize (format_03d (Z.of_nat i + 1) ++ ".png")%string as tail.
      intros tail. induction (splitext_root (name f)); simpl;
        [reflexivity | now f_equal]. }
    rewrite <- Hname. rewrite nth_error_map, enumerate_nth_error, Hb. simpl.
    assert (Hi_th : nth_error
                      (namelist (written (splitext_root (name f) ++ "_")%string
                                   run 0 pngs)) i =
                    Some (ZipInfo_filename
                            (page_name (splitext_root (name f) ++ "_")
                               (Z.of_nat i)))).
    { unfold namelist. rewrite nth_error_map.
      rewrite (members_nth_error _ run 0 pngs i b Hb). reflexivity. }
    split; [reflexivity|]. split; [exact Hi_th|].
    intros Hroot. split.
    + rewrite Hi_th. now rewrite page_name_stored_after.
    + apply members_read_stored; [|assumption].
      intros j. now apply page_name_stored_after.
Qed.

End ConversionFacts.

(** ** The memoised conversion *)

Section MemoisedFacts.

Context {platform : Platform}.

Variable Image : Type.
Variable convert_from_bytes : bytes -> Z -> Exc (list Image).
Variable save_png : Image -> Exc bytes.
Variable localtime : nat -> nat -> Stamp.
Variable refresh : bool.

#[local] Abbreviation call :=
  (perform_conversion Image convert_from_bytes save_png localtime refresh).
#[local] Abbreviation calls :=
  (perform_conversions Image convert_from_bytes save_png localtime refresh).
#[local] Abbreviation body :=
  (perform_conversion_body Image convert_from_bytes save_png localtime).
#[local] Abbreviation outcome :=
  (converted Image convert_from_bytes save_png localtime).

Lemma call_hit pdf_bytes dpi w v :
  cache_get (cache w) (pdf_bytes, dpi) = Some v ->
  call pdf_bytes dpi w =
  (ret v, {| cache := cache_hit refresh (cache w) (pdf_bytes, dpi) v;
             executions := executions w |}).
Proof. intros H. unfold perform_conversion. now rewrite H. Qed.

Lemma call_miss pdf_bytes dpi w :
  cache_get (cache w) (pdf_bytes, dpi) = None ->
  call pdf_bytes dpi w =
  (ret (outcome (executions w) pdf_bytes dpi),
   {| cache := cache_set (cache w) (pdf_bytes, dpi)
                 (outcome (executions w) pdf_bytes dpi);
      executions := S (executions w) |}).
Proof. intros H. unfold perform_conversion. now rewrite H, body_eq. Qed.

(** Every call leaves an entry for its request that holds what the call
    returned. *)
Lemma call_stores pdf_bytes dpi w :
  exists v,
    fst (call pdf_bytes dpi w) = ret v /\
    cache_get (cache (snd (call pdf_bytes dpi w))) (pdf_bytes, dpi) = Some v.
Proof.
  destruct (cache_get (cache w) (pdf_bytes, dpi)) as [v|] eqn:E.
  - exists v. rewrite (call_hit _ _ _ _ E). simpl.
    split; [reflexivity | now apply cache_get_hit].
  - eexists. rewrite (call_miss _ _ _ E). simpl.
    split; [reflexivity | apply cache_get_set].
Qed.

Lemma call_executions pdf_bytes dpi w :
  executions w <= executions (snd (call pdf_bytes dpi w)) <=
  S (executions w).
Proof.
  destruct (cache_get (cache w) (pdf_bytes, dpi)) as [v|] eqn:E.
  - rewrite (call_hit _ _ _ _ E). simpl. lia.
  - rewrite (call_miss _ _ _ E). simpl. lia.
Qed.

Lemma second_call pdf_bytes dpi w :
  let first := call pdf_bytes dpi w in
  let second := call pdf_bytes dpi (snd first) in
  fst second = fst first /\
  executions (snd second) = executions (snd first).
Proof.
  intros first second. subst second.
  destruct (call_stores pdf_bytes dpi w) as [v [Hv Hget]].
  fold first in Hv, Hget. rewrite (call_hit _ _ _ _ Hget). simpl.
  now rewrite Hv.
Qed.

(** C4. Two calls of the memoised conversion in a row with the same
    document bytes and the same resolution execute the function body, and
    with it the renderer, at most once: the second call is a hit, it
    returns what the first one returned and leaves the number of
    executions, hence of renderer invocations and of archives built,
    where the first call left it. *)
Theorem second_call_is_a_hit :
  forall (pdf_bytes : bytes) (dpi : Z) (w : World),
    let first := call pdf_bytes dpi w in
    let second := call pdf_bytes dpi (snd first) in
    fst second = fst first /\
    executions (snd second) = executions (snd first) /\
    executions (snd second) <= S (executions w) /\
    exists v, fst second = ret v /\
              cache_get (cache (snd first)) (pdf_bytes, dpi) = Some v.
Proof.
  intros pdf_bytes dpi w first second.
  destruct (second_call pdf_bytes dpi w) as [Hr He].
  fold first in Hr, He. fold second in Hr, He.
  split; [exact Hr|]. split; [exact He|]. split.
  - rewrite He. apply call_executions.
  - destruct (call_stores pdf_bytes dpi w) as [v [Hv Hget]].
    exists v. rewrite Hr. auto.
Qed.

(** C1, amended. A failed conversion is returned by [perform_conversion]
    as the ordinary value [(None, str(e))], so the memoiser stores it
    under the request like any other result: after a call that returned a
    failure the store holds that failure for the request, and the next
    call with the same request returns the stored failure without
    executing the body, that is without invoking the renderer again. *)
Theorem failure_is_stored :
  forall (pdf_bytes : bytes) (dpi : Z) (w : World) (message : string),
    let first := call pdf_bytes dpi w in
    let second := call pdf_bytes dpi (snd first) in
    fst first = ret (ConversionError message) ->
    cache_get (cache (snd first)) (pdf_bytes, dpi) =
      Some (ConversionError message) /\
    fst second = ret (ConversionError message) /\
    executions (snd second) = executions (snd first).
Proof.
  intros pdf_bytes dpi w message first second Hfail.
  destruct (call_stores pdf_bytes dpi w) as [v [Hv Hget]].
  fold first in Hv, Hget. rewrite Hfail in Hv. injection Hv as <-.
  destruct (second_call pdf_bytes dpi w) as [Hr He].
  fold first in Hr, He. fold second in Hr, He.
  rewrite Hr, Hfail. auto.
Qed.

Lemma call_NoDup pdf_bytes dpi w :
  NoDup (cache_keys (cache w)) ->
  NoDup (cache_keys (cache (snd (call pdf_bytes dpi w)))).
Proof.
  intros H. destruct (cache_get (cache w) (pdf_bytes, dpi)) as [v|] eqn:E.
  - rewrite (call_hit _ _ _ _ E). simpl. now apply cache_hit_NoDup.
  - rewrite (call_miss _ _ _ E). simpl. now apply cache_set_NoDup.
Qed.

(** A call for another request keeps the entry of [k] or evicts it. *)
Lemma call_other_key pdf_bytes dpi w k :
  NoDup (cache_keys (cache w)) -> k <> (pdf_bytes, dpi) ->
  cache_get (cache (snd (call pdf_bytes dpi w))) k = cache_get (cache w) k \/
  cache_get (cache (snd (call pdf_bytes dpi w))) k = None.
Proof.
  intros Hnd Hne.
  destruct (cache_get (cache w) (pdf_bytes, dpi)) as [v|] eqn:E.
  - rewrite (call_hit _ _ _ _ E). simpl. left.
    now apply cache_get_hit_other.
  - rewrite (call_miss _ _ _ E). simpl. now apply cache_get_set_other.
Qed.

Lemma calls_other_keys between : forall w k,
  NoDup (cache_keys (cache w)) -> (forall q, In q between -> q <> k) ->
  cache_get (cache (calls between w)) k = cache_get (cache w) k \/
  cache_get (cache (calls between w)) k = None.
Proof.
  induction between as [|[pdf_bytes dpi] rest IH]; intros w k Hnd Hne;
    simpl; [now left|].
  assert (Hk : k <> (pdf_bytes, dpi)).
  { intros ->. apply (Hne (pdf_bytes, dpi)); simpl; auto. }
  destruct (IH (snd (call pdf_bytes dpi w)) k) as [H|H].
  - now apply call_NoDup.
  - intros q Hq. apply Hne. simpl; auto.
  - rewrite H. now apply call_other_key.
  - now right.
Qed.

Lemma members_same_stamps prefix run run' pngs : forall i,
  (forall j, j < List.length pngs ->
             localtime run (i + j) = localtime run' (i + j)) ->
  members localtime prefix run i pngs = members localtime prefix run' i pngs.
Proof.
  induction pngs as [|b pngs IH]; intros i H; simpl; [reflexivity|].
  f_equal.
  - f_equal. specialize (H 0). rewrite Nat.add_0_r in H. apply H. simpl; lia.
  - apply IH. intros j Hj. replace (S i + j) with (i + S j) by lia.
    apply H. simpl; lia.
Qed.

(** C5, amended. Two calls with the same request return the same bytes
    as long as the entry the first call left is still in the store when
    the second call is made, that is when the second call is a hit; calls
    for other requests in between do not change that entry, they can only
    evict it.  A conversion that is executed again yields the same page
    list and an archive with the same member names and the same member
    contents in the same order, but every member carries the local time
    at which it was written: the archive is the same byte for byte only
    if the clock readings are the same. *)
Theorem same_archive_while_stored :
  forall (pdf_bytes : bytes) (dpi : Z),
    (forall (w : World) (between : list Request),
       NoDup (cache_keys (cache w)) ->
       (forall q, In q between -> q <> (pdf_bytes, dpi)) ->
       let first := call pdf_bytes dpi w in
       let later := calls between (snd first) in
       let second := call pdf_bytes dpi later in
       executions (snd second) = executions later ->
       fst second = fst first) /\
    (forall (run run' : nat),
       match outcome run pdf_bytes dpi, outcome run' pdf_bytes dpi with
       | Converted l z, Converted l' z' =>
           l = l' /\ namelist z = namelist z' /\
           map content z = map content z' /\
           map compress_type z = map compress_type z' /\
           ((forall i, i < List.length l ->
                       localtime run i = localtime run' i) -> z = z')
       | ConversionError m, ConversionError m' => m = m'
       | _, _ => False
       end).
Proof.
  intros pdf_bytes dpi. split.
  - intros w between Hnd Hne first later second Hhit.
    destruct (call_stores pdf_bytes dpi w) as [v [Hv Hget]].
    fold first in Hv, Hget.
    assert (Hnd' : NoDup (cache_keys (cache (snd first))))
      by now apply call_NoDup.
    destruct (calls_other_keys between (snd first) (pdf_bytes, dpi) Hnd' Hne)
      as [H|H]; fold later in H.
    + rewrite Hget in H. subst second.
      rewrite (call_hit _ _ _ _ H). simpl. now rewrite Hv.
    + subst second. rewrite (call_miss _ _ _ H) in Hhit. simpl in Hhit. lia.
  - intros run run'. unfold converted.
    destruct (convert_from_bytes pdf_bytes dpi) as [e|images];
      [reflexivity|].
    destruct (save_all Image save_png images) as [e|pngs]; [reflexivity|].
    split; [reflexivity|].
    rewrite !members_namelist, !members_content.
    repeat split.
    + generalize 0. induction pngs as [|b pngs IH]; intros n; simpl;
        [reflexivity | now rewrite IH].
    + intros H. now apply members_same_stamps.
Qed.

(** The requests held after a sequence of calls for requests that are
    new to the store and differ from one another: the requests held
    before followed by the new ones, cut down to the newest
    [max_entries]. *)
Lemma keys_after_new_requests reqs : forall w,
  List.length (cache w) <= max_entries ->
  NoDup (cache_keys (cache w) ++ reqs) ->
  cache_keys (cache (calls reqs w)) =
  skipn (List.length (cache_keys (cache w) ++ reqs) - max_entries)
    (cache_keys (cache w) ++ reqs).
Proof.
  induction reqs as [|[pdf_bytes dpi] rest IH]; intros w Hlen Hnd; simpl.
  - rewrite app_nil_r. unfold cache_keys at 2. rewrite length_map.
    now replace (List.length (cache w) - max_entries) with 0 by lia.
  - assert (Hnew : ~ In (pdf_bytes, dpi) (cache_keys (cache w))).
    { intros Hin. apply NoDup_remove_2 in Hnd. apply Hnd.
      apply in_or_app. now left. }
    rewrite (call_miss _ _ _ (proj2 (cache_get_None _ _) Hnew)). simpl.
    set (r := outcome (executions w) pdf_bytes dpi).
    set (w' := {| cache := cache_set (cache w) (pdf_bytes, dpi) r;
                  executions := S (executions w) |}).
    set (K := cache_keys (cache w) ++ [(pdf_bytes, dpi)]).
    set (n := List.length K - max_entries).
    assert (HK : List.length K = S (List.length (cache w))).
    { subst K. unfold cache_keys. rewrite length_app, length_map. simpl. lia. }
    assert (Hkeys : cache_keys (cache w') = skipn n K).
    { subst w' K n. simpl. unfold cache_set.
      rewrite cache_remove_absent by assumption.
      rewrite evict_app_new. unfold cache_keys.
      rewrite !map_app, <- skipn_map, length_app, length_map. simpl.
      replace (List.length (cache w) + 1) with (S (List.length (cache w)))
        by lia.
      rewrite skipn_app, length_map.
      replace (S (List.length (cache w)) - max_entries -
               List.length (cache w)) with 0 by (unfold max_entries; lia).
      reflexivity. }
    assert (Happ : cache_keys (cache w') ++ rest = skipn n (K ++ rest)).
    { rewrite Hkeys, skipn_app.
      replace (n - List.length K) with 0 by (subst n; lia). reflexivity. }
    assert (HKr : K ++ rest = cache_keys (cache w) ++ (pdf_bytes, dpi) :: rest).
    { subst K. now rewrite <- app_assoc. }
    rewrite IH.
    + rewrite Happ, skipn_skipn, length_skipn, HKr. f_equal.
      subst n. rewrite !length_app. simpl.
      assert (Hck : List.length (cache_keys (cache w)) =
                    List.length (cache w)) by apply length_map.
      lia.
    + subst w'. simpl. apply evict_length.
    + rewrite Happ. apply skipn_NoDup. now rewrite HKr.
Qed.

Lemma calls_length reqs : forall w,
  List.length (cache w) <= max_entries ->
  List.length (cache (calls reqs w)) <= max_entries.
Proof.
  induction reqs as [|[pdf_bytes dpi] rest IH]; intros w Hlen; simpl;
    [assumption|].
  apply IH.
  destruct (cache_get (cache w) (pdf_bytes, dpi)) as [v|] eqn:E.
  - rewrite (call_hit _ _ _ _ E). simpl. destruct refresh; simpl; auto.
    apply cache_get_Some_keys in E.
    rewrite length_app. simpl.
    pose proof (cache_remove_shorter _ _ E). lia.
  - rewrite (call_miss _ _ _ E). simpl. apply evict_length.
Qed.

(** C7. The store never holds more than [max_entries] = 5 results, however
    many calls are made.  After calls for any number of requests that
    differ from one another, starting from an empty store, the requests
    held are the newest five in the order of their insertion (all of them
    when there are at most five); when more than five were inserted
    exactly five are held and the earliest inserted ones are those that
    were evicted, the very first before any other. *)
Theorem store_bounded_oldest_evicted :
  (forall (reqs : list Request) (w : World),
     List.length (cache w) <= max_entries ->
     List.length (cache (calls reqs w)) <= max_entries) /\
  (forall (reqs : list Request),
     NoDup reqs ->
     cache_keys (cache (calls reqs empty_world)) =
       skipn (List.length reqs - max_entries) reqs /\
     (max_entries < List.length reqs ->
      List.length (cache (calls reqs empty_world)) = max_entries /\
      forall q, In q (firstn (List.length reqs - max_entries) reqs) ->
                cache_get (cache (calls reqs empty_world)) q = None)).
Proof.
  split; [apply calls_length|].
  intros reqs Hnd.
  pose proof (keys_after_new_requests reqs empty_world) as Hk.
  simpl in Hk. specialize (Hk (Nat.le_0_l _) Hnd).
  split; [exact Hk|].
  intros Hlen. split.
  - rewrite <- (length_map fst). fold (cache_keys (cache (calls reqs empty_world))).
    rewrite Hk, length_skipn. lia.
  - intros q Hq. apply cache_get_None. rewrite Hk. intros Hin.
    rewrite <- (firstn_skipn (List.length reqs - max_entries) reqs) in Hnd.
    exact (NoDup_app_disjoint _ _ q Hnd Hq Hin).
Qed.

End MemoisedFacts.

(** The amended C1 on the test double: the file that is not a PDF fails,
    and its failure is what the second call gets from the store. *)
Lemma failure_is_stored_witness :
  let first :=
    perform_conversion Mock.Image Mock.convert_from_bytes Mock.save_png
      Mock.localtime false Mock.not_a_pdf 300 empty_world in
  fst first = ret (ConversionError "Unable to get page count.") /\
  cache_get (cache (snd first)) (Mock.not_a_pdf, 300%Z) =
    Some (ConversionError "Unable to get page count.").
Proof.
  split; [reflexivity|].
  apply (failure_is_stored Mock.Image Mock.convert_from_bytes Mock.save_png
           Mock.localtime false Mock.not_a_pdf 300 empty_world
           "Unable to get page count." eq_refl).
Defined.

(** C1 as the specification states it fails: the renderer refuses the
    file that is not a PDF, the failure is stored, and the second call
    does not execute the conversion again. *)
Lemma failure_is_retried_counterexample :
  ~ failure_is_retried Mock.Image Mock.convert_from_bytes Mock.save_png
      Mock.localtime false Mock.not_a_pdf 300 empty_world.
Proof.
  unfold failure_is_retried. intros H.
  destruct H as [H _].
  - exists "Unable to get page count."%string. reflexivity.
  - vm_compute in H. discriminate H.
Qed.

(** ** The statements on the test double *)

(** C2 on the three page document: three encoded pages come back. *)
Lemma conversion_complete_or_failed_witness :
  exists l z,
    perform_conversion_body Mock.Image Mock.convert_from_bytes Mock.save_png
      Mock.localtime 0 Mock.three_pages 300 = ret (Converted l z) /\
    List.length l = 3 /\
    namelist z = ["page_001.png"; "page_002.png"; "page_003.png"]%string.
Proof.
  destruct (conversion_complete_or_failed Mock.Image Mock.convert_from_bytes
              Mock.save_png Mock.localtime 0 Mock.three_pages 300
              [Byte.x0a; Byte.x0b; Byte.x0c] eq_refl) as [H1 [H2 _]].
  destruct H1 as [l [z E]].
  - repeat constructor; eexists; reflexivity.
  - exists l, z. split; [exact E|].
    destruct (H2 l z E) as [Hlen [_ [_ Hnames]]]. split; assumption.
Defined.

(** A document whose second page cannot be encoded gives the error
    tuple, not the list of the one page encoded before it. *)
Lemma bad_page_gives_error :
  perform_conversion_body Mock.Image Mock.convert_from_bytes Mock.save_png
    Mock.localtime 0 Mock.bad_page 300 =
  ret (ConversionError "cannot write mode F as PNG").
Proof. reflexivity. Qed.

(** The amended C3 on the three page document, for its last page, in
    [perform_conversion] and in [app.py]. *)
Lemma archive_round_trip_witness :
  (exists l z,
     perform_conversion_body Mock.Image Mock.convert_from_bytes Mock.save_png
       Mock.localtime 0 Mock.three_pages 300 = ret (Converted l z) /\
     nth_error (namelist z) 2 = Some "page_003.png"%string /\
     zip_read z "page_003.png" = nth_error l 2) /\
  (exists z downloads,
     app_main Mock.Image Mock.convert_from_bytes Mock.save_png Mock.localtime
       Mock.splitext_root 300
       (Some (Mock.upload "doc.pdf" "1" Mock.three_pages)) 0 =
     ret (Pages 3 z "doc_all_pages.zip" downloads) /\
     nth_error (namelist z) 2 = Some "doc_page_003.png"%string /\
     zip_read z "doc_page_003.png" = option_map snd (nth_error downloads 2)).
Proof.
  destruct (archive_round_trip Mock.Image Mock.convert_from_bytes
              Mock.save_png Mock.localtime 0 Mock.three_pages 300) as [H H'].
  split.
  - eexists _, _. split; [reflexivity|].
    destruct (H _ _ eq_refl) as [_ Hi].
    destruct (Hi 2) as (Hn & _ & _ & _ & Hr); [simpl; lia|].
    split; [exact Hn | exact Hr].
  - eexists _, _. split; [reflexivity|].
    destruct (H' Mock.splitext_root
                (Mock.upload "doc.pdf" "1" Mock.three_pages) _ _ _ _ eq_refl)
      as (_ & _ & _ & Hi).
    destruct (Hi 2) as (_ & _ & Hk); [simpl; lia|].
    exact (Hk eq_refl).
Defined.

(** On the Windows host of the double, a backslash in the name of the
    upload is a slash in the archive: the members are stored under
    [a/b_page_001.png] and so on, while the single page downloads are
    named [a\b_page_001.png], a name the archive does not have. *)
Lemma backslash_in_upload_name :
  exists z downloads,
    app_main Mock.Image Mock.convert_from_bytes Mock.save_png Mock.localtime
      Mock.splitext_root 300
      (Some (Mock.upload "a\b.pdf" "1" Mock.three_pages)) 0 =
    ret (Pages 3 z "a\b_all_pages.zip" downloads) /\
    namelist z =
      ["a/b_page_001.png"; "a/b_page_002.png"; "a/b_page_003.png"]%string /\
    map fst downloads =
      ["a\b_page_001.png"; "a\b_page_002.png"; "a\b_page_003.png"]%string /\
    zip_read z "a\b_page_001.png" = None /\
    zip_read z "a/b_page_001.png" = option_map snd (nth_error downloads 0).
Proof. eexists _, _. repeat split. Qed.

(** A null character in the name of the upload cuts the member names
    short: all the members are stored under the part of the name before
    it, and reading that name gives the last page. *)
Lemma null_in_upload_name :
  exists z downloads,
    app_main Mock.Image Mock.convert_from_bytes Mock.save_png Mock.localtime
      Mock.splitext_root 300
      (Some (Mock.upload ("a" ++ String zero "b.pdf") "1" Mock.three_pages))
      0 =
    ret (Pages 3 z ("a" ++ String zero "b_all_pages.zip")%string downloads) /\
    namelist z = ["a"; "a"; "a"]%string /\
    nth_error (map fst downloads) 0 =
      Some ("a" ++ String zero "b_page_001.png")%string /\
    zip_read z ("a" ++ String zero "b_page_001.png") = None /\
    zip_read z "a" = option_map snd (nth_error downloads 2).
Proof. eexists _, _. repeat split. Qed.

(** C3 as the specification states it fails on a document of a thousand
    pages: the member of the last page is [page_1000.png], whose ordinal
    takes four digits. *)
Lemma members_named_in_three_digits_counterexample :
  ~ members_named_in_three_digits Mock.Image Mock.convert_from_bytes
      Mock.save_png Mock.localtime 0 (Mock.document 1000) 300.
Proof.
  unfold members_named_in_three_digits. intros H.
  pose proof (body_eq Mock.Image Mock.convert_from_bytes Mock.save_png
                Mock.localtime 0 (Mock.document 1000) 300) as E.
  unfold converted in E.
  change (Mock.convert_from_bytes (Mock.document 1000) 300)
    with (@inr exn _ (repeat Byte.x01 1000)) in E.
  cbv beta iota in E.
  destruct (save_all Mock.Image Mock.save_png (repeat Byte.x01 1000))
    as [e|pngs] eqn:Hs.
  - apply save_all_raises in Hs. destruct Hs as [image [Hin Hr]].
    apply repeat_spec in Hin. subst image. discriminate Hr.
  - apply save_all_Forall2, Forall2_length in Hs.
    rewrite repeat_length in Hs.
    destruct (H _ _ E) as [_ Hi].
    assert (G : 999 < List.length pngs) by lia.
    destruct (Hi 999 G) as (_ & Hw & _).
    vm_compute in Hw. discriminate Hw.
Qed.

(** The amended C5 on the three page document: with one call for another
    resolution in between, the second call is a hit and returns what the
    first call returned. *)
Lemma same_archive_while_stored_witness :
  let first :=
    perform_conversion Mock.Image Mock.convert_from_bytes Mock.save_png
      Mock.localtime false Mock.three_pages 300 empty_world in
  let later :=
    perform_conversions Mock.Image Mock.convert_from_bytes Mock.save_png
      Mock.localtime false [(Mock.three_pages, 150%Z)] (snd first) in
  fst (perform_conversion Mock.Image Mock.convert_from_bytes Mock.save_png
         Mock.localtime false Mock.three_pages 300 later) = fst first.
Proof.
  destruct (same_archive_while_stored Mock.Image Mock.convert_from_bytes
              Mock.save_png Mock.localtime false Mock.three_pages 300)
    as [H _].
  apply (H empty_world [(Mock.three_pages, 150%Z)]).
  - constructor.
  - intros q [<-|[]]. discriminate.
  - reflexivity.
Defined.

(** C5 as the specification states it fails: between two calls for the
    three page document at 300 DPI, calls at five other resolutions evict
    its entry; the second call converts again, a day later on the test
    clock, and the members of its archive carry another date. *)
Lemma same_archive_again_counterexample :
  ~ same_archive_again Mock.Image Mock.convert_from_bytes Mock.save_png
      Mock.localtime false Mock.three_pages 300 five_requests empty_world.
Proof.
  unfold same_archive_again. vm_compute. discriminate.
Qed.

Lemma six_requests_NoDup : NoDup six_requests.
Proof.
  unfold six_requests, five_requests. simpl.
  repeat (constructor; [simpl; intuition discriminate|]). constructor.
Defined.

(** C7 on six requests: the five newest are held, the first is gone. *)
Lemma store_bounded_oldest_evicted_witness :
  let w :=
    perform_conversions Mock.Image Mock.convert_from_bytes Mock.save_png
      Mock.localtime false six_requests empty_world in
  cache_keys (cache w) = five_requests /\
  List.length (cache w) = 5 /\
  cache_get (cache w) (Mock.three_pages, 300%Z) = None.
Proof.
  destruct (store_bounded_oldest_evicted Mock.Image Mock.convert_from_bytes
              Mock.save_png Mock.localtime false) as [_ H].
  destruct (H six_requests six_requests_NoDup) as [Hk Hev].
  destruct Hev as [Hlen Hgone]; [unfold max_entries; simpl; lia|].
  split; [exact Hk|]. split; [exact Hlen|].
  apply Hgone. simpl. auto.
Defined.

(** ** The reading of the resolution *)

Section StartupFacts.

Context {platform : Platform}.

Variable Image : Type.
Variable convert_from_bytes : bytes -> Z -> Exc (list Image).
Variable save_png : Image -> Exc bytes.
Variable localtime : nat -> nat -> Stamp.
Variable int_of_str : string -> option Z.
Variable splitext_root : string -> string.

(** C10. In [app.py] the resolution is read outside any [try]: when
    [OUTPUT_DPI] is set to a text that is not an integer literal the run
    ends with the [ValueError] of [int], whatever was uploaded and before
    the upload is looked at, so nothing is converted.  The default of 300
    is what the script uses when the variable is not set, and a variable
    that holds a literal gives its value.  [app1.py] and [app2.py] read
    the variable under [except ValueError] and fall back to the second
    option instead. *)
Theorem unparsable_dpi_stops_startup :
  forall (s : string),
    int_of_str s = None ->
    (forall uploaded_file run,
       app_script Image convert_from_bytes save_png localtime int_of_str
         splitext_root (Some s) uploaded_file run =
       raise (Raise "ValueError"
                ("invalid literal for int() with base 10: '" ++ s ++ "'"))) /\
    (forall uploaded_file run,
       app_script Image convert_from_bytes save_png localtime int_of_str
         splitext_root None uploaded_file run =
       app_main Image convert_from_bytes save_png localtime splitext_root
         300 uploaded_file run) /\
    (forall s' z uploaded_file run,
       int_of_str s' = Some z ->
       app_script Image convert_from_bytes save_png localtime int_of_str
         splitext_root (Some s') uploaded_file run =
       app_main Image convert_from_bytes save_png localtime splitext_root
         z uploaded_file run) /\
    default_index int_of_str (Some s) = ret 1.
Proof.
  intros s Hs. repeat split.
  - intros uploaded_file run. unfold app_script, read_OUTPUT_DPI.
    now rewrite Hs.
  - intros s' z uploaded_file run Hz. unfold app_script, read_OUTPUT_DPI.
    now rewrite Hz.
  - unfold default_index, read_OUTPUT_DPI. now rewrite Hs.
Qed.

End StartupFacts.

(** C10 on the test double, with [OUTPUT_DPI=abc] and a well-formed
    document uploaded. *)
Lemma unparsable_dpi_stops_startup_witness :
  Mock.int_of_str "abc" = None /\
  app_script Mock.Image Mock.convert_from_bytes Mock.save_png Mock.localtime
    Mock.int_of_str Mock.splitext_root (Some "abc"%string)
    (Some (Mock.upload "doc.pdf" "1" Mock.three_pages)) 0 =
  raise (Raise "ValueError" "invalid literal for int() with base 10: 'abc'").
Proof.
  split; [reflexivity|].
  apply (unparsable_dpi_stops_startup Mock.Image Mock.convert_from_bytes
           Mock.save_png Mock.localtime Mock.int_of_str Mock.splitext_root
           "abc" eq_refl).
Defined.

(** ** The page viewer *)

Lemma py_getitem_in_range {A} (l : list A) (i : Z) :
  (0 <= i < Z.of_nat (List.length l))%Z ->
  exists x, py_getitem l i = ret x /\ nth_error l (Z.to_nat i) = Some x.
Proof.
  intros Hi. unfold py_getitem.
  destruct (i <? 0)%Z eqn:E; [apply Z.ltb_lt in E; lia|].
  replace ((0 <=? i)%Z && (i <? Z.of_nat (List.length l))%Z) with true
    by (symmetry; apply andb_true_iff; split;
        [apply Z.leb_le | apply Z.ltb_lt]; lia).
  destruct (nth_error l (Z.to_nat i)) as [x|] eqn:Hx.
  - now exists x.
  - apply nth_error_None in Hx. lia.
Qed.

Section PageViewerFacts.

Context {platform : Platform}.

Import App1.

Variable Image : Type.
Variable convert_from_bytes : bytes -> Z -> Exc (list Image).
Variable save_png : Image -> Exc bytes.
Variable localtime : nat -> nat -> Stamp.
Variable refresh : bool.
Variable splitext_root : string -> string.

#[local] Abbreviation pass :=
  (script_pass Image convert_from_bytes save_png localtime refresh
     splitext_root).
#[local] Abbreviation store :=
  (convert_and_store Image convert_from_bytes save_png localtime refresh
     splitext_root).
#[local] Abbreviation run :=
  (run_script Image convert_from_bytes save_png localtime refresh
     splitext_root).
#[local] Abbreviation action :=
  (step Image convert_from_bytes save_png localtime refresh splitext_root).
#[local] Abbreviation possible :=
  (reachable Image convert_from_bytes save_png localtime refresh
     splitext_root).

Lemma set_index_consistent ss i :
  consistent ss ->
  (forall l, image_bytes_list ss = Some (Some l) ->
             (0 <= i)%Z /\ (i < Z.of_nat (List.length l) \/ i = 0)%Z) ->
  consistent (set_current_page_index ss i).
Proof.
  unfold consistent. simpl.
  destruct (image_bytes_list ss) as [[l|]|]; auto.
  intros (Ht & Hf & Hd & Hn & _) Hi. repeat split; auto.
  exists i. split; [reflexivity|]. now apply Hi.
Qed.

Lemma on_change_consistent ss : consistent ss -> consistent (on_change ss).
Proof. intros H. apply set_index_consistent; [assumption|]. intros; lia. Qed.

Lemma clear_consistent : consistent clear.
Proof. reflexivity. Qed.

(** The display block does not raise on a consistent session state, and
    the page it shows lies within the stored list. *)
Lemma display_consistent w ss b :
  consistent ss ->
  consistent (session_after (display w ss b)) /\
  (forall e, status (display w ss b) <> Raised e) /\
  (forall page, shown (display w ss b) = Some page ->
                in_bounds (session_after (display w ss b)) page).
Proof.
  intros Hc. pose proof Hc as Hc'. unfold consistent in Hc'. unfold display.
  destruct (image_bytes_list ss) as [[l|]|] eqn:El;
    [|contradiction|simpl; split; [assumption|split; discriminate]].
  destruct Hc' as (Ht & Hf & Hd & Hn & i & Hi & H0 & Hlt).
  rewrite Ht. simpl.
  destruct (0 <? Z.of_nat (List.length l))%Z eqn:E0;
    [|simpl; split; [assumption|split; discriminate]].
  apply Z.ltb_lt in E0. rewrite Hi. simpl.
  destruct (py_getitem_in_range l i) as [x [Hx Hnth]]; [lia|].
  rewrite Hx. simpl.
  destruct (pdf_filename ss) as [fname|]; [|contradiction]. simpl.
  assert (Hb : forall j,
    (0 <= j < Z.of_nat (List.length l))%Z ->
    in_bounds (set_current_page_index ss j)
      {| current_index := i; current_image_bytes := x;
         current_page_name := page_name (fname ++ "_") i;
         of_total := Z.of_nat (List.length l);
         previous_disabled := (i =? 0)%Z;
         next_disabled := (i =? Z.of_nat (List.length l) - 1)%Z |}).
  { intros j Hj. split; simpl; [lia|]. exists l. auto. }
  unfold st_button.
  destruct (previous_clicked b && negb (i =? 0)%Z) eqn:Ep; simpl.
  - apply andb_true_iff in Ep. destruct Ep as [_ Ep].
    apply negb_true_iff, Z.eqb_neq in Ep.
    split; [|split; [discriminate|]].
    + apply set_index_consistent; [assumption|].
      intros l' Hl'. rewrite El in Hl'. injection Hl' as <-. lia.
    + intros page Hp. injection Hp as <-. apply Hb. lia.
  - destruct (next_clicked b && negb (i =? Z.of_nat (List.length l) - 1)%Z)
      eqn:En; simpl.
    + apply andb_true_iff in En. destruct En as [_ En].
      apply negb_true_iff, Z.eqb_neq in En.
      split; [|split; [discriminate|]].
      * apply set_index_consistent; [assumption|].
        intros l' Hl'. rewrite El in Hl'. injection Hl' as <-. lia.
      * intros page Hp. injection Hp as <-. apply Hb. lia.
    + split; [assumption|split; [discriminate|]].
      intros page Hp. injection Hp as <-. split; simpl; [lia|].
      exists l. auto.
Qed.

(** Conversion and storing never raise; what is stored is either a page
    list with index 0 or nothing at all. *)
Lemma store_result w ss f d :
  exists r,
    store w ss f d =
    (ret (if is_list r
          then {| image_bytes_list := Some (list_or_None r);
                  zip_data := Some (zip_or_message r);
                  last_file_id := Some (file_id f);
                  last_dpi := Some d;
                  pdf_filename := Some (splitext_root (name f));
                  total_pages := Some (len_or_0 r);
                  current_page_index := Some 0%Z |}
          else clear),
     snd (perform_conversion Image convert_from_bytes save_png localtime
            refresh (getvalue f) d w)).
Proof.
  unfold convert_and_store.
  destruct (call_stores Image convert_from_bytes save_png localtime refresh
              (getvalue f) d w) as [r [Hr _]].
  exists r.
  destruct (perform_conversion Image convert_from_bytes save_png localtime
              refresh (getvalue f) d w) as [res w'].
  simpl in *. now rewrite Hr.
Qed.

Lemma stored_consistent r fid d root :
  consistent
    (if is_list r
     then {| image_bytes_list := Some (list_or_None r);
             zip_data := Some (zip_or_message r);
             last_file_id := Some fid;
             last_dpi := Some d;
             pdf_filename := Some root;
             total_pages := Some (len_or_0 r);
             current_page_index := Some 0%Z |}
     else clear).
Proof.
  destruct r as [l z|m]; simpl; [|reflexivity].
  unfold consistent; simpl. repeat split; try discriminate.
  exists 0%Z. split; [reflexivity|]. lia.
Qed.

Lemma needs_conversion_consistent ss fid d :
  consistent ss -> exists g, needs_conversion ss fid d = ret g.
Proof.
  unfold consistent, needs_conversion. intros Hc.
  destruct (last_file_id ss) as [id|] eqn:E; [|now exists true].
  destruct (negb (id =? fid)%string); [now exists true|].
  destruct (image_bytes_list ss) as [[l|]|]; [|contradiction|discriminate].
  destruct Hc as (_ & _ & Hd & _).
  destruct (last_dpi ss) as [d'|]; [|contradiction].
  simpl. eexists; reflexivity.
Qed.

(** One run of the script on a consistent session state. *)
Lemma pass_consistent w ss up d b :
  consistent ss ->
  consistent (session_after (pass w ss up d b)) /\
  (forall e, status (pass w ss up d b) <> Raised e) /\
  (forall page, shown (pass w ss up d b) = Some page ->
                in_bounds (session_after (pass w ss up d b)) page).
Proof.
  intros Hc. unfold script_pass.
  set (ss0 := match current_page_index ss with
              | Some _ => ss
              | None => set_current_page_index ss 0
              end).
  assert (Hc0 : consistent ss0).
  { subst ss0. destruct (current_page_index ss); [assumption|].
    apply set_index_consistent; [assumption|]. intros; lia. }
  destruct up as [f|].
  - destruct (needs_conversion_consistent ss0 (file_id f) d Hc0) as [g Hg].
    rewrite Hg. destruct g.
    + destruct (store_result w ss0 f d) as [r Hr]. rewrite Hr.
      apply display_consistent, stored_consistent.
    + now apply display_consistent.
  - simpl. split; [|split; discriminate].
    destruct (last_file_id ss0); [|assumption].
    apply set_index_consistent; [apply clear_consistent|]. discriminate.
Qed.

Lemma in_bounds_index ss page :
  in_bounds ss page ->
  (0 <= current_index page <= of_total page - 1)%Z.
Proof. now intros [H _]. Qed.

Lemma run_consistent w ss up d b :
  consistent ss ->
  consistent (session (fst (fst (run w ss up d b)))) /\
  (forall e, snd (run w ss up d b) <> Raised e) /\
  Forall (fun page =>
            (0 <= current_index page <= of_total page - 1)%Z)
    (snd (fst (run w ss up d b))).
Proof.
  intros Hc. unfold run_script.
  destruct (pass_consistent w ss up d b Hc) as (Hc1 & Hs1 & Hp1).
  assert (H1 : Forall (fun page =>
                 (0 <= current_index page <= of_total page - 1)%Z)
                 match shown (pass w ss up d b) with
                 | Some s => [s]
                 | None => []
                 end).
  { destruct (shown (pass w ss up d b)) as [page|]; constructor; auto.
    eapply in_bounds_index, Hp1. reflexivity. }
  destruct (status (pass w ss up d b)) eqn:Es; simpl.
  - split; [assumption|split; [discriminate|assumption]].
  - destruct (pass_consistent (world_after (pass w ss up d b))
                (session_after (pass w ss up d b)) up d no_click Hc1)
      as (Hc2 & Hs2 & Hp2).
    split; [assumption|split; [assumption|]].
    apply Forall_app. split; [assumption|].
    match goal with |- Forall _ match shown ?q with _ => _ end =>
      destruct (shown q) as [page|] eqn:Eq end; constructor; auto.
    eapply in_bounds_index, Hp2. reflexivity.
  - exfalso. now apply (Hs1 e).
Qed.

Lemma step_consistent e a :
  consistent (session a) ->
  consistent (session (fst (fst (action e a)))) /\
  (forall ex, snd (action e a) <> Raised ex) /\
  Forall (fun page =>
            (0 <= current_index page <= of_total page - 1)%Z)
    (snd (fst (action e a))).
Proof.
  intros Hc. destruct e; simpl; apply run_consistent;
    auto using on_change_consistent.
Qed.

Lemma reachable_consistent a : possible a -> consistent (session a).
Proof.
  induction 1 as [w d|a e _ IH]; [apply clear_consistent|].
  now apply step_consistent.
Qed.

(** C9. In the paginated viewer, every state a session can reach has a
    session state whose index points into the stored page list, and no
    user action makes the script raise: whenever a page is displayed
    (the list is non-empty), 0 <= current_page_index <= total_pages - 1,
    [total_pages] is the length of the list, and the access
    [image_bytes_list[current_index]] yields the page at that very
    position.  Previous is disabled exactly at index 0 and Next exactly at
    index [total_pages - 1], so a click cannot leave the range. *)
Theorem displayed_page_in_bounds :
  (forall a, possible a -> consistent (session a)) /\
  (forall a e,
     possible a ->
     (forall ex, snd (action e a) <> Raised ex) /\
     Forall (fun page =>
               (0 <= current_index page <= of_total page - 1)%Z)
       (snd (fst (action e a)))) /\
  (forall w ss up d b,
     consistent ss ->
     (forall ex, status (pass w ss up d b) <> Raised ex) /\
     forall page,
       shown (pass w ss up d b) = Some page ->
       in_bounds (session_after (pass w ss up d b)) page).
Proof.
  split; [exact reachable_consistent|]. split.
  - intros a e Ha. apply reachable_consistent in Ha.
    now destruct (step_consistent e a Ha) as (_ & H1 & H2).
  - intros w ss up d b Hc.
    now destruct (pass_consistent w ss up d b Hc) as (_ & H1 & H2).
Qed.

(** With the index at 0 the display block shows the first page. *)
Lemma display_index_0 w ss b page :
  current_page_index ss = Some 0%Z ->
  shown (display w ss b) = Some page -> current_index page = 0%Z.
Proof.
  intros Hi. unfold display.
  destruct (image_bytes_list ss) as [[l|]|]; try discriminate.
  destruct (total_pages ss) as [total|]; simpl; try discriminate.
  destruct (0 <? total)%Z; try discriminate.
  rewrite Hi. simpl.
  destruct (py_getitem l 0) as [e|x]; simpl; try discriminate.
  destruct (pdf_filename ss) as [fname|]; simpl; try discriminate.
  repeat match goal with
         | |- context [if ?c then _ else _] => destruct c
         end;
    simpl; intros H; injection H as <-; reflexivity.
Qed.

(** Without a click the display block leaves the session state alone and
    asks for no rerun. *)
Lemma display_no_click w ss :
  session_after (display w ss no_click) = ss /\
  status (display w ss no_click) <> RerunRequested.
Proof.
  unfold display.
  destruct (image_bytes_list ss) as [[l|]|];
    try (split; [reflexivity|discriminate]).
  destruct (attr "total_pages" (total_pages ss)) as [e|total];
    try (split; [reflexivity|discriminate]).
  destruct (0 <? total)%Z; try (split; [reflexivity|discriminate]).
  match goal with |- context [match ?c with inl _ => _ | inr _ => _ end] =>
    destruct c as [e|page] end;
    simpl; split; try reflexivity; discriminate.
Qed.

Lemma store_index w ss f d :
  exists ss' w',
    store w ss f d = (ret ss', w') /\
    (ss' = clear \/ current_page_index ss' = Some 0%Z).
Proof.
  destruct (store_result w ss f d) as [r Hr]. rewrite Hr.
  eexists _, _. split; [reflexivity|].
  destruct r; simpl; auto.
Qed.

(** A run whose file or resolution differs from the stored pair. *)
Lemma pass_changed_pair w ss f d b page :
  last_file_id ss <> Some (file_id f) \/ last_dpi ss <> Some d ->
  shown (pass w ss (Some f) d b) = Some page ->
  current_index page = 0%Z.
Proof.
  intros Hch. unfold script_pass.
  set (ss0 := match current_page_index ss with
              | Some _ => ss
              | None => set_current_page_index ss 0
              end).
  assert (Hf : last_file_id ss0 = last_file_id ss)
    by (subst ss0; now destruct (current_page_index ss)).
  assert (Hd : last_dpi ss0 = last_dpi ss)
    by (subst ss0; now destruct (current_page_index ss)).
  assert (Hg : needs_conversion ss0 (file_id f) d = ret true \/
               exists e, needs_conversion ss0 (file_id f) d = raise e).
  { unfold needs_conversion. rewrite Hf, Hd.
    destruct (last_file_id ss) as [id|]; [|now left].
    destruct (id =? file_id f)%string eqn:E; simpl; [|now left].
    apply String.eqb_eq in E. subst id.
    destruct Hch as [Hch|Hch]; [congruence|].
    destruct (last_dpi ss) as [d'|]; simpl; [|right; eexists; reflexivity].
    left. destruct (d' =? d)%Z eqn:E'; [|reflexivity].
    apply Z.eqb_eq in E'. congruence. }
  destruct Hg as [Hg|[e Hg]]; rewrite Hg; [|discriminate].
  destruct (store_index w ss0 f d) as (ss' & w' & Hs & Hi). rewrite Hs.
  destruct Hi as [->|Hi]; [discriminate|].
  now apply display_index_0.
Qed.

(** The run that follows a change of the file or of the resolution. *)
Lemma run_after_on_change w ss up d :
  Forall (fun page => current_index page = 0%Z)
    (snd (fst (run w (on_change ss) up d no_click))) /\
  (current_page_index (session (fst (fst (run w (on_change ss) up d no_click))))
     = Some 0%Z \/
   session (fst (fst (run w (on_change ss) up d no_click))) = clear).
Proof.
  assert (G : forall w' ss',
    ss' = clear \/ current_page_index ss' = Some 0%Z ->
    status (display w' ss' no_click) <> RerunRequested /\
    (forall page, shown (display w' ss' no_click) = Some page ->
                  current_index page = 0%Z) /\
    (current_page_index (session_after (display w' ss' no_click)) = Some 0%Z
     \/ session_after (display w' ss' no_click) = clear)).
  { intros w' ss' Hi. destruct (display_no_click w' ss') as [Hs Hr].
    split; [assumption|]. rewrite Hs. split; [|tauto].
    destruct Hi as [->|Hi]; [discriminate|].
    intros page. now apply display_index_0. }
  assert (P : status (pass w (on_change ss) up d no_click) <> RerunRequested /\
    (forall page, shown (pass w (on_change ss) up d no_click) = Some page ->
                  current_index page = 0%Z) /\
    (current_page_index
       (session_after (pass w (on_change ss) up d no_click)) = Some 0%Z \/
     session_after (pass w (on_change ss) up d no_click) = clear)).
  { unfold script_pass. simpl current_page_index. cbv iota.
    destruct up as [f|].
    - destruct (needs_conversion (on_change ss) (file_id f) d) as [e|[|]].
      + simpl. split; [discriminate|]. split; [discriminate|now left].
      + destruct (store_index w (on_change ss) f d) as (ss' & w' & Hs & Hi).
        rewrite Hs. now apply G.
      + apply G. now right.
    - simpl. split; [discriminate|]. split; [discriminate|].
      left. now destruct (last_file_id ss). }
  destruct P as (Pr & Pp & Ps). unfold run_script.
  destruct (status (pass w (on_change ss) up d no_click)) eqn:Es;
    [|contradiction|]; simpl; (split; [|assumption]);
    destruct (shown (pass w (on_change ss) up d no_click)) as [page|];
    constructor; auto.
Qed.

(** C8. Whenever the pair (file identifier, resolution) of a run differs
    from the pair recorded in the session state, the conversion guard of
    line 100 fires and line 112 sets the index to 0 before the display
    block reads it: the page that run displays, if any, is the first
    one.  Uploading a file and selecting a resolution also run the
    [on_change] callback first, so the run that follows displays the
    first page, and it leaves the index at 0, or the session state empty
    after a failed conversion. *)
Theorem index_reset_on_change :
  (forall w ss f d b page,
     last_file_id ss <> Some (file_id f) \/ last_dpi ss <> Some d ->
     shown (pass w ss (Some f) d b) = Some page ->
     current_index page = 0%Z) /\
  (forall a e,
     (exists f, e = Upload f) \/ (exists d, e = SelectDpi d) ->
     Forall (fun page => current_index page = 0%Z)
       (snd (fst (action e a))) /\
     (current_page_index (session (fst (fst (action e a)))) = Some 0%Z \/
      session (fst (fst (action e a))) = clear)).
Proof.
  split; [exact pass_changed_pair|].
  intros a e [[f ->]|[d ->]]; simpl; apply run_after_on_change.
Qed.

End PageViewerFacts.

(** ** The scripts on the test double *)

(** C6 on the file that is not a PDF: the renderer raises and the
    conversion returns the error text. *)
Lemma conversion_never_raises_witness :
  Mock.convert_from_bytes Mock.not_a_pdf 300 =
    raise (Raise "PDFPageCountError" "Unable to get page count.") /\
  perform_conversion_body Mock.Image Mock.convert_from_bytes Mock.save_png
    Mock.localtime 0 Mock.not_a_pdf 300 =
    ret (ConversionError "Unable to get page count.").
Proof.
  split; [reflexivity|].
  destruct (conversion_never_raises Mock.Image Mock.convert_from_bytes
              Mock.save_png Mock.localtime 0 Mock.not_a_pdf 300)
    as (_ & H & _).
  apply (H (Raise "PDFPageCountError" "Unable to get page count.") eq_refl).
Defined.

Lemma viewer_on_last_page_reachable :
  App1.reachable Mock.Image Mock.convert_from_bytes Mock.save_png
    Mock.localtime false Mock.splitext_root viewer_on_last_page.
Proof.
  unfold viewer_on_last_page. cbv zeta.
  do 3 apply App1.reachable_step. apply App1.reachable_start.
Defined.

(** C8 on that session: selecting 600 DPI shows the first page again. *)
Lemma index_reset_on_change_witness :
  App1.current_page_index (App1.session viewer_on_last_page) = Some 2%Z /\
  exists page,
    App1.shown
      (App1.script_pass Mock.Image Mock.convert_from_bytes Mock.save_png
         Mock.localtime false Mock.splitext_root
         (App1.world viewer_on_last_page) (App1.session viewer_on_last_page)
         (App1.uploaded_file viewer_on_last_page) 600 App1.no_click) =
      Some page /\
    App1.current_index page = 0%Z.
Proof.
  split; [reflexivity|].
  eexists. split; [reflexivity|].
  destruct (index_reset_on_change Mock.Image Mock.convert_from_bytes
              Mock.save_png Mock.localtime false Mock.splitext_root)
    as [H _].
  eapply (H (App1.world viewer_on_last_page)
            (App1.session viewer_on_last_page)
            (Mock.upload "doc.pdf" "1" Mock.three_pages) 600%Z
            App1.no_click).
  - right. vm_compute. discriminate.
  - reflexivity.
Defined.

(** C9 on that session: a further click on Next, which is disabled on
    the last page, displays the page at index 2 of 3. *)
Lemma displayed_page_in_bounds_witness :
  Forall (fun page =>
            (0 <= App1.current_index page <= App1.of_total page - 1)%Z)
    (snd (fst (App1.step Mock.Image Mock.convert_from_bytes Mock.save_png
                 Mock.localtime false Mock.splitext_root App1.ClickNext
                 viewer_on_last_page))) /\
  map App1.current_index
    (snd (fst (App1.step Mock.Image Mock.convert_from_bytes Mock.save_png
                 Mock.localtime false Mock.splitext_root App1.ClickNext
                 viewer_on_last_page))) = [2%Z].
Proof.
  split; [|reflexivity].
  destruct (displayed_page_in_bounds Mock.Image Mock.convert_from_bytes
              Mock.save_png Mock.localtime false Mock.splitext_root)
    as (_ & H & _).
  apply (H viewer_on_last_page App1.ClickNext viewer_on_last_page_reachable).
Defined.

(** * Further properties of the scripts *)

(** ** The default resolution of [app1.py] and [app2.py] *)

(** Closes the case of a configured resolution found at position [i]. *)
Ltac option_found i :=
  exists i;
  split; [reflexivity|];
  split; [simpl; lia|];
  split; [intros ? Hz _; injection Hz as <-; reflexivity|];
  split; [intros ? Hz Hn; injection Hz as <-; exfalso; apply Hn; simpl; auto|];
  intros ? He; discriminate He.

(** X1. The index handed to the resolution select box ([app1.py] lines
    59 to 63, [app2.py] lines 60 to 64) is always valid, whatever
    [OUTPUT_DPI] holds: the computation never raises and its result is
    below the number of options.  It points at the configured resolution
    when that is one of 150, 300 and 600, and at 300 when the variable
    holds another number or no number at all. *)
Theorem default_index_is_valid :
  forall (int_of_str : string -> option Z) (OUTPUT_DPI : option string),
    exists i,
      default_index int_of_str OUTPUT_DPI = ret i /\
      i < List.length dpi_options /\
      (forall z, read_OUTPUT_DPI int_of_str OUTPUT_DPI = ret z ->
                 In z dpi_options -> nth_error dpi_options i = Some z) /\
      (forall z, read_OUTPUT_DPI int_of_str OUTPUT_DPI = ret z ->
                 ~ In z dpi_options -> nth_error dpi_options i = Some 300%Z) /\
      (forall e, read_OUTPUT_DPI int_of_str OUTPUT_DPI = raise e ->
                 nth_error dpi_options i = Some 300%Z).
Proof.
  intros int_of_str OUTPUT_DPI. unfold default_index.
  destruct (read_OUTPUT_DPI int_of_str OUTPUT_DPI) as [e|z] eqn:E.
  - assert (Ht : exn_type e = "ValueError"%string).
    { unfold read_OUTPUT_DPI in E. destruct OUTPUT_DPI as [s|];
        [|discriminate].
      destruct (int_of_str s); [discriminate|]. now injection E as <-. }
    simpl. rewrite Ht. simpl. exists 1.
    split; [reflexivity|]. split; [simpl; lia|].
    split; [discriminate|]. split; [discriminate|]. reflexivity.
  - unfold dpi_options.
    destruct (Z.eq_dec z 150) as [->|H1]; [option_found 0|].
    destruct (Z.eq_dec z 300) as [->|H2]; [option_found 1|].
    destruct (Z.eq_dec z 600) as [->|H3]; [option_found 2|].
    cbn -[Z.eqb].
    replace (150 =? z)%Z with false by (symmetry; apply Z.eqb_neq; lia).
    replace (300 =? z)%Z with false by (symmetry; apply Z.eqb_neq; lia).
    replace (600 =? z)%Z with false by (symmetry; apply Z.eqb_neq; lia).
    simpl. exists 1.
    split; [reflexivity|]. split; [simpl; lia|]. split; [|split].
    + intros z' Hz Hin. injection Hz as <-. simpl in Hin.
      destruct Hin as [<-|[<-|[<-|[]]]]; congruence.
    + reflexivity.
    + discriminate.
Qed.

(** X1 on the test double, with [OUTPUT_DPI=600] and [OUTPUT_DPI=72]. *)
Lemma default_index_is_valid_witness :
  default_index Mock.int_of_str (Some "600"%string) = ret 2 /\
  default_index Mock.int_of_str (Some "72"%string) = ret 1 /\
  exists i, default_index Mock.int_of_str (Some "600"%string) = ret i /\
            nth_error dpi_options i = Some 600%Z.
Proof.
  split; [reflexivity|]. split; [reflexivity|].
  destruct (default_index_is_valid Mock.int_of_str (Some "600"%string))
    as (i & Hi & _ & Hin & _).
  exists i. split; [exact Hi|].
  apply (Hin 600%Z eq_refl). simpl. auto.
Defined.

(** ** More on the memoised conversion *)

Lemma cache_remove_keys_iff (c : Cache) (k q : Request) :
  In q (cache_keys (cache_remove c k)) <-> In q (cache_keys c) /\ q <> k.
Proof.
  induction c as [|[k' v] c IH]; simpl; [tauto|].
  destruct (request_eqb k' k) eqn:E; simpl.
  - apply request_eqb_eq in E. subst k'. rewrite IH.
    split; [tauto|]. intros [[->|H] Hne]; [congruence|tauto].
  - apply request_eqb_neq in E. rewrite IH.
    split; [|tauto]. intros [<-|H]; tauto.
Qed.

Lemma cache_remove_length_NoDup (c : Cache) (k : Request) :
  NoDup (cache_keys c) -> In k (cache_keys c) ->
  S (List.length (cache_remove c k)) = List.length c.
Proof.
  induction c as [|[k' v] c IH]; simpl; intros Hnd Hin; [contradiction|].
  inversion Hnd as [|? ? Hk Hc]; subst.
  destruct (request_eqb k' k) eqn:E; simpl.
  - apply request_eqb_eq in E. subst k'.
    now rewrite cache_remove_absent.
  - apply request_eqb_neq in E. destruct Hin as [->|Hin]; [congruence|].
    now rewrite IH.
Qed.

Lemma cache_keys_app (c : Cache) (k : Request) (v : conversion) :
  cache_keys (c ++ [(k, v)]) = cache_keys c ++ [k].
Proof. unfold cache_keys. now rewrite map_app. Qed.

Lemma cache_set_keys_incl (c : Cache) (k q : Request) (v : conversion) :
  In q (cache_keys (cache_set c k v)) -> In q (cache_keys c) \/ q = k.
Proof.
  unfold cache_set, evict. intros H. apply skipn_keys_incl in H.
  rewrite cache_keys_app in H. apply in_app_or in H.
  destruct H as [H|[<-|[]]]; [|now right].
  apply cache_remove_keys_iff in H. tauto.
Qed.

Lemma cache_hit_keys_incl (r : bool) (c : Cache) (k q : Request)
    (v : conversion) :
  In q (cache_keys (cache_hit r c k v)) -> In q (cache_keys c) \/ q = k.
Proof.
  destruct r; simpl; [|tauto]. rewrite cache_keys_app. intros H.
  apply in_app_or in H. destruct H as [H|[<-|[]]]; [|now right].
  apply cache_remove_keys_iff in H. tauto.
Qed.

Section StoreFacts.

Context {platform : Platform}.

Variable Image : Type.
Variable convert_from_bytes : bytes -> Z -> Exc (list Image).
Variable save_png : Image -> Exc bytes.
Variable localtime : nat -> nat -> Stamp.
Variable refresh : bool.

#[local] Abbreviation call :=
  (perform_conversion Image convert_from_bytes save_png localtime refresh).
#[local] Abbreviation calls :=
  (perform_conversions Image convert_from_bytes save_png localtime refresh).
#[local] Abbreviation outcome :=
  (converted Image convert_from_bytes save_png localtime).
#[local] Abbreviation real := (genuine Image convert_from_bytes save_png localtime).

Lemma hits_keep (n : nat) (k : Request) : forall w v,
  cache_get (cache w) k = Some v ->
  executions (calls (repeat k n) w) = executions w /\
  cache_get (cache (calls (repeat k n) w)) k = Some v.
Proof.
  destruct k as [pdf_bytes dpi].
  induction n as [|n IH]; intros w v H; simpl; [auto|].
  rewrite (call_hit _ _ _ _ _ _ _ _ _ H). simpl.
  destruct (IH {| cache := cache_hit refresh (cache w) (pdf_bytes, dpi) v;
                  executions := executions w |} v) as [He Hg].
  - simpl. now apply cache_get_hit.
  - simpl in He. auto.
Qed.

(** X2. After a call of [perform_conversion], any number of further calls
    with the same bytes and resolution are answered from the store: the
    body is not executed again, so the renderer has run at most once for
    the whole series, and a call made after them still returns what the
    first call returned. *)
Theorem repeated_calls_render_once :
  forall (n : nat) (pdf_bytes : bytes) (dpi : Z) (w : World),
    let first := call pdf_bytes dpi w in
    let after := calls (repeat (pdf_bytes, dpi) n) (snd first) in
    executions after = executions (snd first) /\
    executions after <= S (executions w) /\
    fst (call pdf_bytes dpi after) = fst first /\
    executions (snd (call pdf_bytes dpi after)) = executions (snd first).
Proof.
  intros n pdf_bytes dpi w first after.
  destruct (call_stores Image convert_from_bytes save_png localtime refresh
              pdf_bytes dpi w) as [v [Hv Hget]].
  fold first in Hv, Hget.
  destruct (hits_keep n (pdf_bytes, dpi) (snd first) v Hget) as [He Hg].
  subst after. split; [exact He|]. split.
  - eapply Nat.le_trans; [apply Nat.eq_le_incl; exact He|].
    apply call_executions.
  - pose proof (call_hit Image convert_from_bytes save_png localtime refresh
                  pdf_bytes dpi _ v Hg) as Hhit.
    split.
    + etransitivity; [exact (f_equal fst Hhit)|]. simpl. now rewrite Hv.
    + etransitivity; [exact (f_equal (fun x => executions (snd x)) Hhit)|].
      simpl. exact He.
Qed.

Lemma call_keeps_absent pdf_bytes dpi w k :
  k <> (pdf_bytes, dpi) ->
  cache_get (cache w) k = None ->
  cache_get (cache (snd (call pdf_bytes dpi w))) k = None.
Proof.
  intros Hne Hk. rewrite cache_get_None in *. intros Hin. apply Hk.
  destruct (cache_get (cache w) (pdf_bytes, dpi)) as [v|] eqn:E.
  - rewrite (call_hit _ _ _ _ _ _ _ _ _ E) in Hin. simpl in Hin.
    apply cache_hit_keys_incl in Hin. tauto.
  - rewrite (call_miss _ _ _ _ _ _ _ _ E) in Hin. simpl in Hin.
    apply cache_set_keys_incl in Hin. tauto.
Qed.

(** X3. The resolution is part of the key: a call for the same bytes at
    another resolution does not provide an entry for this one.  When the
    store holds nothing for [(pdf_bytes, d2)], it still holds nothing
    after a call for [(pdf_bytes, d1)], and the call for [d2] executes the
    conversion and returns a result of its own. *)
Theorem other_resolution_is_a_miss :
  forall (pdf_bytes : bytes) (d1 d2 : Z) (w : World),
    d1 <> d2 ->
    cache_get (cache w) (pdf_bytes, d2) = None ->
    let first := call pdf_bytes d1 w in
    let second := call pdf_bytes d2 (snd first) in
    executions (snd second) = S (executions (snd first)) /\
    fst second = ret (outcome (executions (snd first)) pdf_bytes d2) /\
    cache_get (cache (snd second)) (pdf_bytes, d2) =
      Some (outcome (executions (snd first)) pdf_bytes d2).
Proof.
  intros pdf_bytes d1 d2 w Hne Hk first second.
  assert (Hk' : cache_get (cache (snd first)) (pdf_bytes, d2) = None).
  { apply call_keeps_absent; [congruence | assumption]. }
  subst second. rewrite (call_miss _ _ _ _ _ _ _ _ Hk'). simpl.
  split; [reflexivity|]. split; [reflexivity|]. apply cache_get_set.
Qed.

End StoreFacts.

(** X3 on the test double: the three page document at 150 and then at
    300 DPI is converted twice. *)
Lemma other_resolution_is_a_miss_witness :
  executions
    (perform_conversions Mock.Image Mock.convert_from_bytes Mock.save_png
       Mock.localtime false
       [(Mock.three_pages, 150%Z); (Mock.three_pages, 300%Z)] empty_world)
  = 2.
Proof.
  destruct (other_resolution_is_a_miss Mock.Image Mock.convert_from_bytes
              Mock.save_png Mock.localtime false Mock.three_pages 150 300
              empty_world) as [H _].
  - discriminate.
  - reflexivity.
  - exact H.
Defined.

Section StoreInvariants.

Context {platform : Platform}.

Variable Image : Type.
Variable convert_from_bytes : bytes -> Z -> Exc (list Image).
Variable save_png : Image -> Exc bytes.
Variable localtime : nat -> nat -> Stamp.
Variable refresh : bool.

#[local] Abbreviation call :=
  (perform_conversion Image convert_from_bytes save_png localtime refresh).
#[local] Abbreviation calls :=
  (perform_conversions Image convert_from_bytes save_png localtime refresh).
#[local] Abbreviation outcome :=
  (converted Image convert_from_bytes save_png localtime).
#[local] Abbreviation real :=
  (genuine Image convert_from_bytes save_png localtime).

Lemma call_genuine pdf_bytes dpi w :
  NoDup (cache_keys (cache w)) -> real w ->
  real (snd (call pdf_bytes dpi w)) /\
  exists run, fst (call pdf_bytes dpi w) = ret (outcome run pdf_bytes dpi).
Proof.
  intros Hnd Hw. split.
  - intros p d v Hv.
    destruct (request_eqb (p, d) (pdf_bytes, dpi)) eqn:E.
    + apply request_eqb_eq in E. injection E as -> ->.
      destruct (call_stores Image convert_from_bytes save_png localtime
                  refresh pdf_bytes dpi w) as [v' [Hr Hg]].
      rewrite Hg in Hv. injection Hv as <-.
      destruct (cache_get (cache w) (pdf_bytes, dpi)) as [u|] eqn:Eu.
      * rewrite (call_hit _ _ _ _ _ _ _ _ _ Eu) in Hr. simpl in Hr.
        injection Hr as <-. now apply Hw.
      * rewrite (call_miss _ _ _ _ _ _ _ _ Eu) in Hr. simpl in Hr.
        injection Hr as <-. now exists (executions w).
    + apply request_eqb_neq in E.
      destruct (call_other_key Image convert_from_bytes save_png localtime
                  refresh pdf_bytes dpi w (p, d) Hnd E) as [H|H];
        rewrite H in Hv; [now apply Hw | discriminate].
  - destruct (cache_get (cache w) (pdf_bytes, dpi)) as [u|] eqn:Eu.
    + rewrite (call_hit _ _ _ _ _ _ _ _ _ Eu). simpl.
      destruct (Hw _ _ _ Eu) as [run ->]. now exists run.
    + rewrite (call_miss _ _ _ _ _ _ _ _ Eu). simpl.
      now exists (executions w).
Qed.

Lemma calls_genuine reqs : forall w,
  NoDup (cache_keys (cache w)) -> real w ->
  NoDup (cache_keys (cache (calls reqs w))) /\ real (calls reqs w).
Proof.
  induction reqs as [|[pdf_bytes dpi] rest IH]; intros w Hnd Hw; simpl;
    [auto|].
  apply IH.
  - now apply call_NoDup.
  - now apply call_genuine.
Qed.

(** X4. The store only ever returns what the conversion produced: in a
    process that started with an empty store, whatever calls were made
    before, the value [perform_conversion] returns for a request is the
    value some execution of its body returned for that very request,
    never a result that belongs to other bytes or another resolution.
    Each request has at most one entry. *)
Theorem store_returns_own_results :
  forall (reqs : list Request) (pdf_bytes : bytes) (dpi : Z),
    let w := calls reqs empty_world in
    NoDup (cache_keys (cache w)) /\
    (exists run, run <= executions w /\
       fst (call pdf_bytes dpi w) = ret (outcome run pdf_bytes dpi)) /\
    (forall v, cache_get (cache w) (pdf_bytes, dpi) = Some v ->
       exists run, v = outcome run pdf_bytes dpi).
Proof.
  intros reqs pdf_bytes dpi w.
  destruct (calls_genuine reqs empty_world) as [Hnd Hw];
    [constructor | intros p d v H; discriminate H |].
  fold w in Hnd, Hw. split; [exact Hnd|]. split.
  - assert (B : forall reqs' w',
              (forall p d v, cache_get (cache w') (p, d) = Some v ->
                 exists run, run < executions w' /\ v = outcome run p d) ->
              NoDup (cache_keys (cache w')) ->
              forall p d v,
                cache_get (cache (calls reqs' w')) (p, d) = Some v ->
                exists run, run < executions (calls reqs' w') /\
                            v = outcome run p d).
    { induction reqs' as [|[p0 d0] rest IH]; intros w' Hb Hn; simpl; [auto|].
      apply IH; [|now apply call_NoDup].
      intros p d v Hv.
      pose proof (call_executions Image convert_from_bytes save_png
                    localtime refresh p0 d0 w') as Hle.
      destruct (request_eqb (p, d) (p0, d0)) eqn:E.
      - apply request_eqb_eq in E. injection E as -> ->.
        destruct (cache_get (cache w') (p0, d0)) as [u|] eqn:Eu.
        + rewrite (call_hit _ _ _ _ _ _ _ _ _ Eu) in Hv, Hle |- *.
          simpl in *. rewrite (cache_get_hit _ _ _ _ Eu) in Hv.
          injection Hv as <-. now apply Hb.
        + rewrite (call_miss _ _ _ _ _ _ _ _ Eu) in Hv, Hle |- *.
          simpl in *. rewrite cache_get_set in Hv. injection Hv as <-.
          exists (executions w'). split; [lia | reflexivity].
      - apply request_eqb_neq in E.
        destruct (call_other_key Image convert_from_bytes save_png localtime
                    refresh p0 d0 w' (p, d) Hn E) as [H|H];
          rewrite H in Hv; [|discriminate].
        destruct (Hb _ _ _ Hv) as [run [Hlt ->]].
        exists run. split; [lia | reflexivity]. }
    destruct (cache_get (cache w) (pdf_bytes, dpi)) as [u|] eqn:Eu.
    + rewrite (call_hit _ _ _ _ _ _ _ _ _ Eu). simpl.
      destruct (B reqs empty_world) with (p := pdf_bytes) (d := dpi) (v := u)
        as [run [Hlt ->]]; auto.
      * intros p d v H. discriminate H.
      * constructor.
      * exists run. split; [fold w in Hlt; lia | reflexivity].
    + rewrite (call_miss _ _ _ _ _ _ _ _ Eu). simpl.
      exists (executions w). split; [lia | reflexivity].
  - intros v Hv. exact (Hw _ _ _ Hv).
Qed.

End StoreInvariants.

Section WithinCapacity.

Context {platform : Platform}.

Variable Image : Type.
Variable convert_from_bytes : bytes -> Z -> Exc (list Image).
Variable save_png : Image -> Exc bytes.
Variable localtime : nat -> nat -> Stamp.
Variable refresh : bool.

#[local] Abbreviation call :=
  (perform_conversion Image convert_from_bytes save_png localtime refresh).
#[local] Abbreviation calls :=
  (perform_conversions Image convert_from_bytes save_png localtime refresh).

(** While all the requests in use fit into the store, a call keeps every
    entry and adds at most its own, which it then counts as one more
    execution. *)
Lemma call_within_capacity (U : list Request) pdf_bytes dpi w :
  NoDup U -> List.length U <= max_entries ->
  In (pdf_bytes, dpi) U ->
  NoDup (cache_keys (cache w)) -> incl (cache_keys (cache w)) U ->
  let w' := snd (call pdf_bytes dpi w) in
  NoDup (cache_keys (cache w')) /\ incl (cache_keys (cache w')) U /\
  incl (cache_keys (cache w)) (cache_keys (cache w')) /\
  In (pdf_bytes, dpi) (cache_keys (cache w')) /\
  executions w' + List.length (cache w) =
  executions w + List.length (cache w').
Proof.
  intros HU Hcap Hk Hnd Hincl w'. subst w'.
  split; [now apply call_NoDup|].
  destruct (cache_get (cache w) (pdf_bytes, dpi)) as [v|] eqn:E.
  - rewrite (call_hit _ _ _ _ _ _ _ _ _ E). cbn [snd cache executions].
    pose proof (cache_get_Some_keys _ _ _ E) as Hin.
    destruct refresh; cbn [cache_hit];
      [|repeat split; auto; apply incl_refl].
    rewrite cache_keys_app. repeat split.
    + intros q Hq. apply in_app_or in Hq. destruct Hq as [Hq|[<-|[]]]; auto.
      apply cache_remove_keys_iff in Hq. apply Hincl. tauto.
    + intros q Hq. apply in_or_app.
      destruct (request_eqb q (pdf_bytes, dpi)) eqn:Eq.
      * apply request_eqb_eq in Eq. right. simpl. auto.
      * apply request_eqb_neq in Eq. left.
        apply cache_remove_keys_iff. tauto.
    + apply in_or_app. right. simpl. auto.
    + rewrite length_app. simpl.
      pose proof (cache_remove_length_NoDup _ _ Hnd Hin). lia.
  - rewrite (call_miss _ _ _ _ _ _ _ _ E). cbn [snd cache executions].
    apply cache_get_None in E.
    assert (Hroom : S (List.length (cache w)) <= max_entries).
    { eapply Nat.le_trans; [|exact Hcap].
      replace (S (List.length (cache w)))
        with (List.length (cache_keys (cache w) ++ [(pdf_bytes, dpi)]))
        by (rewrite length_app; unfold cache_keys; rewrite length_map;
            simpl; lia).
      apply NoDup_incl_length.
      - rewrite <- (cache_keys_app _ _ (ConversionError EmptyString)).
        apply (cache_app_new_NoDup _ _ (ConversionError EmptyString));
          assumption.
      - intros q Hq. apply in_app_or in Hq.
        destruct Hq as [Hq|[<-|[]]]; auto. }
    unfold cache_set. rewrite cache_remove_absent by assumption.
    rewrite evict_app_new.
    replace (S (List.length (cache w)) - max_entries) with 0 by lia.
    simpl skipn. rewrite cache_keys_app, length_app. simpl.
    repeat split.
    + intros q Hq. apply in_app_or in Hq. destruct Hq as [Hq|[<-|[]]]; auto.
    + intros q Hq. apply in_or_app. now left.
    + apply in_or_app. right. simpl. auto.
    + lia.
Qed.

Lemma calls_within_capacity (U : list Request) reqs : forall w,
  NoDup U -> List.length U <= max_entries -> incl reqs U ->
  NoDup (cache_keys (cache w)) -> incl (cache_keys (cache w)) U ->
  let w' := calls reqs w in
  NoDup (cache_keys (cache w')) /\ incl (cache_keys (cache w')) U /\
  incl (cache_keys (cache w)) (cache_keys (cache w')) /\
  incl reqs (cache_keys (cache w')) /\
  executions w' + List.length (cache w) =
  executions w + List.length (cache w').
Proof.
  induction reqs as [|[pdf_bytes dpi] rest IH]; intros w HU Hcap Hr Hnd Hincl;
    simpl.
  - repeat split; auto using incl_refl. intros q [].
  - destruct (call_within_capacity U pdf_bytes dpi w HU Hcap)
      as (Hnd1 & Hincl1 & Hmono1 & Hin1 & Hex1); auto.
    { apply Hr. simpl. auto. }
    destruct (IH (snd (call pdf_bytes dpi w)) HU Hcap)
      as (Hnd2 & Hincl2 & Hmono2 & Hin2 & Hex2); auto.
    { intros q Hq. apply Hr. simpl. auto. }
    repeat split; auto.
    + intros q Hq. auto.
    + intros q [<-|Hq]; auto.
    + lia.
Qed.

(** X5. With [max_entries=5], requests that are at most five in number
    never push one another out of the store: in a process that started
    with an empty store and only ever sees requests from a set [U] of at
    most five, in any order and with any repetition, every request that
    was made is still stored at the end and the conversion was executed
    once per distinct request, never a second time. *)
Theorem few_requests_render_once :
  forall (U reqs : list Request),
    NoDup U -> List.length U <= max_entries -> incl reqs U ->
    let w := calls reqs empty_world in
    executions w = List.length (cache w) /\
    NoDup (cache_keys (cache w)) /\
    incl reqs (cache_keys (cache w)) /\
    incl (cache_keys (cache w)) U /\
    executions w <= List.length U.
Proof.
  intros U reqs HU Hcap Hr w.
  destruct (calls_within_capacity U reqs empty_world HU Hcap Hr)
    as (Hnd & Hincl & _ & Hin & Hex).
  - constructor.
  - intros q [].
  - fold w in Hnd, Hincl, Hin, Hex. simpl in Hex.
    assert (He : executions w = List.length (cache w)) by lia.
    repeat split; auto.
    rewrite He. rewrite <- (length_map fst).
    now apply NoDup_incl_length.
Qed.

End WithinCapacity.

(** X5 on the test double: a user who switches nine times between the
    three resolutions of the select box has the document converted three
    times. *)
Lemma few_requests_render_once_witness :
  executions
    (perform_conversions Mock.Image Mock.convert_from_bytes Mock.save_png
       Mock.localtime true back_and_forth empty_world) <= 3.
Proof.
  destruct (few_requests_render_once Mock.Image Mock.convert_from_bytes
              Mock.save_png Mock.localtime true
              (at_every_option Mock.three_pages) back_and_forth)
    as (_ & _ & _ & _ & H).
  - unfold at_every_option, dpi_options. simpl.
    repeat (constructor; [simpl; intuition discriminate|]). constructor.
  - unfold max_entries. simpl. lia.
  - unfold back_and_forth, at_every_option, dpi_options. simpl.
    intros q Hq. simpl in Hq.
    repeat (destruct Hq as [<-|Hq]; [simpl; tauto|]). contradiction.
  - exact H.
Defined.

(** ** The page grid of [app2.py] *)

Lemma page_name_with_root (root : string) (i : Z) :
  page_name (root ++ "_") i =
  (root ++ "_page_" ++ format_03d (i + 1) ++ ".png")%string.
Proof.
  unfold page_name.
  generalize (format_03d (i + 1) ++ ".png")%string as tail. intros tail.
  induction root; simpl; [reflexivity | now f_equal].
Qed.


Lemma str_of_nat_inj (n m : nat) : str_of_nat n = str_of_nat m -> n = m.
Proof.
  intros H. apply (f_equal nat_of_digits) in H.
  rewrite !nat_of_digits_str in H. congruence.
Qed.

Lemma NoDup_map_injective {A B} (f : A -> B) (l : list A) :
  (forall x y, f x = f y -> x = y) -> NoDup l -> NoDup (map f l).
Proof.
  intros Hf. induction 1 as [|a l Ha Hl IH]; simpl; constructor; auto.
  intros Hin. apply in_map_iff in Hin. destruct Hin as [x [Hx Hin]].
  apply Hf in Hx. now subst.
Qed.

(** [cols[i % 3]] is always one of the three columns. *)
Lemma cols_getitem (i : nat) :
  py_getitem App2.cols (Z.of_nat i mod 3)%Z = ret (i mod 3).
Proof.
  replace (Z.of_nat i mod 3)%Z with (Z.of_nat (i mod 3))
    by (rewrite Nat2Z.inj_mod; reflexivity).
  assert (H : i mod 3 < 3) by (apply Nat.mod_upper_bound; lia).
  destruct (i mod 3) as [|[|[|j]]]; try reflexivity. lia.
Qed.

Lemma grid_cells_eq (root : string) (l : list bytes) : forall k,
  App2.grid_cells root (combine (seq k (List.length l)) l) =
  ret (map (fun p => App2.cell_of root (fst p) (snd p))
         (combine (seq k (List.length l)) l)).
Proof.
  induction l as [|b l IH]; intros k; simpl; [reflexivity|].
  rewrite cols_getitem, IH. simpl. unfold ret. do 2 f_equal.
  unfold App2.cell_of. simpl. f_equal. apply page_name_with_root.
Qed.

Lemma map_fst_enumerate {A} (l : list A) :
  map fst (enumerate l) = seq 0 (List.length l).
Proof.
  unfold enumerate. generalize 0 as k.
  induction l as [|a l IH]; intros k; simpl; [reflexivity|].
  now rewrite IH.
Qed.


(** The grid of a run that finds a page list, an archive and a file name
    in the session state. *)
Lemma display_grid_eq (w : World) (ss : App2.SessionState)
    (note : option App2.Notice) (l : list bytes) (v : ZipFile + string)
    (root : string) :
  App2.image_bytes_list ss = Some (Some l) ->
  App2.zip_data ss = Some v ->
  App2.pdf_filename ss = Some root ->
  App2.display w ss note =
  {| App2.world_after := w; App2.session_after := ss; App2.notice := note;
     App2.grid :=
       Some {| App2.download_all := v;
               App2.download_all_name := (root ++ "_all_pages.zip")%string;
               App2.cells :=
                 map (fun p => App2.cell_of root (fst p) (snd p))
                   (enumerate l) |};
     App2.status := App2.Finished |}.
Proof.
  intros Hl Hv Hr.
  assert (E : App2.grid_cells root (enumerate l) =
              ret (map (fun p => App2.cell_of root (fst p) (snd p))
                     (enumerate l)))
    by (unfold enumerate; apply grid_cells_eq).
  unfold App2.display. rewrite Hl, Hv, Hr. simpl. rewrite E. reflexivity.
Qed.

Lemma display_fields (w : World) (ss : App2.SessionState)
    (note : option App2.Notice) :
  App2.world_after (App2.display w ss note) = w /\
  App2.session_after (App2.display w ss note) = ss /\
  App2.notice (App2.display w ss note) = note.
Proof.
  unfold App2.display.
  destruct (App2.image_bytes_list ss) as [[l|]|]; auto.
  match goal with |- context [match ?c with inl _ => _ | inr _ => _ end] =>
    destruct c end; auto.
Qed.

Lemma display_grid_any (w w' : World) (ss : App2.SessionState)
    (note note' : option App2.Notice) :
  App2.grid (App2.display w ss note) = App2.grid (App2.display w' ss note') /\
  App2.status (App2.display w ss note) =
  App2.status (App2.display w' ss note').
Proof.
  unfold App2.display.
  destruct (App2.image_bytes_list ss) as [[l|]|]; auto.
  match goal with |- context [match ?c with inl _ => _ | inr _ => _ end] =>
    destruct c end; auto.
Qed.

(** X6. The grid lists every stored page, in page order: a run that
    finds a page list of [N] pages in the session state shows the archive
    download under [<name>_all_pages.zip] and exactly [N] cells; the cell
    of page [i] sits in column [(i - 1) mod 3], shows the bytes of that
    page under the caption [Page i] and offers them as
    [<name>_page_<i:03d>.png].  The access [cols[i % 3]] never leaves the
    three columns, and no two download buttons share a widget key or a
    file name, however many pages there are. *)
Theorem grid_shows_every_page :
  forall (w : World) (ss : App2.SessionState) (note : option App2.Notice)
         (l : list bytes) (v : ZipFile + string) (root : string),
    App2.image_bytes_list ss = Some (Some l) ->
    App2.zip_data ss = Some v ->
    App2.pdf_filename ss = Some root ->
    exists cs,
      App2.grid (App2.display w ss note) =
        Some {| App2.download_all := v;
                App2.download_all_name := (root ++ "_all_pages.zip")%string;
                App2.cells := cs |} /\
      App2.status (App2.display w ss note) = App2.Finished /\
      List.length cs = List.length l /\
      (forall i b, nth_error l i = Some b ->
                   nth_error cs i = Some (App2.cell_of root i b)) /\
      (forall c, In c cs -> App2.column c < 3) /\
      NoDup (map App2.key cs) /\
      NoDup (map App2.page_file_name cs).
Proof.
  intros w ss note l v root Hl Hv Hr.
  exists (map (fun p => App2.cell_of root (fst p) (snd p)) (enumerate l)).
  rewrite (display_grid_eq w ss note l v root Hl Hv Hr). simpl.
  split; [reflexivity|]. split; [reflexivity|].
  split; [|split; [|split; [|split]]].
  - rewrite length_map. unfold enumerate.
    rewrite length_combine, length_seq. lia.
  - intros i b Hb. rewrite nth_error_map, enumerate_nth_error, Hb.
    reflexivity.
  - intros c Hc. apply in_map_iff in Hc. destruct Hc as [p [<- _]].
    unfold App2.cell_of. cbn [App2.column].
    apply Nat.mod_upper_bound. lia.
  - replace (map App2.key
               (map (fun p => App2.cell_of root (fst p) (snd p))
                  (enumerate l)))
      with (map (fun i => ("download_" ++ str_of_nat i)%string)
              (seq 0 (List.length l)))
      by (rewrite <- map_fst_enumerate, !map_map; now apply map_ext).
    apply NoDup_map_injective; [|apply seq_NoDup].
    intros i j H. apply string_append_cancel_l in H.
    now apply str_of_nat_inj.
  - replace (map App2.page_file_name
               (map (fun p => App2.cell_of root (fst p) (snd p))
                  (enumerate l)))
      with (map (fun i => page_name (root ++ "_") (Z.of_nat i))
              (seq 0 (List.length l)))
      by (rewrite <- map_fst_enumerate, !map_map; apply map_ext;
          intros p; apply page_name_with_root).
    apply NoDup_map_injective; [|apply seq_NoDup].
    intros i j H. now apply page_name_inj in H.
Qed.

(** X6 on the session in which [doc.pdf] was converted: three cells, the
    third in the third column. *)
Lemma grid_shows_every_page_witness :
  exists cs,
    App2.grid (App2.display empty_world (App2.session grid_after_upload) None)
      = Some {| App2.download_all :=
                  inl (members Mock.localtime EmptyString 0 0
                         [[Byte.x89; Byte.x50; Byte.x4e; Byte.x47; Byte.x0a];
                          [Byte.x89; Byte.x50; Byte.x4e; Byte.x47; Byte.x0b];
                          [Byte.x89; Byte.x50; Byte.x4e; Byte.x47; Byte.x0c]]);
                App2.download_all_name := "doc_all_pages.zip";
                App2.cells := cs |} /\
    List.length cs = 3 /\
    option_map App2.page_file_name (nth_error cs 2) =
      Some "doc_page_003.png"%string.
Proof.
  destruct (grid_shows_every_page empty_world
              (App2.session grid_after_upload) None
              [[Byte.x89; Byte.x50; Byte.x4e; Byte.x47; Byte.x0a];
               [Byte.x89; Byte.x50; Byte.x4e; Byte.x47; Byte.x0b];
               [Byte.x89; Byte.x50; Byte.x4e; Byte.x47; Byte.x0c]]
              (inl (members Mock.localtime EmptyString 0 0
                      [[Byte.x89; Byte.x50; Byte.x4e; Byte.x47; Byte.x0a];
                       [Byte.x89; Byte.x50; Byte.x4e; Byte.x47; Byte.x0b];
                       [Byte.x89; Byte.x50; Byte.x4e; Byte.x47; Byte.x0c]]))
              "doc" eq_refl eq_refl eq_refl)
    as (cs & Hg & _ & Hlen & Hnth & _).
  exists cs. split; [exact Hg|]. split; [exact Hlen|].
  now rewrite (Hnth 2 _ eq_refl).
Defined.

Section GridFacts.

Context {platform : Platform}.

Variable Image : Type.
Variable convert_from_bytes : bytes -> Z -> Exc (list Image).
Variable save_png : Image -> Exc bytes.
Variable localtime : nat -> nat -> Stamp.
Variable refresh : bool.
Variable splitext_root : string -> string.

#[local] Abbreviation call :=
  (perform_conversion Image convert_from_bytes save_png localtime refresh).
#[local] Abbreviation calls :=
  (perform_conversions Image convert_from_bytes save_png localtime refresh).
#[local] Abbreviation pass :=
  (App2.script_pass Image convert_from_bytes save_png localtime refresh
     splitext_root).
#[local] Abbreviation kept := (App2.stored splitext_root).
#[local] Abbreviation action :=
  (App2.step Image convert_from_bytes save_png localtime refresh
     splitext_root).
#[local] Abbreviation possible :=
  (App2.reachable Image convert_from_bytes save_png localtime refresh
     splitext_root).

(** The run of the script when the guard of line 84 fires. *)
Lemma pass_converting w ss f d :
  App2.needs_conversion ss (file_id f) d = ret true ->
  exists r,
    fst (call (getvalue f) d w) = ret r /\
    pass w ss (Some f) d =
    match r with
    | Converted l _ =>
        App2.display (snd (call (getvalue f) d w)) (kept f d r)
          (Some (App2.Success (List.length l)))
    | ConversionError m =>
        App2.display (snd (call (getvalue f) d w)) App2.clear
          (Some (App2.Failure m))
    end.
Proof.
  intros Hg. unfold App2.script_pass. rewrite Hg. unfold ret, raise. cbv beta iota.
  destruct (call_stores Image convert_from_bytes save_png localtime refresh
              (getvalue f) d w) as [r [Hr _]].
  exists r. split; [exact Hr|].
  destruct (call (getvalue f) d w) as [res w']. simpl in *. now rewrite Hr.
Qed.

Lemma kept_guard f d r :
  App2.needs_conversion (kept f d r) (file_id f) d = ret false.
Proof.
  unfold App2.needs_conversion. simpl.
  now rewrite String.eqb_refl, Z.eqb_refl.
Qed.

Lemma kept_consistent f d l z :
  App2.consistent (kept f d (Converted l z)).
Proof.
  unfold App2.consistent. simpl. repeat split; try discriminate.
  now exists z.
Qed.

Lemma display_consistent2 w ss note :
  App2.consistent ss ->
  App2.status (App2.display w ss note) = App2.Finished.
Proof.
  unfold App2.consistent. intros Hc.
  destruct (App2.image_bytes_list ss) as [[l|]|] eqn:El;
    [| contradiction | unfold App2.display; now rewrite El].
  destruct Hc as ([z Hz] & _ & _ & Hn).
  destruct (App2.pdf_filename ss) as [root|] eqn:Er; [|contradiction].
  now rewrite (display_grid_eq w ss note l (inl z) root El Hz Er).
Qed.

Lemma needs_conversion_consistent2 ss fid d :
  App2.consistent ss -> exists g, App2.needs_conversion ss fid d = ret g.
Proof.
  unfold App2.consistent, App2.needs_conversion. intros Hc.
  destruct (App2.last_file_id ss) as [id|] eqn:E; [|now exists true].
  destruct (negb (id =? fid)%string); [now exists true|].
  destruct (App2.image_bytes_list ss) as [[l|]|]; [|contradiction|discriminate].
  destruct Hc as (_ & _ & Hd & _).
  destruct (App2.last_dpi ss) as [d'|]; [|contradiction].
  simpl. eexists; reflexivity.
Qed.

Lemma pass_consistent2 w ss up d :
  App2.consistent ss ->
  App2.consistent (App2.session_after (pass w ss up d)) /\
  App2.status (pass w ss up d) = App2.Finished.
Proof.
  intros Hc. destruct up as [f|].
  - destruct (needs_conversion_consistent2 ss (file_id f) d Hc) as [g Hg].
    destruct g.
    + destruct (pass_converting w ss f d Hg) as [r [_ ->]].
      destruct r as [l z|m].
      * destruct (display_fields (snd (call (getvalue f) d w)) (kept f d (Converted l z))
                    (Some (App2.Success (List.length l)))) as (_ & -> & _).
        split; [apply kept_consistent|].
        apply display_consistent2, kept_consistent.
      * destruct (display_fields (snd (call (getvalue f) d w)) App2.clear
                    (Some (App2.Failure m))) as (_ & -> & _).
        split; reflexivity.
    + unfold App2.script_pass. rewrite Hg. unfold ret, raise. cbv beta iota.
      destruct (display_fields w ss None) as (_ & -> & _).
      split; [assumption | now apply display_consistent2].
  - simpl. split; [|reflexivity].
    destruct (App2.last_file_id ss) eqn:E; [reflexivity | assumption].
Qed.

Lemma reachable_consistent2 a : possible a -> App2.consistent (App2.session a).
Proof.
  induction 1 as [w d|a e _ IH]; [reflexivity|].
  unfold App2.step. simpl. now apply pass_consistent2.
Qed.

(** What a run reports decides what it shows. *)
Lemma pass_notice w ss up d :
  (forall m, App2.notice (pass w ss up d) = Some (App2.Failure m) ->
     exists f, up = Some f /\
       App2.needs_conversion ss (file_id f) d = ret true /\
       fst (call (getvalue f) d w) = ret (ConversionError m) /\
       pass w ss up d =
       App2.display (snd (call (getvalue f) d w)) App2.clear
         (Some (App2.Failure m))) /\
  (forall n, App2.notice (pass w ss up d) = Some (App2.Success n) ->
     exists f l z, up = Some f /\
       App2.needs_conversion ss (file_id f) d = ret true /\
       fst (call (getvalue f) d w) = ret (Converted l z) /\
       n = List.length l /\
       pass w ss up d =
       App2.display (snd (call (getvalue f) d w))
         (kept f d (Converted l z)) (Some (App2.Success n))).
Proof.
  destruct up as [f|]; [|split; intros ? H; discriminate H].
  destruct (App2.needs_conversion ss (file_id f) d) as [e|[|]] eqn:Hg.
  - unfold App2.script_pass. rewrite Hg. unfold ret, raise. cbv beta iota. split; intros ? H; discriminate H.
  - destruct (pass_converting w ss f d Hg) as [r [Hr Hp]]. rewrite Hp.
    destruct r as [l z|m];
      match goal with |- context [App2.display ?w' ?s ?n] =>
        destruct (display_fields w' s n) as (_ & _ & Hn) end;
      rewrite Hn; split; intros x H; try discriminate H;
      injection H as <-.
    + exists f, l, z. auto.
    + exists f. auto.
  - unfold App2.script_pass. rewrite Hg. unfold ret, raise. cbv beta iota.
    destruct (display_fields w ss None) as (_ & _ & ->).
    split; intros ? H; discriminate H.
Qed.

(** X7. The grid script keeps its session state either empty or
    complete (page list, archive, file name and the pair they belong to)
    and never stops on a missing key, from the first run on and whatever
    the user does.  When a run reports a failed conversion it displays no
    grid and leaves the session state empty, so that no download of a
    broken result is offered; when it reports [N] pages found, the grid
    has exactly [N] cells. *)
Theorem grid_script_never_raises :
  (forall a, possible a -> App2.consistent (App2.session a)) /\
  (forall a e, possible a -> App2.status (snd (action e a)) = App2.Finished) /\
  (forall a e m,
     App2.notice (snd (action e a)) = Some (App2.Failure m) ->
     App2.grid (snd (action e a)) = None /\
     App2.session (fst (action e a)) = App2.clear) /\
  (forall a e n,
     App2.notice (snd (action e a)) = Some (App2.Success n) ->
     exists g, App2.grid (snd (action e a)) = Some g /\
               List.length (App2.cells g) = n).
Proof.
  split; [exact reachable_consistent2|]. split; [|split].
  - intros a e Ha. unfold App2.step. simpl.
    apply pass_consistent2. now apply reachable_consistent2.
  - intros a e m H. unfold App2.step in *. simpl in *.
    destruct (pass_notice (App2.world a) (App2.session a)
                match e with
                | App2.Upload f => f
                | _ => App2.uploaded_file a
                end
                match e with
                | App2.SelectDpi d => d
                | _ => App2.dpi a
                end) as [Hf _].
    destruct (Hf m H) as (f & _ & _ & _ & ->).
    split; [reflexivity|]. apply display_fields.
  - intros a e n H. unfold App2.step in *. simpl in *.
    destruct (pass_notice (App2.world a) (App2.session a)
                match e with
                | App2.Upload f => f
                | _ => App2.uploaded_file a
                end
                match e with
                | App2.SelectDpi d => d
                | _ => App2.dpi a
                end) as [_ Hs].
    destruct (Hs n H) as (f & l & z & _ & _ & _ & -> & ->).
    rewrite (display_grid_eq _ _ _ l (inl z) (splitext_root (name f)));
      try reflexivity.
    eexists. split; [reflexivity|]. simpl.
    rewrite length_map. unfold enumerate.
    rewrite length_combine, length_seq. lia.
Qed.

End GridFacts.

Lemma grid_after_upload_reachable :
  App2.reachable Mock.Image Mock.convert_from_bytes Mock.save_png
    Mock.localtime false Mock.splitext_root grid_after_upload.
Proof.
  unfold grid_after_upload. apply App2.reachable_step, App2.reachable_start.
Defined.

(** X7 on the session in which [doc.pdf] was converted: selecting
    600 DPI ends without an exception. *)
Lemma grid_script_never_raises_witness :
  App2.status
    (snd (App2.step Mock.Image Mock.convert_from_bytes Mock.save_png
            Mock.localtime false Mock.splitext_root (App2.SelectDpi 600)
            grid_after_upload)) = App2.Finished.
Proof.
  destruct (grid_script_never_raises Mock.Image Mock.convert_from_bytes
              Mock.save_png Mock.localtime false Mock.splitext_root)
    as (_ & H & _).
  apply (H grid_after_upload (App2.SelectDpi 600) grid_after_upload_reachable).
Defined.

Section GridReruns.

Context {platform : Platform}.

Variable Image : Type.
Variable convert_from_bytes : bytes -> Z -> Exc (list Image).
Variable save_png : Image -> Exc bytes.
Variable localtime : nat -> nat -> Stamp.
Variable refresh : bool.
Variable splitext_root : string -> string.

#[local] Abbreviation call :=
  (perform_conversion Image convert_from_bytes save_png localtime refresh).
#[local] Abbreviation calls :=
  (perform_conversions Image convert_from_bytes save_png localtime refresh).
#[local] Abbreviation pass :=
  (App2.script_pass Image convert_from_bytes save_png localtime refresh
     splitext_root).
#[local] Abbreviation kept := (App2.stored splitext_root).

(** X8. A rerun with the same file and the same resolution does not
    enter the conversion branch: when a run of [app2.py] has displayed a
    grid, running the script again with the same widget values shows the
    same grid and leaves the session state and the store of
    [perform_conversion] exactly as they were; the memoised function is
    not even called. *)
Theorem rerun_shows_the_same_grid :
  forall (w : World) (ss : App2.SessionState) (up : option UploadedFile)
         (d : Z) (g : App2.Grid),
    App2.grid (pass w ss up d) = Some g ->
    let p := pass w ss up d in
    let q := pass (App2.world_after p) (App2.session_after p) up d in
    App2.world_after q = App2.world_after p /\
    App2.session_after q = App2.session_after p /\
    App2.grid q = Some g /\
    App2.notice q = None /\
    App2.status q = App2.Finished.
Proof.
  intros w ss up d g Hgrid p q. subst q p.
  assert (Same : forall w' ss',
            App2.needs_conversion ss' match up with
                                      | Some f => file_id f
                                      | None => EmptyString
                                      end d = ret false ->
            up <> None ->
            App2.grid (App2.display w' ss' None) = Some g ->
            App2.world_after (pass w' ss' up d) = w' /\
            App2.session_after (pass w' ss' up d) = ss' /\
            App2.grid (pass w' ss' up d) = Some g /\
            App2.notice (pass w' ss' up d) = None /\
            App2.status (pass w' ss' up d) = App2.Finished).
  { intros w' ss' Hg Hup Hd. destruct up as [f|]; [|congruence].
    unfold App2.script_pass. rewrite Hg. unfold ret. cbv beta iota.
    destruct (display_fields w' ss' None) as (-> & -> & ->).
    repeat split; auto.
    unfold App2.display in *.
    destruct (App2.image_bytes_list ss') as [[l|]|]; try discriminate.
    match goal with |- context [match ?c with inl _ => _ | inr _ => _ end] =>
      destruct c end; [discriminate | reflexivity]. }
  destruct up as [f|]; [|discriminate].
  destruct (App2.needs_conversion ss (file_id f) d) as [e|[|]] eqn:Hg.
  - unfold App2.script_pass in Hgrid. rewrite Hg in Hgrid. discriminate.
  - destruct (pass_converting Image convert_from_bytes save_png localtime
                refresh splitext_root w ss f d Hg) as [r [Hr Hp]].
    rewrite Hp in *. destruct r as [l z|m].
    + destruct (display_fields (snd (call (getvalue f) d w))
                  (kept f d (Converted l z))
                  (Some (App2.Success (List.length l)))) as (-> & -> & _).
      apply Same; [apply kept_guard | discriminate |].
      destruct (display_grid_any (snd (call (getvalue f) d w))
                  (snd (call (getvalue f) d w)) (kept f d (Converted l z))
                  None (Some (App2.Success (List.length l)))) as [-> _].
      exact Hgrid.
    + discriminate Hgrid.
  - assert (Hp : pass w ss (Some f) d = App2.display w ss None).
    { unfold App2.script_pass. rewrite Hg. reflexivity. }
    rewrite Hp in *.
    destruct (display_fields w ss None) as (-> & -> & _).
    apply Same; auto. discriminate.
Qed.

(** X9. A failed conversion is reported again on every rerun, without
    the renderer being invoked again: the failed run of [app2.py] leaves
    the session state empty, so the next run with the same file and
    resolution enters the conversion branch once more, where the call is
    answered from the store with the same failure.  The run displays the
    same error, no grid, and the number of executions of the conversion
    has not changed. *)
Theorem failed_run_repeats_without_rendering :
  forall (w : World) (ss : App2.SessionState) (f : UploadedFile) (d : Z)
         (m : string),
    App2.notice (pass w ss (Some f) d) = Some (App2.Failure m) ->
    let p := pass w ss (Some f) d in
    let q := pass (App2.world_after p) (App2.session_after p) (Some f) d in
    App2.session_after p = App2.clear /\
    App2.notice q = Some (App2.Failure m) /\
    App2.grid q = None /\
    App2.session_after q = App2.clear /\
    executions (App2.world_after q) = executions (App2.world_after p).
Proof.
  intros w ss f d m H p q. subst q p.
  destruct (pass_notice Image convert_from_bytes save_png localtime refresh
              splitext_root w ss (Some f) d) as [Hf _].
  destruct (Hf m H) as (f' & Ef & _ & Hr & Hp). injection Ef as <-.
  rewrite Hp.
  destruct (display_fields (snd (call (getvalue f) d w)) App2.clear
              (Some (App2.Failure m))) as (-> & -> & _).
  split; [reflexivity|].
  destruct (pass_converting Image convert_from_bytes save_png localtime
              refresh splitext_root (snd (call (getvalue f) d w)) App2.clear
              f d eq_refl) as [r [Hr2 Hq]].
  destruct (second_call Image convert_from_bytes save_png localtime refresh
              (getvalue f) d w) as [Hsame Hex].
  rewrite Hsame, Hr in Hr2. injection Hr2 as <-.
  rewrite Hq.
  destruct (display_fields
              (snd (call (getvalue f) d (snd (call (getvalue f) d w))))
              App2.clear (Some (App2.Failure m))) as (-> & -> & ->).
  repeat split; auto.
Qed.

End GridReruns.

(** X8 on the session in which [doc.pdf] was converted. *)
Lemma rerun_shows_the_same_grid_witness :
  App2.world_after
    (App2.script_pass Mock.Image Mock.convert_from_bytes Mock.save_png
       Mock.localtime false Mock.splitext_root
       (App2.world grid_after_upload) (App2.session grid_after_upload)
       (Some doc_pdf) 300) = App2.world grid_after_upload.
Proof.
  destruct (rerun_shows_the_same_grid Mock.Image Mock.convert_from_bytes
              Mock.save_png Mock.localtime false Mock.splitext_root
              empty_world App2.clear (Some doc_pdf) 300 _ eq_refl)
    as (H & _).
  exact H.
Defined.

(** X9 on the file that is not a PDF. *)
Lemma failed_run_repeats_without_rendering_witness :
  let p :=
    App2.script_pass Mock.Image Mock.convert_from_bytes Mock.save_png
      Mock.localtime false Mock.splitext_root empty_world App2.clear
      (Some note_txt) 300 in
  let q :=
    App2.script_pass Mock.Image Mock.convert_from_bytes Mock.save_png
      Mock.localtime false Mock.splitext_root (App2.world_after p)
      (App2.session_after p) (Some note_txt) 300 in
  App2.notice q = Some (App2.Failure "Unable to get page count.") /\
  executions (App2.world_after q) = 1.
Proof.
  destruct (failed_run_repeats_without_rendering Mock.Image
              Mock.convert_from_bytes Mock.save_png Mock.localtime false
              Mock.splitext_root empty_world App2.clear note_txt 300
              "Unable to get page count." eq_refl)
    as (_ & Hn & _ & _ & He).
  split; [exact Hn | exact He].
Defined.

Section GridAndArchive.

Context {platform : Platform}.

Variable Image : Type.
Variable convert_from_bytes : bytes -> Z -> Exc (list Image).
Variable save_png : Image -> Exc bytes.
Variable localtime : nat -> nat -> Stamp.
Variable refresh : bool.
Variable splitext_root : string -> string.

#[local] Abbreviation call :=
  (perform_conversion Image convert_from_bytes save_png localtime refresh).
#[local] Abbreviation calls :=
  (perform_conversions Image convert_from_bytes save_png localtime refresh).
#[local] Abbreviation pass :=
  (App2.script_pass Image convert_from_bytes save_png localtime refresh
     splitext_root).
#[local] Abbreviation kept := (App2.stored splitext_root).

Lemma members_as_downloads (root : string) (run : nat) (pngs : list bytes) :
  forall k,
    map (fun zi => ((root ++ "_" ++ filename zi)%string, content zi))
      (members localtime EmptyString run k pngs) =
    map (fun p => (App2.page_file_name (App2.cell_of root (fst p) (snd p)),
                   App2.img_bytes (App2.cell_of root (fst p) (snd p))))
      (combine (seq k (List.length pngs)) pngs).
Proof.
  induction pngs as [|b pngs IH]; intros k; [reflexivity|].
  cbn [members List.length seq combine map filename content fst snd].
  rewrite IH, page_name_stored. reflexivity.
Qed.

(** X10. In [app2.py] the single page downloads are exactly the members
    of the archive, under names that additionally carry the name of the
    document: when a run in a process that started with an empty store
    reports [N] pages, the archive it offers has [N] members, and the
    list of (file name, bytes) of the cells is the list of
    ([<name>_] + member name, member content) of the archive, in the same
    order. *)
Theorem grid_cells_are_archive_members :
  forall (reqs : list Request) (ss : App2.SessionState) (f : UploadedFile)
         (d : Z) (n : nat) (g : App2.Grid),
    let w := calls reqs empty_world in
    App2.notice (pass w ss (Some f) d) = Some (App2.Success n) ->
    App2.grid (pass w ss (Some f) d) = Some g ->
    exists z,
      App2.download_all g = inl z /\
      List.length z = n /\
      map (fun c => (App2.page_file_name c, App2.img_bytes c))
        (App2.cells g) =
      map (fun zi =>
             ((splitext_root (name f) ++ "_" ++ filename zi)%string,
              content zi)) z.
Proof.
  intros reqs ss f d n g w Hn Hg.
  destruct (pass_notice Image convert_from_bytes save_png localtime refresh
              splitext_root w ss (Some f) d) as [_ Hs].
  destruct (Hs n Hn) as (f' & l & z & Ef & _ & Hr & -> & Hp).
  injection Ef as <-.
  destruct (calls_genuine Image convert_from_bytes save_png localtime refresh
              reqs empty_world) as [Hnd Hw];
    [constructor | intros p0 d0 v0 H0; discriminate H0 |].
  destruct (call_genuine Image convert_from_bytes save_png localtime refresh
              (getvalue f) d w Hnd Hw) as [_ [run Hrun]].
  rewrite Hr in Hrun. injection Hrun as Hrun. unfold converted in Hrun.
  destruct (convert_from_bytes (getvalue f) d) as [e|images];
    [discriminate|].
  destruct (save_all Image save_png images) as [e|pngs]; [discriminate|].
  injection Hrun as -> ->.
  rewrite Hp in Hg.
  rewrite (display_grid_eq _ _ _ pngs
             (inl (members localtime EmptyString run 0 pngs))
             (splitext_root (name f))) in Hg; try reflexivity.
  injection Hg as <-. simpl.
  exists (members localtime EmptyString run 0 pngs).
  split; [reflexivity|]. split; [apply members_length|].
  rewrite map_map. symmetry. apply members_as_downloads.
Qed.

End GridAndArchive.

(** X10 on the test double. *)
Lemma grid_cells_are_archive_members_witness :
  exists g z,
    App2.grid
      (App2.script_pass Mock.Image Mock.convert_from_bytes Mock.save_png
         Mock.localtime false Mock.splitext_root empty_world App2.clear
         (Some doc_pdf) 300) = Some g /\
    App2.download_all g = inl z /\
    map App2.page_file_name (App2.cells g) =
    map (fun zi => ("doc_" ++ filename zi)%string) z.
Proof.
  eexists.
  destruct (grid_cells_are_archive_members Mock.Image
              Mock.convert_from_bytes Mock.save_png Mock.localtime false
              Mock.splitext_root [] App2.clear doc_pdf 300 3 _
              eq_refl eq_refl) as (z & Hz & _ & Hm).
  exists z. split; [reflexivity|]. split; [exact Hz|].
  apply (f_equal (map fst)) in Hm. rewrite !map_map in Hm. exact Hm.
Defined.

(** ** More on the page viewer of [app1.py] *)

Section ViewerNavigation.

Context {platform : Platform}.

Import App1.

Variable Image : Type.
Variable convert_from_bytes : bytes -> Z -> Exc (list Image).
Variable save_png : Image -> Exc bytes.
Variable localtime : nat -> nat -> Stamp.
Variable refresh : bool.
Variable splitext_root : string -> string.

#[local] Abbreviation call :=
  (perform_conversion Image convert_from_bytes save_png localtime refresh).
#[local] Abbreviation pass :=
  (script_pass Image convert_from_bytes save_png localtime refresh
     splitext_root).
#[local] Abbreviation run :=
  (run_script Image convert_from_bytes save_png localtime refresh
     splitext_root).
#[local] Abbreviation action :=
  (step Image convert_from_bytes save_png localtime refresh splitext_root).
#[local] Abbreviation possible :=
  (reachable Image convert_from_bytes save_png localtime refresh
     splitext_root).

Lemma py_getitem_nth {A} (l : list A) (n : nat) (x : A) :
  nth_error l n = Some x -> py_getitem l (Z.of_nat n) = ret x.
Proof.
  intros H.
  destruct (py_getitem_in_range l (Z.of_nat n)) as [y [Hy Hn]].
  - assert (n < List.length l) by (apply nth_error_Some; congruence). lia.
  - rewrite Nat2Z.id in Hn. congruence.
Qed.

(** A run of the script while page [n] is being viewed. *)
Lemma pass_viewing w ss f d root l n x b :
  viewing ss f d root l n -> nth_error l n = Some x ->
  pass w ss (Some f) d b =
  if st_button (previous_clicked b) (Z.of_nat n =? 0)%Z then
    {| world_after := w;
       session_after := set_current_page_index ss (Z.of_nat n - 1);
       shown := Some (page_shown root l n x); status := RerunRequested |}
  else if st_button (next_clicked b)
            (Z.of_nat n =? Z.of_nat (List.length l) - 1)%Z then
    {| world_after := w;
       session_after := set_current_page_index ss (Z.of_nat n + 1);
       shown := Some (page_shown root l n x); status := RerunRequested |}
  else
    {| world_after := w; session_after := ss;
       shown := Some (page_shown root l n x); status := Finished |}.
Proof.
  intros (Hl & Ht & Hf & Hd & Hr & Hi & Hn) Hx.
  unfold script_pass. rewrite Hi.
  unfold needs_conversion. rewrite Hf, Hd, String.eqb_refl. simpl.
  rewrite Z.eqb_refl. simpl.
  unfold display. rewrite Hl, Ht. simpl.
  replace (0 <? Z.of_nat (List.length l))%Z with true
    by (symmetry; apply Z.ltb_lt; lia).
  rewrite Hi. simpl. rewrite (py_getitem_nth l n x Hx). simpl.
  rewrite Hr. reflexivity.
Qed.

Lemma viewing_set ss f d root l n m :
  viewing ss f d root l n -> m < List.length l ->
  viewing (set_current_page_index ss (Z.of_nat m)) f d root l m.
Proof.
  intros (Hl & Ht & Hf & Hd & Hr & Hi & Hn) Hm.
  unfold viewing. simpl. auto 10.
Qed.

Lemma set_index_same ss i :
  current_page_index ss = Some i -> set_current_page_index ss i = ss.
Proof. destruct ss. simpl. now intros ->. Qed.

Lemma set_index_twice ss i j :
  set_current_page_index (set_current_page_index ss i) j =
  set_current_page_index ss j.
Proof. reflexivity. Qed.

Lemma run_next w ss f d root l n x y :
  viewing ss f d root l n -> nth_error l n = Some x ->
  nth_error l (S n) = Some y ->
  run w ss (Some f) d click_next =
  ({| world := w; session := set_current_page_index ss (Z.of_nat (S n));
      uploaded_file := Some f; dpi := d |},
   [page_shown root l n x; page_shown root l (S n) y], Finished).
Proof.
  intros Hv Hx Hy.
  assert (Hlen : S n < List.length l) by (apply nth_error_Some; congruence).
  unfold run_script.
  rewrite (pass_viewing w ss f d root l n x click_next Hv Hx).
  cbn [click_next previous_clicked next_clicked st_button andb].
  replace (Z.of_nat n =? Z.of_nat (List.length l) - 1)%Z with false
    by (symmetry; apply Z.eqb_neq; lia).
  cbn [st_button negb andb status world_after session_after shown].
  replace (Z.of_nat n + 1)%Z with (Z.of_nat (S n)) by lia.
  rewrite (pass_viewing w _ f d root l (S n) y no_click
             (viewing_set ss f d root l n (S n) Hv Hlen) Hy).
  reflexivity.
Qed.

Lemma run_previous w ss f d root l n x y :
  viewing ss f d root l (S n) -> nth_error l (S n) = Some x ->
  nth_error l n = Some y ->
  run w ss (Some f) d click_previous =
  ({| world := w; session := set_current_page_index ss (Z.of_nat n);
      uploaded_file := Some f; dpi := d |},
   [page_shown root l (S n) x; page_shown root l n y], Finished).
Proof.
  intros Hv Hx Hy.
  assert (Hlen : n < List.length l) by (apply nth_error_Some; congruence).
  unfold run_script.
  rewrite (pass_viewing w ss f d root l (S n) x click_previous Hv Hx).
  cbn [click_previous previous_clicked next_clicked st_button].
  replace (Z.of_nat (S n) =? 0)%Z with false
    by (symmetry; apply Z.eqb_neq; lia).
  cbn [st_button negb andb status world_after session_after shown].
  replace (Z.of_nat (S n) - 1)%Z with (Z.of_nat n) by lia.
  rewrite (pass_viewing w _ f d root l n y no_click
             (viewing_set ss f d root l (S n) n Hv Hlen) Hy).
  reflexivity.
Qed.

(** X11. The navigation buttons move by exactly one page and stay inside
    the document.  While page [n] of a converted file is viewed, a click
    on Next shows that page once more and then, after the rerun, the page
    behind it, with its own bytes, and a click on Previous from there
    leads back to the session state before the two clicks.  On the last
    page Next, and on the first page Previous, are disabled and the run
    changes nothing.  None of these runs calls the conversion: the store
    is left as it was. *)
Theorem navigation_moves_one_page :
  forall (w : World) (ss : SessionState) (f : UploadedFile) (d : Z)
         (root : string) (l : list bytes) (n : nat) (x : bytes),
    viewing ss f d root l n ->
    nth_error l n = Some x ->
    (forall y, nth_error l (S n) = Some y ->
       run w ss (Some f) d click_next =
       ({| world := w;
           session := set_current_page_index ss (Z.of_nat (S n));
           uploaded_file := Some f; dpi := d |},
        [page_shown root l n x; page_shown root l (S n) y], Finished) /\
       viewing (set_current_page_index ss (Z.of_nat (S n))) f d root l (S n) /\
       run w (set_current_page_index ss (Z.of_nat (S n))) (Some f) d
         click_previous =
       ({| world := w; session := ss; uploaded_file := Some f; dpi := d |},
        [page_shown root l (S n) y; page_shown root l n x], Finished)) /\
    (S n = List.length l ->
       run w ss (Some f) d click_next =
       ({| world := w; session := ss; uploaded_file := Some f; dpi := d |},
        [page_shown root l n x], Finished)) /\
    (n = 0 ->
       run w ss (Some f) d click_previous =
       ({| world := w; session := ss; uploaded_file := Some f; dpi := d |},
        [page_shown root l n x], Finished)).
Proof.
  intros w ss f d root l n x Hv Hx. split; [|split].
  - intros y Hy.
    assert (Hlen : S n < List.length l) by (apply nth_error_Some; congruence).
    pose proof (viewing_set ss f d root l n (S n) Hv Hlen) as Hv'.
    split; [now apply run_next|]. split; [exact Hv'|].
    rewrite (run_previous w _ f d root l n y x Hv' Hy Hx).
    rewrite set_index_twice, set_index_same; [reflexivity|].
    now destruct Hv as (_ & _ & _ & _ & _ & Hi & _).
  - intros Hlast. unfold run_script.
    rewrite (pass_viewing w ss f d root l n x click_next Hv Hx).
    cbn [click_next previous_clicked next_clicked st_button andb].
    replace (Z.of_nat n =? Z.of_nat (List.length l) - 1)%Z with true
      by (symmetry; apply Z.eqb_eq; lia).
    reflexivity.
  - intros ->. unfold run_script.
    rewrite (pass_viewing w ss f d root l 0 x click_previous Hv Hx).
    reflexivity.
Qed.

End ViewerNavigation.

(** X11 on the session that views the last of three pages: Next changes
    nothing. *)
Lemma navigation_moves_one_page_witness :
  App1.session
    (fst (fst (App1.run_script Mock.Image Mock.convert_from_bytes
                 Mock.save_png Mock.localtime false Mock.splitext_root
                 empty_world (App1.session viewer_on_last_page)
                 (Some doc_pdf) 300 click_next)))
  = App1.session viewer_on_last_page.
Proof.
  destruct (navigation_moves_one_page Mock.Image Mock.convert_from_bytes
              Mock.save_png Mock.localtime false Mock.splitext_root
              empty_world (App1.session viewer_on_last_page) doc_pdf 300
              "doc"
              [[Byte.x89; Byte.x50; Byte.x4e; Byte.x47; Byte.x0a];
               [Byte.x89; Byte.x50; Byte.x4e; Byte.x47; Byte.x0b];
               [Byte.x89; Byte.x50; Byte.x4e; Byte.x47; Byte.x0c]]
              2 [Byte.x89; Byte.x50; Byte.x4e; Byte.x47; Byte.x0c])
    as (_ & Hlast & _).
  - unfold viewing. repeat split; try reflexivity. simpl. lia.
  - reflexivity.
  - rewrite (Hlast eq_refl). reflexivity.
Defined.

Section ViewerSession.

Context {platform : Platform}.

Import App1.

Variable Image : Type.
Variable convert_from_bytes : bytes -> Z -> Exc (list Image).
Variable save_png : Image -> Exc bytes.
Variable localtime : nat -> nat -> Stamp.
Variable refresh : bool.
Variable splitext_root : string -> string.

#[local] Abbreviation call :=
  (perform_conversion Image convert_from_bytes save_png localtime refresh).
#[local] Abbreviation pass :=
  (script_pass Image convert_from_bytes save_png localtime refresh
     splitext_root).
#[local] Abbreviation store :=
  (convert_and_store Image convert_from_bytes save_png localtime refresh
     splitext_root).
#[local] Abbreviation run :=
  (run_script Image convert_from_bytes save_png localtime refresh
     splitext_root).
#[local] Abbreviation action :=
  (step Image convert_from_bytes save_png localtime refresh splitext_root).
#[local] Abbreviation possible :=
  (reachable Image convert_from_bytes save_png localtime refresh
     splitext_root).

(** The display block touches nothing but the index. *)
Lemma display_keeps w ss b :
  image_bytes_list (session_after (display w ss b)) = image_bytes_list ss /\
  zip_data (session_after (display w ss b)) = zip_data ss /\
  pdf_filename (session_after (display w ss b)) = pdf_filename ss /\
  world_after (display w ss b) = w.
Proof.
  unfold display.
  destruct (image_bytes_list ss) as [[l|]|] eqn:El; simpl; auto.
  destruct (attr "total_pages" (total_pages ss)) as [e|total]; simpl; auto.
  destruct (0 <? total)%Z; simpl; auto.
  match goal with |- context [match ?c with inl _ => _ | inr _ => _ end] =>
    destruct c as [e|page] end; simpl; auto.
  destruct (st_button (previous_clicked b) (previous_disabled page));
    simpl; auto.
  destruct (st_button (next_clicked b) (next_disabled page)); simpl; auto.
Qed.

Lemma complete_same ss ss' :
  image_bytes_list ss' = image_bytes_list ss ->
  zip_data ss' = zip_data ss ->
  pdf_filename ss' = pdf_filename ss ->
  complete ss -> complete ss'.
Proof. unfold complete. now intros -> -> ->. Qed.

Lemma stored_complete r fid d root :
  complete
    (if is_list r
     then {| image_bytes_list := Some (list_or_None r);
             zip_data := Some (zip_or_message r);
             last_file_id := Some fid;
             last_dpi := Some d;
             pdf_filename := Some root;
             total_pages := Some (len_or_0 r);
             current_page_index := Some 0%Z |}
     else clear).
Proof.
  destruct r as [l z|m]; simpl; [|reflexivity].
  unfold complete; simpl. split; [now exists z | discriminate].
Qed.

Lemma pass_complete w ss up d b :
  complete ss -> complete (session_after (pass w ss up d b)).
Proof.
  intros Hc. unfold script_pass.
  set (ss0 := match current_page_index ss with
              | Some _ => ss
              | None => set_current_page_index ss 0
              end).
  assert (Hc0 : complete ss0)
    by (subst ss0; destruct (current_page_index ss); assumption).
  destruct up as [f|].
  - destruct (needs_conversion ss0 (file_id f) d) as [e|[|]]; simpl;
      [assumption| |].
    + destruct (store_result Image convert_from_bytes save_png localtime
                  refresh splitext_root w ss0 f d) as [r Hr].
      rewrite Hr. unfold ret. cbv beta iota.
      match goal with |- complete (session_after (display ?w' ?s b)) =>
        destruct (display_keeps w' s b) as (H1 & H2 & H3 & _);
        apply (complete_same s _ H1 H2 H3)
      end.
      apply stored_complete.
    + destruct (display_keeps w ss0 b) as (H1 & H2 & H3 & _).
      now apply (complete_same ss0 _ H1 H2 H3).
  - simpl. destruct (last_file_id ss0); [reflexivity | assumption].
Qed.

Lemma run_complete w ss up d b :
  complete ss -> complete (session (fst (fst (run w ss up d b)))).
Proof.
  intros Hc. unfold run_script.
  pose proof (pass_complete w ss up d b Hc) as H1.
  destruct (status (pass w ss up d b)); simpl; auto.
  now apply pass_complete.
Qed.

Lemma reachable_complete a : possible a -> complete (session a).
Proof.
  induction 1 as [w d|a e _ IH]; [reflexivity|].
  destruct e; simpl; apply run_complete; assumption.
Qed.

(** X12. The archive download of the sidebar ([app1.py] lines 78 to 86)
    never stops on a missing key and offers nothing but the stored
    archive: in every state of a session, before and after the
    [on_change] callbacks, it offers the archive under
    [<name>_all_pages.zip] when a page list is stored, and nothing when
    none is. *)
Theorem sidebar_offers_stored_archive :
  forall a,
    possible a ->
    complete (session a) /\
    sidebar_download (on_change (session a)) =
      sidebar_download (session a) /\
    (image_bytes_list (session a) = None ->
     sidebar_download (session a) = ret None) /\
    (forall l,
       image_bytes_list (session a) = Some (Some l) ->
       exists z root,
         zip_data (session a) = Some (inl z) /\
         pdf_filename (session a) = Some root /\
         sidebar_download (session a) =
           ret (Some (inl z, (root ++ "_all_pages.zip")%string))).
Proof.
  intros a Ha. pose proof (reachable_complete a Ha) as Hc.
  split; [exact Hc|]. split; [reflexivity|].
  unfold complete in Hc. split.
  - intros Hn. rewrite Hn in Hc. unfold sidebar_download. now rewrite Hc.
  - intros l Hl. rewrite Hl in Hc. destruct Hc as [[z Hz] Hr].
    destruct (pdf_filename (session a)) as [root|] eqn:Er; [|contradiction].
    exists z, root. split; [exact Hz|]. split; [reflexivity|].
    unfold sidebar_download. now rewrite Hz, Er.
Qed.

(** X13. Removing the file forgets everything: after the run that the
    removal starts, a session holds no page list, no archive and no
    recorded file, its index is 0, nothing is displayed, the sidebar
    offers no archive any more, and the store of [perform_conversion] is
    as it was. *)
Theorem removal_forgets_the_document :
  forall a,
    possible a ->
    let out := action (Upload None) a in
    image_bytes_list (session (fst (fst out))) = None /\
    zip_data (session (fst (fst out))) = None /\
    last_file_id (session (fst (fst out))) = None /\
    current_page_index (session (fst (fst out))) = Some 0%Z /\
    world (fst (fst out)) = world a /\
    snd (fst out) = [] /\
    snd out = Finished /\
    sidebar_download (session (fst (fst out))) = ret None.
Proof.
  intros a Ha out. subst out.
  pose proof (reachable_complete a Ha) as Hc.
  pose proof (reachable_consistent Image convert_from_bytes save_png
                localtime refresh splitext_root a Ha) as Hk.
  unfold step, run_script, script_pass. simpl.
  destruct (last_file_id (session a)) eqn:Ef; simpl;
    [repeat split; reflexivity|].
  unfold complete in Hc. unfold consistent in Hk.
  destruct (image_bytes_list (session a)) as [[l|]|];
    [destruct Hk as (_ & Hk & _); congruence | contradiction |].
  repeat split; auto.
  unfold sidebar_download. simpl. now rewrite Hc.
Qed.

End ViewerSession.

(** X12 on the session that views the last of three pages. *)
Lemma sidebar_offers_stored_archive_witness :
  exists z,
    sidebar_download (App1.session viewer_on_last_page) =
    ret (Some (inl z, "doc_all_pages.zip"%string)).
Proof.
  destruct (sidebar_offers_stored_archive Mock.Image Mock.convert_from_bytes
              Mock.save_png Mock.localtime false Mock.splitext_root
              viewer_on_last_page viewer_on_last_page_reachable)
    as (_ & _ & _ & H).
  assert (E : App1.image_bytes_list (App1.session viewer_on_last_page) =
              Some (Some [[Byte.x89; Byte.x50; Byte.x4e; Byte.x47; Byte.x0a];
                          [Byte.x89; Byte.x50; Byte.x4e; Byte.x47; Byte.x0b];
                          [Byte.x89; Byte.x50; Byte.x4e; Byte.x47; Byte.x0c]]))
    by (vm_compute; reflexivity).
  destruct (H _ E) as (z & root & _ & Hr & Hs).
  exists z. rewrite Hs.
  assert (Er : App1.pdf_filename (App1.session viewer_on_last_page) =
               Some "doc"%string) by (vm_compute; reflexivity).
  rewrite Er in Hr. injection Hr as <-. reflexivity.
Defined.

(** X13 on that session. *)
Lemma removal_forgets_the_document_witness :
  App1.session
    (fst (fst (App1.step Mock.Image Mock.convert_from_bytes Mock.save_png
                 Mock.localtime false Mock.splitext_root (App1.Upload None)
                 viewer_on_last_page)))
  = App1.set_current_page_index App1.clear 0.
Proof.
  destruct (removal_forgets_the_document Mock.Image Mock.convert_from_bytes
              Mock.save_png Mock.localtime false Mock.splitext_root
              viewer_on_last_page viewer_on_last_page_reachable)
    as (_ & _ & _ & _ & _ & _ & _ & _).
  reflexivity.
Defined.

Section ViewerUpload.

Context {platform : Platform}.

Import App1.

Variable Image : Type.
Variable convert_from_bytes : bytes -> Z -> Exc (list Image).
Variable save_png : Image -> Exc bytes.
Variable localtime : nat -> nat -> Stamp.
Variable refresh : bool.
Variable splitext_root : string -> string.

#[local] Abbreviation call :=
  (perform_conversion Image convert_from_bytes save_png localtime refresh).
#[local] Abbreviation pass :=
  (script_pass Image convert_from_bytes save_png localtime refresh
     splitext_root).
#[local] Abbreviation store :=
  (convert_and_store Image convert_from_bytes save_png localtime refresh
     splitext_root).
#[local] Abbreviation action :=
  (step Image convert_from_bytes save_png localtime refresh splitext_root).

Lemma store_eq w ss f d r :
  fst (call (getvalue f) d w) = ret r ->
  store w ss f d =
  (ret (if is_list r
        then {| image_bytes_list := Some (list_or_None r);
                zip_data := Some (zip_or_message r);
                last_file_id := Some (file_id f);
                last_dpi := Some d;
                pdf_filename := Some (splitext_root (name f));
                total_pages := Some (len_or_0 r);
                current_page_index := Some 0%Z |}
        else clear),
   snd (call (getvalue f) d w)).
Proof.
  unfold convert_and_store.
  destruct (call (getvalue f) d w) as [res w']. simpl. now intros ->.
Qed.

(** The run that follows the upload of a file the session has not
    recorded. *)
Lemma pass_new_file w ss f d r :
  last_file_id ss <> Some (file_id f) ->
  fst (call (getvalue f) d w) = ret r ->
  pass w (on_change ss) (Some f) d no_click =
  display (snd (call (getvalue f) d w))
    (if is_list r
     then {| image_bytes_list := Some (list_or_None r);
             zip_data := Some (zip_or_message r);
             last_file_id := Some (file_id f);
             last_dpi := Some d;
             pdf_filename := Some (splitext_root (name f));
             total_pages := Some (len_or_0 r);
             current_page_index := Some 0%Z |}
     else clear) no_click.
Proof.
  intros Hnew Hr. unfold script_pass.
  change (current_page_index (on_change ss)) with (Some 0%Z).
  cbv beta iota zeta.
  assert (Hg : needs_conversion (on_change ss) (file_id f) d = ret true).
  { unfold needs_conversion.
    change (last_file_id (on_change ss)) with (last_file_id ss).
    destruct (last_file_id ss) as [id|]; [|reflexivity].
    destruct (id =? file_id f)%string eqn:E; [|reflexivity].
    apply String.eqb_eq in E. congruence. }
  rewrite Hg. unfold ret at 1. cbv beta iota.
  rewrite (store_eq w _ f d r Hr). reflexivity.
Qed.

(** X14. What the viewer shows after a new file is uploaded is decided
    by the result of the conversion alone.  A document of at least one
    page is shown at its first page, named [<name>_page_001.png], with
    Previous disabled and the session state recording the file; a
    document of no pages is stored but nothing is displayed, no page
    being looked up in the empty list; a failed conversion leaves the
    session state empty and displays nothing.  In every case the run
    ends without an exception. *)
Theorem upload_shows_first_page :
  forall (a : App) (f : UploadedFile),
    last_file_id (session a) <> Some (file_id f) ->
    let out := action (Upload (Some f)) a in
    let r := fst (call (getvalue f) (dpi a) (world a)) in
    let root := splitext_root (name f) in
    snd out = Finished /\
    world (fst (fst out)) = snd (call (getvalue f) (dpi a) (world a)) /\
    (forall x rest z,
       r = ret (Converted (x :: rest) z) ->
       snd (fst out) = [page_shown root (x :: rest) 0 x] /\
       current_page_name (page_shown root (x :: rest) 0 x) =
         (root ++ "_page_001.png")%string /\
       viewing (session (fst (fst out))) f (dpi a) root (x :: rest) 0) /\
    (forall z,
       r = ret (Converted [] z) ->
       snd (fst out) = [] /\
       image_bytes_list (session (fst (fst out))) = Some (Some []) /\
       total_pages (session (fst (fst out))) = Some 0%Z /\
       last_file_id (session (fst (fst out))) = Some (file_id f)) /\
    (forall m,
       r = ret (ConversionError m) ->
       snd (fst out) = [] /\ session (fst (fst out)) = clear).
Proof.
  intros a f Hnew out r root. subst out r root.
  destruct (call_stores Image convert_from_bytes save_png localtime refresh
              (getvalue f) (dpi a) (world a)) as [r [Hr _]].
  unfold step, run_script.
  rewrite (pass_new_file (world a) (session a) f (dpi a) r Hnew Hr).
  rewrite Hr.
  destruct r as [[|x rest] z|m];
    cbn [is_list list_or_None zip_or_message len_or_0].
  - (* no page *)
    unfold display. simpl.
    repeat split; intros; try discriminate; auto.
  - (* at least one page *)
    unfold display.
    cbn [image_bytes_list total_pages attr current_page_index pdf_filename
         bind ret].
    replace (0 <? Z.of_nat (List.length (x :: rest)))%Z with true
      by (symmetry; apply Z.ltb_lt; simpl; lia).
    change (py_getitem (x :: rest) 0) with (@inr exn bytes x).
    cbn [no_click previous_clicked next_clicked st_button andb status
         world_after session_after shown world session].
    split; [reflexivity|]. split; [reflexivity|].
    split; [|split]; intros; try discriminate.
    match goal with H : ret (Converted _ _) = _ |- _ =>
      unfold ret in H; injection H as <- <- <- end.
    split; [reflexivity|]. split.
    + unfold page_shown. cbn [current_page_name].
      rewrite page_name_with_root. reflexivity.
    + unfold viewing. simpl. repeat split; auto. lia.
  - (* failure *)
    unfold display. simpl.
    repeat split; intros; try discriminate; auto.
Qed.

End ViewerUpload.

(** X14 on the test double: [doc.pdf] is uploaded to a fresh session. *)
Lemma upload_shows_first_page_witness :
  snd (App1.step Mock.Image Mock.convert_from_bytes Mock.save_png
         Mock.localtime false Mock.splitext_root
         (App1.Upload (Some doc_pdf))
         {| App1.world := empty_world; App1.session := App1.clear;
            App1.uploaded_file := None; App1.dpi := 300 |})
  = App1.Finished.
Proof.
  destruct (upload_shows_first_page Mock.Image Mock.convert_from_bytes
              Mock.save_png Mock.localtime false Mock.splitext_root
              {| App1.world := empty_world; App1.session := App1.clear;
                 App1.uploaded_file := None; App1.dpi := 300 |} doc_pdf)
    as (H & _).
  - discriminate.
  - exact H.
Defined.

(** ** The order of the member names *)

Lemma ascending_nth (l : list string) : forall i j a b,
  ascending l = true -> i < j ->
  nth_error l i = Some a -> nth_error l j = Some b ->
  String.ltb a b = true.
Proof.
  induction l as [|c l IH]; intros i j a b Hasc Hij Ha Hb;
    [destruct i; discriminate|].
  simpl in Hasc. apply andb_true_iff in Hasc. destruct Hasc as [Hc Hl].
  destruct j as [|j]; [lia|]. simpl in Hb.
  destruct i as [|i]; simpl in Ha.
  - injection Ha as <-. rewrite forallb_forall in Hc.
    apply Hc. eapply nth_error_In, Hb.
  - apply (IH i j a b Hl); auto. lia.
Qed.

Lemma ascending_999 :
  ascending (map (fun i => page_name EmptyString (Z.of_nat i)) (seq 0 999))
  = true.
Proof. vm_compute. reflexivity. Qed.

Section MemberOrder.

Context {platform : Platform}.

Variable Image : Type.
Variable convert_from_bytes : bytes -> Z -> Exc (list Image).
Variable save_png : Image -> Exc bytes.
Variable localtime : nat -> nat -> Stamp.

(** X15. Thanks to the zero padding, the members of the archive of a
    document of up to 999 pages sort by name in page order: the name of
    an earlier page always comes before the name of a later page in the
    lexicographic order of strings.  The bound cannot be raised:
    [page_1000.png] comes before [page_101.png]. *)
Theorem member_names_sort_in_page_order :
  forall (run : nat) (pdf_bytes : bytes) (dpi : Z) (l : list bytes)
         (z : ZipFile),
    perform_conversion_body Image convert_from_bytes save_png localtime run
      pdf_bytes dpi = ret (Converted l z) ->
    List.length l <= 999 ->
    (forall i j a b,
       i < j ->
       nth_error (namelist z) i = Some a ->
       nth_error (namelist z) j = Some b ->
       String.ltb a b = true) /\
    String.ltb (page_name EmptyString 999) (page_name EmptyString 100) = true.
Proof.
  intros run pdf_bytes dpi l z H Hlen. split; [|reflexivity].
  rewrite body_eq in H. unfold converted in H.
  destruct (convert_from_bytes pdf_bytes dpi) as [e|images]; [discriminate|].
  destruct (save_all Image save_png images) as [e|pngs]; [discriminate|].
  injection H as <- <-.
  intros i j a b Hij Ha Hb.
  rewrite members_namelist in Ha, Hb.
  assert (Hj : j < List.length
                     (map (fun k => page_name EmptyString (Z.of_nat k))
                        (seq 0 (List.length pngs))))
    by (apply nth_error_Some; congruence).
  rewrite length_map, length_seq in Hj.
  apply (ascending_nth _ i j a b ascending_999 Hij).
  - rewrite nth_error_map in *.
    rewrite nth_error_seq in *.
    destruct (Nat.ltb_spec i (List.length pngs)); [|discriminate].
    destruct (Nat.ltb_spec i 999); [assumption | lia].
  - rewrite nth_error_map in *.
    rewrite nth_error_seq in *.
    destruct (Nat.ltb_spec j (List.length pngs)); [|discriminate].
    destruct (Nat.ltb_spec j 999); [assumption | lia].
Qed.

End MemberOrder.

(** X15 on the three page document. *)
Lemma member_names_sort_in_page_order_witness :
  String.ltb "page_001.png" "page_003.png" = true.
Proof.
  destruct (member_names_sort_in_page_order Mock.Image
              Mock.convert_from_bytes Mock.save_png Mock.localtime 0
              Mock.three_pages 300 _ _ eq_refl) as [H _].
  - simpl. lia.
  - apply (H 0 2); [lia | reflexivity | reflexivity].
Defined.

(** ** [app.py] against [perform_conversion] *)

Section SameConversion.

Context {platform : Platform}.

Variable Image : Type.
Variable convert_from_bytes : bytes -> Z -> Exc (list Image).
Variable save_png : Image -> Exc bytes.
Variable localtime : nat -> nat -> Stamp.
Variable splitext_root : string -> string.



End SameConversion.
